(** * fd_agent: extractors, entity store, cross-reference and gap report

    A shallow embedding of the analysis core of the fd_agent backend:

    - [PyStr]: the Python [str] operations the code relies on;
    - [GapReporter]: [agents/gap_reporter.py];
    - [Records]: the records the extractors produce;
    - [Store]: [memory/structured_store.py];
    - [Agents]: the id construction, the storing of results and the
      matching of call sites with routes in [agents/orchestrator.py],
      [agents/memory_agent.py] and [agents/analyzer_agent.py];
    - [PyAst]: route extraction of [analyzers/python_analyzer.py];
    - [Dart]: widget and API-call extraction of
      [analyzers/flutter_analyzer.py];
    - [StoreQueries], [PyAstMore], [DartDetails], [AgentsMore] and the
      like: the queries and statistics of the store, the tree walk, the
      per-widget lists and the pubspec reader, and the memory statistics.

    Python strings are modelled as [string] (sequences of 8-bit
    characters): source texts and paths are taken to be ASCII, and the
    case conversions act on the ASCII letters. *)

From Stdlib Require Import ZArith Ascii.
From Stdlib Require DecimalString DecimalZ DecimalPos.
From stdpp Require Import gmap strings list fin_maps sorting.

Set Warnings "-clear-no-such-hyp,-register-all".

Local Open Scope Z_scope.
Local Open Scope nat_scope.

(* ===================================================================== *)
(** * Python string operations *)
(* ===================================================================== *)

Module PyStr.

Definition slash : ascii := "/"%char.
Definition newline : ascii := "010"%char.
Definition squote : ascii := "039"%char.
Definition dquote : ascii := "034"%char.
Definition backslash : ascii := "092"%char.

Definition is_upper (c : ascii) : bool :=
  let n := nat_of_ascii c in (65 <=? n) && (n <=? 90).
Definition is_lower (c : ascii) : bool :=
  let n := nat_of_ascii c in (97 <=? n) && (n <=? 122).
Definition is_digit (c : ascii) : bool :=
  let n := nat_of_ascii c in (48 <=? n) && (n <=? 57).

Definition lower_char (c : ascii) : ascii :=
  if is_upper c then ascii_of_nat (nat_of_ascii c + 32) else c.
Definition upper_char (c : ascii) : ascii :=
  if is_lower c then ascii_of_nat (nat_of_ascii c - 32) else c.

(** [s.lower()] and [s.upper()], on ASCII strings: Python's versions
    also convert letters outside ASCII, which the strings here do not
    have *)
Fixpoint lower (s : string) : string :=
  match s with
  | EmptyString => EmptyString
  | String c s' => String (lower_char c) (lower s')
  end.

Fixpoint upper (s : string) : string :=
  match s with
  | EmptyString => EmptyString
  | String c s' => String (upper_char c) (upper s')
  end.

(** [s.lstrip(c)], [s.rstrip(c)] and [s.strip(c)] for a one-character
    argument *)
Fixpoint lstrip (c : ascii) (s : string) : string :=
  match s with
  | EmptyString => EmptyString
  | String a s' => if Ascii.eqb a c then lstrip c s' else s
  end.

Fixpoint rstrip (c : ascii) (s : string) : string :=
  match s with
  | EmptyString => EmptyString
  | String a s' =>
      match rstrip c s' with
      | EmptyString => if Ascii.eqb a c then EmptyString else String a EmptyString
      | r => String a r
      end
  end.

Definition strip (c : ascii) (s : string) : string := rstrip c (lstrip c s).

(** [a in b]: [a] occurs in [b] as a contiguous substring *)
Fixpoint contains (a b : string) : bool :=
  String.prefix a b ||
  match b with
  | EmptyString => false
  | String _ b' => contains a b'
  end.

(** [s.count(c)] for a one-character argument *)
Fixpoint count (c : ascii) (s : string) : nat :=
  match s with
  | EmptyString => 0
  | String a s' => (if Ascii.eqb a c then 1 else 0) + count c s'
  end.

(** [s[:n]] and [s[n:]] *)
Fixpoint take (n : nat) (s : string) : string :=
  match n, s with
  | S n', String a s' => String a (take n' s')
  | _, _ => EmptyString
  end.

Fixpoint drop (n : nat) (s : string) : string :=
  match n, s with
  | S n', String _ s' => drop n' s'
  | _, _ => s
  end.

(** [s.split(sep)] for a one-character separator *)
Fixpoint split_aux (sep : ascii) (cur : string) (s : string) : list string :=
  match s with
  | EmptyString => [String.rev cur]
  | String a s' =>
      if Ascii.eqb a sep then String.rev cur :: split_aux sep EmptyString s'
      else split_aux sep (String a cur) s'
  end.

Definition split (sep : ascii) (s : string) : list string :=
  split_aux sep EmptyString s.

(** [c * n]: the string of [n] copies of a character *)
Fixpoint replicate (n : nat) (c : ascii) : string :=
  match n with
  | O => EmptyString
  | S n' => String c (replicate n' c)
  end.

(** the order of [sorted] on strings: lexicographic on character codes *)
Definition le (s1 s2 : string) : Prop := String.leb s1 s2 = true.

(** [x or default] on a string that may be [None] *)
Definition or_default (x : option string) (default : string) : string :=
  match x with
  | Some EmptyString | None => default
  | Some v => v
  end.

End PyStr.

(* ===================================================================== *)
(** * agents/gap_reporter.py *)
(* ===================================================================== *)

Module GapReporter.
Import PyStr.

(** The items of a dict with string keys, or the attributes of an
    object. *)
Abbreviation attrs := (gmap string string).

(** What the report reads a path and a method from: a dict, or an
    object with attributes, such as a [SimpleNamespace] or an instance
    of a dataclass. *)
Inductive record :=
  | Dict (items : attrs)
  | Object (attributes : attrs).

(** A declared contract: an object that may carry a [metadata], a
    [meta], both or neither. The loop reads the metadata through [_get]
    only, which reads the items of a dict and the attributes of an
    object the same way, and never takes its truth value: the metadata
    is kept as its items. *)
Record contract := {
  metadata : option attrs;
  meta : option attrs
}.

(** One item of [missing_backend_endpoints], [backend_without_contract]
    or [contracts_not_used_in_flutter]. *)
Record gap_entry := {
  ge_path : string;
  ge_method : string;
  ge_reason : string
}.

(** One item of [method_mismatches]. *)
Record mismatch_entry := {
  mm_path : string;
  mm_contract_method : string;
  mm_backend_methods : list string;
  mm_reason : string
}.

Record gap_report := {
  missing_backend_endpoints : list gap_entry;
  backend_without_contract : list gap_entry;
  contracts_not_used_in_flutter : list gap_entry;
  method_mismatches : list mismatch_entry
}.

Definition _get (attr_obj : record) (key : string) (default : string) : string :=
  match attr_obj with
  | Dict items => or_default (items !! key) default
  | Object attributes => or_default (attributes !! key) default
  end.

Definition _normalize_path (path : string) : string :=
  lower (strip slash path).

Definition _paths_match (a b : string) : bool :=
  let a_norm := _normalize_path a in
  let b_norm := _normalize_path b in
  String.eqb a_norm b_norm || contains a_norm b_norm || contains b_norm a_norm.

#[global] Instance le_dec : RelDecision PyStr.le.
Proof. intros s1 s2. unfold PyStr.le. apply _. Defined.

(** [sorted(s)] for a set of strings *)
Definition sorted (s : gset string) : list string :=
  merge_sort PyStr.le (elements s).

(** [backend_by_path.setdefault(k, set()).add(m)] *)
Definition index_add (d : gmap string (gset string)) (ep : record)
  : gmap string (gset string) :=
  let path := _get ep "path" "" in
  let method := upper (_get ep "method" "") in
  let k := _normalize_path path in
  <[k := default ∅ (d !! k) ∪ {[method]}]> d.

Definition build_index (backend_endpoints : list record)
  : gmap string (gset string) :=
  foldl index_add ∅ backend_endpoints.

(** [contract.metadata if hasattr(contract, "metadata")
     else getattr(contract, "meta", {})] *)
Definition contract_meta (c : contract) : attrs :=
  match metadata c with
  | Some m => m
  | None => default ∅ (meta c)
  end.

(** [contract.metadata if hasattr(contract, "metadata") else {}] *)
Definition contract_metadata_only (c : contract) : attrs :=
  default ∅ (metadata c).

(** The truth value Python gives a record: an empty dict is false, a
    dict with items is true, and so is an object, whose class defines
    neither [__bool__] nor [__len__]. *)
Definition truthy (r : record) : bool :=
  match r with
  | Dict items => negb (bool_decide (items = ∅))
  | Object _ => true
  end.

(** [bool(match)] for the result of the [next(..., None)] search:
    [None] is false, a record has its own truth value. *)
Definition found (match_ : option record) : bool :=
  match match_ with
  | Some ep => truthy ep
  | None => false
  end.

(** the generator condition of the [next(...)] search *)
Definition route_matches (path method : string) (ep : record) : bool :=
  _paths_match path (_get ep "path" "")
  && String.eqb method (upper (_get ep "method" "")).

(** [any(_paths_match(path, call.get("endpoint", "")) for call in ...)] *)
Definition used_in_flutter (path : string) (flutter_calls : list attrs) : bool :=
  existsb (fun call => _paths_match path (default "" (call !! "endpoint")))
          flutter_calls.

(** The three lists the contract loop appends to. *)
Record contract_lists := {
  cl_missing : list gap_entry;
  cl_not_used : list gap_entry;
  cl_mismatches : list mismatch_entry
}.

(** One iteration of [for contract in api_contracts]. The test
    [if not match:] is on the truth value of the search result: it holds
    when the search found nothing, and also when the record it found is
    an empty dict. *)
Definition contract_step (backend_endpoints : list record)
    (backend_by_path : gmap string (gset string))
    (flutter_calls : list attrs)
    (acc : contract_lists) (c : contract) : contract_lists :=
  let meta := Dict (contract_meta c) in
  let path := _get meta "path" "" in
  let method := upper (_get meta "method" "") in
  let match_ := List.find (route_matches path method) backend_endpoints in
  let acc1 :=
    if negb (found match_) then
      match backend_by_path !! _normalize_path path with
      | Some methods =>
          {| cl_missing := cl_missing acc;
             cl_not_used := cl_not_used acc;
             cl_mismatches := cl_mismatches acc ++
               [{| mm_path := path;
                   mm_contract_method := method;
                   mm_backend_methods := sorted methods;
                   mm_reason := "Method differs between contract and backend" |}] |}
      | None =>
          {| cl_missing := cl_missing acc ++
               [{| ge_path := path; ge_method := method;
                   ge_reason := "No matching FastAPI endpoint" |}];
             cl_not_used := cl_not_used acc;
             cl_mismatches := cl_mismatches acc |}
      end
    else acc in
  if used_in_flutter path flutter_calls then acc1
  else
    {| cl_missing := cl_missing acc1;
       cl_not_used := cl_not_used acc1 ++
         [{| ge_path := path; ge_method := method;
             ge_reason := "Not called from Flutter" |}];
       cl_mismatches := cl_mismatches acc1 |}.

(** [any(...)] of the loop over backend routes *)
Definition has_contract (api_contracts : list contract) (ep : record) : bool :=
  let ep_path := _get ep "path" "" in
  let route_method := upper (_get ep "method" "") in
  existsb (fun c =>
             let metadata := Dict (contract_metadata_only c) in
             _paths_match (_get metadata "path" "") ep_path
             && String.eqb (upper (_get metadata "method" "")) route_method)
          api_contracts.

Definition backend_step (api_contracts : list contract)
    (acc : list gap_entry) (ep : record) : list gap_entry :=
  if has_contract api_contracts ep then acc
  else acc ++ [{| ge_path := _get ep "path" "";
                  ge_method := upper (_get ep "method" "");
                  ge_reason := "Endpoint not covered by contract" |}].

Definition compute_gap_report (api_contracts : list contract)
    (backend_endpoints : list record) (flutter_calls : list attrs)
  : gap_report :=
  let backend_by_path := build_index backend_endpoints in
  let lists :=
    foldl (contract_step backend_endpoints backend_by_path flutter_calls)
          {| cl_missing := []; cl_not_used := []; cl_mismatches := [] |}
          api_contracts in
  let without := foldl (backend_step api_contracts) [] backend_endpoints in
  {| missing_backend_endpoints := cl_missing lists;
     backend_without_contract := without;
     contracts_not_used_in_flutter := cl_not_used lists;
     method_mismatches := cl_mismatches lists |}.

(** ** The three cases of a contract

    What the contract loop reads from a contract, and where the loop
    files the contract: in [missing_backend_endpoints], in
    [method_mismatches], or in neither list. *)
Definition contract_path (c : contract) : string :=
  _get (Dict (contract_meta c)) "path" "".
Definition contract_method (c : contract) : string :=
  upper (_get (Dict (contract_meta c)) "method" "").

(** the index key and the method a route is filed under *)
Definition route_key (ep : record) : string := _normalize_path (_get ep "path" "").
Definition route_method (ep : record) : string := upper (_get ep "method" "").

Inductive gap_case := Unfiled | MethodMismatch | Missing.

Definition gap_case_eqb (x y : gap_case) : bool :=
  match x, y with
  | Unfiled, Unfiled | MethodMismatch, MethodMismatch | Missing, Missing => true
  | _, _ => false
  end.

(** some route matches the contract on path (substring rule) and method *)
Definition has_backend_match (backend : list record) (c : contract) : bool :=
  existsb (route_matches (contract_path c) (contract_method c)) backend.

(** some route has the same normalized path as the contract *)
Definition same_path_present (backend : list record) (c : contract) : bool :=
  existsb (fun ep => String.eqb (_normalize_path (_get ep "path" ""))
                                (_normalize_path (contract_path c)))
          backend.

(** some route's path matches the contract's under the substring rule *)
Definition matching_path_present (backend : list record) (c : contract) : bool :=
  existsb (fun ep => _paths_match (contract_path c) (_get ep "path" "")) backend.

(** the first route that matches the contract on path and method *)
Definition first_match (backend : list record) (c : contract) : option record :=
  List.find (route_matches (contract_path c) (contract_method c)) backend.

(** the loop takes the search result as a match: there is a first
    matching route and it is not an empty dict *)
Definition match_taken (backend : list record) (c : contract) : bool :=
  found (first_match backend c).

Definition contract_case (backend : list record) (c : contract) : gap_case :=
  if match_taken backend c then Unfiled
  else if same_path_present backend c then MethodMismatch
  else Missing.

Definition in_case (k : gap_case) (backend : list record) (c : contract) : bool :=
  gap_case_eqb (contract_case backend c) k.

Definition missing_entry (c : contract) : gap_entry :=
  {| ge_path := contract_path c; ge_method := contract_method c;
     ge_reason := "No matching FastAPI endpoint" |}.

Definition not_used_entry (c : contract) : gap_entry :=
  {| ge_path := contract_path c; ge_method := contract_method c;
     ge_reason := "Not called from Flutter" |}.

Definition mismatch_entry_of (backend : list record) (c : contract)
  : mismatch_entry :=
  {| mm_path := contract_path c;
     mm_contract_method := contract_method c;
     mm_backend_methods :=
       sorted (default ∅ (build_index backend !! _normalize_path (contract_path c)));
     mm_reason := "Method differs between contract and backend" |}.

(** The repository's unit test, as data: the contracts are objects
    with a [metadata] dict, the routes are [SimpleNamespace] objects
    with a path and a method, the UI calls are dicts. *)
Definition mk_attrs (path method : string) : attrs :=
  <["path" := path]> (<["method" := method]> ∅).
Definition mk_contract (path method : string) : contract :=
  {| metadata := Some (mk_attrs path method); meta := None |}.
Definition mk_route (path method : string) : record :=
  Object (mk_attrs path method).

Definition test_contracts : list contract :=
  [mk_contract "/v1/foo" "GET"; mk_contract "/v1/bar" "POST";
   mk_contract "/v1/baz" "PUT"].
Definition test_backend : list record :=
  [mk_route "/v1/foo" "GET"; mk_route "/v1/bar" "GET";
   mk_route "/v1/qux" "DELETE"].
Definition test_flutter : list attrs :=
  [<["endpoint" := "/v1/foo"]> (<["method" := "GET"]> ∅)].

End GapReporter.

(* ===================================================================== *)
(** * Extraction records *)
(* ===================================================================== *)

(** The records the extractors hand to the agents, with the fields the
    store and the cross-reference read. The remaining fields of the
    dataclasses (parameter lists, dependencies, validators and the like)
    are computed from the matched node or text alone and are gathered in
    the record's JSON metadata when it is stored. *)
Module Records.

(** [analyzers/python_analyzer.py], [APIEndpoint] *)
Record APIEndpoint := {
  ep_name : string;
  ep_method : string;
  ep_path : string;
  ep_function_name : string;
  ep_file_path : string;
  ep_line_number : nat
}.

(** [analyzers/python_analyzer.py], [PydanticModel] *)
Record PydanticModel := {
  pm_name : string;
  pm_file_path : string;
  pm_line_number : nat
}.

(** [analyzers/flutter_analyzer.py], [FlutterWidget] *)
Record FlutterWidget := {
  fw_name : string;
  fw_type : string;
  fw_file_path : string;
  fw_line_start : nat;
  fw_line_end : nat
}.

(** the dict [_extract_api_calls] builds for a call site *)
Record api_call := {
  ac_type : string;
  ac_method : string;
  ac_endpoint : string;
  ac_file_path : string;
  ac_line : nat
}.

End Records.

(* ===================================================================== *)
(** * memory/structured_store.py *)
(* ===================================================================== *)

Module Store.

(** Timestamps are readings of a clock, in seconds. *)
Definition time := Z.

Record CodeEntity := {
  id : string;
  type : string;
  name : string;
  file_path : string;
  language : string;
  metadata : string;   (* the text [json.dumps(entity.metadata)] *)
  created_at : time;
  updated_at : time
}.

Record Relationship := {
  rel_id : string;
  source_entity_id : string;
  target_entity_id : string;
  relationship_type : string;
  rel_metadata : string;
  rel_created_at : time
}.

(** A row of [code_entities], without its primary key [id]. *)
Record entity_row := {
  row_type : string;
  row_name : string;
  row_file_path : string;
  row_language : string;
  row_metadata : string;
  row_created_at : time;
  row_updated_at : time
}.

(** A row of [relationships], without its primary key. *)
Record relationship_row := {
  row_source_entity_id : string;
  row_target_entity_id : string;
  row_relationship_type : string;
  row_rel_metadata : string;
  row_rel_created_at : time
}.

(** A row of [api_mappings], without its primary key. *)
Record mapping_row := {
  row_flutter_widget_id : string;
  row_python_endpoint_id : string;
  row_mapping_type : string;
  row_mapping_metadata : string;
  row_mapping_created_at : time
}.

(** The tables of [init_db], each keyed by its [id TEXT PRIMARY KEY].
    The foreign keys are declarations only: the connection never turns
    their enforcement on. *)
Record db := {
  code_entities : gmap string entity_row;
  relationships : gmap string relationship_row;
  api_mappings : gmap string mapping_row
}.

Definition init_db : db :=
  {| code_entities := ∅; relationships := ∅; api_mappings := ∅ |}.

(** [add_entity]. [INSERT OR REPLACE] removes the row that holds the
    same primary key and inserts the new one; a column that the
    statement does not list takes its default, so [created_at] is
    [CURRENT_TIMESTAMP], here [db_now]; [updated_at] is the
    [datetime.now()] the statement passes, here [py_now]. Returns the
    new tables and [True]. *)
Definition add_entity (d : db) (entity : CodeEntity) (py_now db_now : time)
  : db * bool :=
  ({| code_entities :=
        <[id entity :=
            {| row_type := type entity;
               row_name := name entity;
               row_file_path := file_path entity;
               row_language := language entity;
               row_metadata := metadata entity;
               row_created_at := db_now;
               row_updated_at := py_now |}]> (code_entities d);
      relationships := relationships d;
      api_mappings := api_mappings d |}, true).

(** [add_relationship] *)
Definition add_relationship (d : db) (relationship : Relationship)
    (db_now : time) : db * bool :=
  ({| code_entities := code_entities d;
      relationships :=
        <[rel_id relationship :=
            {| row_source_entity_id := source_entity_id relationship;
               row_target_entity_id := target_entity_id relationship;
               row_relationship_type := relationship_type relationship;
               row_rel_metadata := rel_metadata relationship;
               row_rel_created_at := db_now |}]> (relationships d);
      api_mappings := api_mappings d |}, true).

(** [add_api_mapping] *)
Definition add_api_mapping (d : db) (flutter_widget_id python_endpoint_id
    mapping_type metadata : string) (db_now : time) : db * bool :=
  let mapping_id := flutter_widget_id +:+ "_" +:+ python_endpoint_id in
  ({| code_entities := code_entities d;
      relationships := relationships d;
      api_mappings :=
        <[mapping_id :=
            {| row_flutter_widget_id := flutter_widget_id;
               row_python_endpoint_id := python_endpoint_id;
               row_mapping_type := mapping_type;
               row_mapping_metadata := metadata;
               row_mapping_created_at := db_now |}]> (api_mappings d) |}, true).

End Store.

(* ===================================================================== *)
(** * agents/orchestrator.py, agents/memory_agent.py,
      agents/analyzer_agent.py *)
(* ===================================================================== *)

Module Agents.
Import PyStr Records Store.

(** [str(n)] of an integer *)
Definition str_of_int (z : Z) : string :=
  DecimalString.NilZero.string_of_int (Z.to_int z).

(** The results of the two analyzers, as the agents read them. *)
Record flutter_results := {
  widgets : list FlutterWidget;
  api_calls : list api_call
}.

Record python_results := {
  endpoints : list APIEndpoint;
  models : list PydanticModel
}.

(** [analyzer_agent.py], [_endpoints_match] *)
Definition _endpoints_match (flutter_endpoint python_endpoint : string) : bool :=
  let flutter_clean := lower (strip slash flutter_endpoint) in
  let python_clean := lower (strip slash python_endpoint) in
  contains flutter_clean python_clean || contains python_clean flutter_clean.

(** [memory_agent.py], [_paths_match] *)
Definition _paths_match (path1 path2 : string) : bool :=
  let path1_clean := lower (strip slash path1) in
  let path2_clean := lower (strip slash path2) in
  contains path1_clean path2_clean || contains path2_clean path1_clean.

(** no row of the [relationships] table is a self-edge *)
Definition loop_free (d : db) : Prop :=
  forall k row, relationships d !! k = Some row ->
                row_source_entity_id row <> row_target_entity_id row.

(** One item of the list [_map_api_calls] returns; its confidence is
    the constant 0.9, kept as the pair (9, 10). *)
Record api_mapping := {
  flutter_endpoint : string;
  flutter_method : string;
  flutter_file : string;
  python_endpoint : string;
  python_method : string;
  python_file : string;
  python_function : string;
  confidence : nat * nat
}.

(** [analyzer_agent.py], [_map_api_calls] *)
Definition _map_api_calls (fr : flutter_results) (pr : python_results)
  : list api_mapping :=
  flat_map (fun api_call =>
    let flutter_endpoint := ac_endpoint api_call in
    let flutter_method := ac_method api_call in
    flat_map (fun endpoint =>
      if _endpoints_match flutter_endpoint (ep_path endpoint)
         && String.eqb (upper flutter_method) (ep_method endpoint)
      then [{| flutter_endpoint := flutter_endpoint;
               flutter_method := flutter_method;
               flutter_file := ac_file_path api_call;
               python_endpoint := ep_path endpoint;
               python_method := ep_method endpoint;
               python_file := ep_file_path endpoint;
               python_function := ep_name endpoint;
               confidence := (9, 10) |}]
      else [])
      (endpoints pr))
    (api_calls fr).

Section Process.

(** The built-in [hash] of the running interpreter on strings. *)
Variable hash : string -> Z.

(** [json.dumps] of the metadata dicts the agents build. *)
Variable widget_metadata : FlutterWidget -> string.
Variable endpoint_metadata : APIEndpoint -> string.
Variable model_metadata : PydanticModel -> string.
Variable mapping_metadata : api_call -> APIEndpoint -> string.
Variable calls_metadata : api_call -> APIEndpoint -> string.

(** The clock: the readings of [datetime.now()] and of the database's
    [CURRENT_TIMESTAMP] at the n-th write of the process. *)
Variable py_clock : nat -> time.
Variable db_clock : nat -> time.

Definition widget_entity_id (widget : FlutterWidget) : string :=
  "flutter_widget_" +:+ fw_name widget +:+ "_"
    +:+ str_of_int (hash (fw_file_path widget)).

Definition endpoint_entity_id (endpoint : APIEndpoint) : string :=
  "python_endpoint_" +:+ ep_name endpoint +:+ "_"
    +:+ str_of_int (hash (ep_file_path endpoint)).

Definition model_entity_id (model : PydanticModel) : string :=
  "python_model_" +:+ pm_name model +:+ "_"
    +:+ str_of_int (hash (pm_file_path model)).

Definition api_call_entity_id (api_call : api_call) : string :=
  "flutter_api_call_" +:+ str_of_int (hash (ac_file_path api_call)) +:+ "_"
    +:+ str_of_int (Z.of_nat (ac_line api_call)).

Definition widget_entity (n : nat) (widget : FlutterWidget) : CodeEntity :=
  {| id := widget_entity_id widget;
     type := "widget";
     name := fw_name widget;
     file_path := fw_file_path widget;
     language := "dart";
     metadata := widget_metadata widget;
     created_at := py_clock n;
     updated_at := py_clock n |}.

Definition endpoint_entity (n : nat) (endpoint : APIEndpoint) : CodeEntity :=
  {| id := endpoint_entity_id endpoint;
     type := "api_endpoint";
     name := ep_name endpoint;
     file_path := ep_file_path endpoint;
     language := "python";
     metadata := endpoint_metadata endpoint;
     created_at := py_clock n;
     updated_at := py_clock n |}.

Definition model_entity (n : nat) (model : PydanticModel) : CodeEntity :=
  {| id := model_entity_id model;
     type := "model";
     name := pm_name model;
     file_path := pm_file_path model;
     language := "python";
     metadata := model_metadata model;
     created_at := py_clock n;
     updated_at := py_clock n |}.

(** One [await self.structured_store.add_entity(entity)] of a loop:
    the state is the tables and the number of writes so far. *)
Definition store_entity {A} (mk : nat -> A -> CodeEntity)
    (st : db * nat) (x : A) : db * nat :=
  let '(d, n) := st in
  ((add_entity d (mk n x) (py_clock n) (db_clock n)).1, S n).

(** [orchestrator.py], [_store_analysis_results]: the writes to the
    structured store, in order. The copies sent to the vector store, a
    separate text index, are left out. *)
Definition _store_analysis_results (fr : flutter_results)
    (pr : python_results) (st : db * nat) : db * nat :=
  let st1 := foldl (store_entity widget_entity) st (widgets fr) in
  let st2 := foldl (store_entity endpoint_entity) st1 (endpoints pr) in
  foldl (store_entity model_entity) st2 (models pr).

(** [orchestrator.py], [_create_api_mappings] *)
Definition _create_api_mappings (fr : flutter_results)
    (pr : python_results) (st : db * nat) : db * nat :=
  foldl (fun st api_call =>
    let endpoint_path := ac_endpoint api_call in
    foldl (fun (st : db * nat) endpoint =>
      if contains (ep_path endpoint) endpoint_path
         || contains endpoint_path (ep_path endpoint)
      then
        let flutter_widget_id := api_call_entity_id api_call in
        let python_endpoint_id := endpoint_entity_id endpoint in
        ((add_api_mapping st.1 flutter_widget_id python_endpoint_id
            "api_call" (mapping_metadata api_call endpoint)
            (db_clock st.2)).1, S st.2)
      else st)
      st (endpoints pr))
    st (api_calls fr).

(** The [Relationship] that [_create_cross_references] builds for a
    call site and a route. *)
Definition calls_relationship (n : nat) (api_call : api_call)
    (endpoint : APIEndpoint) : Relationship :=
  {| rel_id := "api_call_" +:+ str_of_int (hash (ac_file_path api_call))
                 +:+ "_" +:+ str_of_int (hash (ep_file_path endpoint));
     source_entity_id := api_call_entity_id api_call;
     target_entity_id := endpoint_entity_id endpoint;
     relationship_type := "calls";
     rel_metadata := calls_metadata api_call endpoint;
     rel_created_at := py_clock n |}.

(** [memory_agent.py], [_create_cross_references] *)
Definition _create_cross_references (fr : flutter_results)
    (pr : python_results) (st : db * nat) : db * nat :=
  foldl (fun st api_call =>
    let endpoint_path := ac_endpoint api_call in
    foldl (fun (st : db * nat) endpoint =>
      if _paths_match endpoint_path (ep_path endpoint)
      then ((add_relationship st.1 (calls_relationship st.2 api_call endpoint)
               (db_clock st.2)).1, S st.2)
      else st)
      st (endpoints pr))
    st (api_calls fr).

End Process.

End Agents.

(* ===================================================================== *)
(** * analyzers/python_analyzer.py: route extraction *)
(* ===================================================================== *)

Module PyAst.
Import PyStr Records.

(** Expressions of the [ast] module, as far as decorators need them.
    [Constant] carries a string literal. A literal that is not a string
    (a number, [None], bytes) is not represented: as the first argument
    of a route decorator the code returns its value, which is no path
    string. [OtherExpr] stands for the expression forms that are not
    literals. Keyword arguments of a call are left out: the extractor
    reads [args] only. *)
Inductive expr :=
| Constant (value : string)
| Name (id : string)
| Attribute (value : expr) (attr : string)
| Call (func : expr) (args : list expr)
| OtherExpr.

(** Nodes of the tree: the two kinds of function definition, which are
    distinct classes of [ast], and any other node with its children. *)
Inductive node :=
| FunctionDef (name : string) (decorator_list : list expr)
              (lineno : nat) (body : list node)
| AsyncFunctionDef (name : string) (decorator_list : list expr)
                   (lineno : nat) (body : list node)
| OtherNode (children : list node).

Definition Module_ (body : list node) : node := OtherNode body.

Definition iter_child_nodes (n : node) : list node :=
  match n with
  | FunctionDef _ _ _ body | AsyncFunctionDef _ _ _ body => body
  | OtherNode children => children
  end.

Fixpoint node_size (n : node) : nat :=
  let fix nodes_size (l : list node) : nat :=
    match l with
    | [] => 0
    | x :: l' => node_size x + nodes_size l'
    end in
  match n with
  | FunctionDef _ _ _ body | AsyncFunctionDef _ _ _ body => S (nodes_size body)
  | OtherNode children => S (nodes_size children)
  end.

(** [ast.walk]: breadth first, from a queue; each step yields one node,
    so the number of nodes of the tree is the number of steps. *)
Fixpoint walk_queue (steps : nat) (todo : list node) : list node :=
  match steps with
  | O => []
  | S steps' =>
      match todo with
      | [] => []
      | n :: rest => n :: walk_queue steps' (rest ++ iter_child_nodes n)
      end
  end.

Definition walk (tree : node) : list node := walk_queue (node_size tree) [tree].

(** [_extract_path_from_decorator], on the arguments of the call *)
Definition _extract_path_from_decorator (args : list expr) : string :=
  match args with
  | Constant value :: _ => value
  | _ => ""
  end.

Definition route_verbs : list string := ["get"; "post"; "put"; "delete"; "patch"].

(** the body of [for decorator in node.decorator_list] *)
Definition endpoints_of_decorator (name file_path : string) (lineno : nat)
    (decorator : expr) : list APIEndpoint :=
  match decorator with
  | Call (Attribute _ attr) args =>
      if bool_decide (attr ∈ route_verbs)
      then [{| ep_name := name;
               ep_method := upper attr;
               ep_path := _extract_path_from_decorator args;
               ep_function_name := name;
               ep_file_path := file_path;
               ep_line_number := lineno |}]
      else []
  | _ => []
  end.

(** the body of [for node in ast.walk(tree)]:
    [isinstance(node, ast.FunctionDef)] holds for [FunctionDef] nodes
    only *)
Definition endpoints_of_node (file_path : string) (n : node) : list APIEndpoint :=
  match n with
  | FunctionDef name decorator_list lineno _ =>
      flat_map (endpoints_of_decorator name file_path lineno) decorator_list
  | _ => []
  end.

Definition _extract_fastapi_endpoints (tree : node) (file_path : string)
  : list APIEndpoint :=
  flat_map (endpoints_of_node file_path) (walk tree).

(** The module [api/routes/agent.py] of the repository: two imports,
    an assignment, the plain function [get_orchestrator], and the two
    route functions, each an [async def] under one [@router.get("<path>")]
    decorator. [route_def] is the kind of definition of the route
    functions, [AsyncFunctionDef] in the file. *)
Definition route_decorator (verb path : string) : expr :=
  Call (Attribute (Name "router") verb) [Constant path].

Definition agent_routes
    (route_def : string -> list expr -> nat -> list node -> node) : node :=
  Module_
    [OtherNode []; OtherNode []; OtherNode [];
     FunctionDef "get_orchestrator" [] 8 [OtherNode []];
     route_def "build_feature_graph" [route_decorator "get" "/feature-graph"] 13
       [OtherNode []; OtherNode []; OtherNode []; OtherNode []];
     route_def "gap_report" [route_decorator "get" "/gap-report"] 21
       [OtherNode []; OtherNode []; OtherNode []; OtherNode []]].

End PyAst.

(* ===================================================================== *)
(** * analyzers/flutter_analyzer.py: widgets and API calls *)
(* ===================================================================== *)

Module Dart.
Import PyStr Records.

(** ** The regular expressions of the analyzer

    The patterns of [_extract_widgets] and [_extract_api_calls] are
    sequences of literal texts, single characters of a class, and
    greedy repetitions of a class, some of them in a capturing group.
    In each of them a repetition is followed by a character that is not
    of the repeated class, so that the longest run is the only run a
    backtracking matcher can succeed with ([PatternFacts.match_items_iff]
    below): matching runs left to right without backtracking. *)

(** The classes [\s] and [\w] on ASCII characters. A [str] pattern of
    Python also takes the blanks, letters and digits outside ASCII,
    which the texts here do not have ([ascii_text] below). *)
Definition is_space (c : ascii) : bool :=
  let n := nat_of_ascii c in
  ((9 <=? n) && (n <=? 13)) || ((28 <=? n) && (n <=? 32)).

Definition is_word (c : ascii) : bool :=
  is_upper c || is_lower c || is_digit c || Ascii.eqb c "_".

Definition is_quote (c : ascii) : bool :=
  Ascii.eqb c squote || Ascii.eqb c dquote.

Definition not_quote (c : ascii) : bool := negb (is_quote c).

Inductive ritem :=
| Lit (text : string)                           (* literal text *)
| One (cls : ascii -> bool)                     (* [...] *)
| Plus (cls : ascii -> bool) (capture : bool)   (* c+, or (c+) *)
| Star (cls : ascii -> bool).                   (* c* *)

(** A pattern: its text, as the raw string of the source, and its items. *)
Record pattern := {
  source : string;
  items : list ritem
}.

(** the longest run of characters of a class at the head of a string,
    and what follows it *)
Fixpoint span (cls : ascii -> bool) (s : string) : string * string :=
  match s with
  | EmptyString => (EmptyString, EmptyString)
  | String c s' =>
      if cls c then let '(run, rest) := span cls s' in (String c run, rest)
      else (EmptyString, s)
  end.

(** Match the items at the head of [s]: the captured groups and the
    length of the match. *)
Fixpoint match_items (its : list ritem) (s : string)
  : option (list string * nat) :=
  match its with
  | [] => Some ([], 0)
  | Lit text :: its' =>
      if String.prefix text s then
        match match_items its' (drop (String.length text) s) with
        | Some (groups, n) => Some (groups, String.length text + n)
        | None => None
        end
      else None
  | One cls :: its' =>
      match s with
      | String c s' =>
          if cls c then
            match match_items its' s' with
            | Some (groups, n) => Some (groups, S n)
            | None => None
            end
          else None
      | EmptyString => None
      end
  | Plus cls capture :: its' =>
      let '(run, rest) := span cls s in
      match run with
      | EmptyString => None
      | _ =>
          match match_items its' rest with
          | Some (groups, n) =>
              Some (if capture then run :: groups else groups,
                    String.length run + n)
          | None => None
          end
      end
  | Star cls :: its' =>
      let '(run, rest) := span cls s in
      match match_items its' rest with
      | Some (groups, n) => Some (groups, String.length run + n)
      | None => None
      end
  end.

(** A match object: [m.start()], [m.end()] and the groups. *)
Record re_match := {
  m_start : nat;
  m_end : nat;
  m_groups : list string
}.

(** [match.group(1)] *)
Definition group1 (m : re_match) : string := nth 0 (m_groups m) "".

(** [re.finditer]: the matches from left to right, the search resuming
    where the previous match ended. [pos] is the position of the head
    of [s] in the text, [skip] the number of characters still covered
    by the previous match. *)
Fixpoint finditer_from (its : list ritem) (pos skip : nat) (s : string)
  : list re_match :=
  match s with
  | EmptyString => []
  | String _ s' =>
      match skip with
      | S skip' => finditer_from its (S pos) skip' s'
      | O =>
          match match_items its s with
          | Some (groups, n) =>
              {| m_start := pos; m_end := pos + n; m_groups := groups |}
                :: finditer_from its (S pos) (n - 1) s'
          | None => finditer_from its (S pos) 0 s'
          end
      end
  end.

Definition finditer (p : pattern) (content : string) : list re_match :=
  finditer_from (items p) 0 0 content.

(** [content[:pos].count('\n') + 1] *)
Definition line_of (content : string) (pos : nat) : nat :=
  count newline (take pos content) + 1.

(** ** [_find_class_end] *)

(** The loop of [_find_class_end] over [content[start_pos:]]: [i] is
    the index of the head of [rest]. *)
Fixpoint class_end_scan (i : nat) (brace_count : Z) (in_class : bool)
    (rest : string) : option nat :=
  match rest with
  | EmptyString => None
  | String char rest' =>
      if Ascii.eqb char "{" then
        class_end_scan (S i) (brace_count + 1)%Z true rest'
      else if Ascii.eqb char "}" then
        let brace_count' := (brace_count - 1)%Z in
        if in_class && (brace_count' =? 0)%Z then Some i
        else class_end_scan (S i) brace_count' in_class rest'
      else class_end_scan (S i) brace_count in_class rest'
  end.

Definition _find_class_end (content : string) (start_pos : nat) : nat :=
  match class_end_scan start_pos 0%Z false (drop start_pos content) with
  | Some i => count newline (take i content) + 1
  | None => count newline content + 1
  end.

(** ** [_extract_widgets] *)

(** [class\s+(\w+)\s+extends\s+<base>\s*\{] *)
Definition widget_items (base : string) : list ritem :=
  [Lit "class"; Plus is_space false; Plus is_word true; Plus is_space false;
   Lit "extends"; Plus is_space false; Lit base; Star is_space; Lit "{"].

Definition stateless_pattern : pattern :=
  {| source := "class\s+(\w+)\s+extends\s+StatelessWidget\s*\{";
     items := widget_items "StatelessWidget" |}.

Definition stateful_pattern : pattern :=
  {| source := "class\s+(\w+)\s+extends\s+StatefulWidget\s*\{";
     items := widget_items "StatefulWidget" |}.

(** the record built for one match *)
Definition widget_of (content file_path type : string) (m : re_match)
  : FlutterWidget :=
  {| fw_name := group1 m;
     fw_type := type;
     fw_file_path := file_path;
     fw_line_start := count newline (take (m_start m) content) + 1;
     fw_line_end := _find_class_end content (m_start m) |}.

Definition _extract_widgets (content file_path : string) : list FlutterWidget :=
  let widgets := [] in
  let widgets :=
    foldl (fun widgets m =>
             widgets ++ [widget_of content file_path "StatelessWidget" m])
          widgets (finditer stateless_pattern content) in
  foldl (fun widgets m =>
           widgets ++ [widget_of content file_path "StatefulWidget" m])
        widgets (finditer stateful_pattern content).

(** ** [_extract_api_calls] *)

(** The dio pattern of a verb: the text dio.<verb>( then a quote of
    either kind, a captured run of one or more characters that are not
    quotes, and a quote. [source] is the raw string of the Python
    source, with its backslashes and both quote characters. *)
Definition dio_pattern (verb : string) : pattern :=
  {| source := "dio\." +:+ verb +:+ "\([\'" +:+ String dquote "]([^\'"
                 +:+ String dquote "]+)[\'" +:+ String dquote "]";
     items := [Lit ("dio." +:+ verb +:+ "("); One is_quote;
               Plus not_quote true; One is_quote] |}.

(** The http pattern of a verb: the text http.<verb>(Uri.parse( then
    a quote, a captured run of non-quote characters, and a quote. *)
Definition http_pattern (verb : string) : pattern :=
  {| source := "http\." +:+ verb +:+ "\(Uri\.parse\([\'" +:+ String dquote "]([^\'"
                 +:+ String dquote "]+)[\'" +:+ String dquote "]";
     items := [Lit ("http." +:+ verb +:+ "(Uri.parse("); One is_quote;
               Plus not_quote true; One is_quote] |}.

Definition dio_patterns : list pattern :=
  [dio_pattern "get"; dio_pattern "post"; dio_pattern "put"; dio_pattern "delete"].

Definition http_patterns : list pattern :=
  [http_pattern "get"; http_pattern "post"].

(** The method of a record: the pattern's text is split at the
    backslashes, the second piece is split at the opening parentheses,
    and the first piece of that is taken. Each of the six patterns has
    a backslash, so the indices are in range. *)
Definition method_of_pattern (p : pattern) : string :=
  nth 0 (split "(" (nth 1 (split backslash (source p)) "")) "".

Definition call_of (content file_path type : string) (p : pattern)
    (m : re_match) : api_call :=
  {| ac_type := type;
     ac_method := method_of_pattern p;
     ac_endpoint := group1 m;
     ac_file_path := file_path;
     ac_line := count newline (take (m_start m) content) + 1 |}.

Definition _extract_api_calls (content file_path : string) : list api_call :=
  let api_calls := [] in
  let api_calls :=
    foldl (fun api_calls p =>
             foldl (fun api_calls m =>
                      api_calls ++ [call_of content file_path "dio" p m])
                   api_calls (finditer p content))
          api_calls dio_patterns in
  foldl (fun api_calls p =>
           foldl (fun api_calls m =>
                    api_calls ++ [call_of content file_path "http" p m])
                 api_calls (finditer p content))
        api_calls http_patterns.

(** ** What a pattern matches

    The meaning of the items, with no strategy: [matches its s groups n]
    holds when the first [n] characters of [s] can be cut into pieces,
    one per item, each piece being what its item stands for. *)
Fixpoint all_chars (cls : ascii -> bool) (s : string) : bool :=
  match s with
  | EmptyString => true
  | String c s' => cls c && all_chars cls s'
  end.

Inductive matches : list ritem -> string -> list string -> nat -> Prop :=
| matches_nil s : matches [] s [] 0
| matches_lit text its s groups n :
    matches its s groups n ->
    matches (Lit text :: its) (text +:+ s) groups (String.length text + n)
| matches_one cls its c s groups n :
    cls c = true ->
    matches its s groups n ->
    matches (One cls :: its) (String c s) groups (S n)
| matches_plus cls capture its run s groups n :
    run <> "" -> all_chars cls run = true ->
    matches its s groups n ->
    matches (Plus cls capture :: its) (run +:+ s)
            (if capture then run :: groups else groups)
            (String.length run + n)
| matches_star cls its run s groups n :
    all_chars cls run = true ->
    matches its s groups n ->
    matches (Star cls :: its) (run +:+ s) groups (String.length run + n).

Definition all_ascii : list ascii := map ascii_of_nat (seq 0 256).

(** no character is of both classes *)
Definition disjoint_classes (cls cls' : ascii -> bool) : bool :=
  forallb (fun c => negb (cls c && cls' c)) all_ascii.

(** what follows a repetition of [cls] starts with a character that
    is not of [cls] *)
Definition first_ok (cls : ascii -> bool) (its : list ritem) : bool :=
  match its with
  | Lit (String c _) :: _ => negb (cls c)
  | One cls' :: _ | Plus cls' _ :: _ => disjoint_classes cls cls'
  | _ => false
  end.

Fixpoint follow_ok (its : list ritem) : bool :=
  match its with
  | [] => true
  | Plus cls _ :: its' | Star cls :: its' => first_ok cls its' && follow_ok its'
  | _ :: its' => follow_ok its'
  end.

(** the head of a string, if any, is not of the class *)
Definition head_not (cls : ascii -> bool) (s : string) : Prop :=
  match s with
  | EmptyString => True
  | String c _ => cls c = false
  end.

(** ** What the extraction is to produce

    The end of a scope by counting braces, the shape of a component
    declaration, and the relation between the declarations of a text and
    the records extracted from it. *)
Definition lbrace : ascii := "{"%char.
Definition rbrace : ascii := "}"%char.

(** matches come in the order of the text and do not overlap *)
Definition before (m1 m2 : re_match) : Prop :=
  m_start m1 < m_start m2 /\ m_end m1 <= m_start m2.

(** [content[start..i]], both ends included *)
Definition segment (content : string) (start i : nat) : string :=
  take (S i - start) (drop start content).

(** the brace at [i] closes the scope opened after [start]: it is a
    closing brace, an opening brace occurs in [content[start..i]], and
    that segment has as many opening as closing braces *)
Definition closes_at (content : string) (start i : nat) : Prop :=
  start <= i /\
  String.get i content = Some rbrace /\
  0 < count lbrace (segment content start i) /\
  count lbrace (segment content start i) = count rbrace (segment content start i).

Definition end_line_spec (content : string) (start line : nat) : Prop :=
  (exists i, closes_at content start i /\
             (forall j, j < i -> ~ closes_at content start j) /\
             line = count newline (take i content) + 1) \/
  ((forall i, ~ closes_at content start i) /\
   line = count newline content + 1).

(** with [o] opening and [c] closing braces already seen *)
Definition closes_rel (o c : nat) (rest : string) (k : nat) : Prop :=
  String.get k rest = Some rbrace /\
  0 < o + count lbrace (take (S k) rest) /\
  o + count lbrace (take (S k) rest) = c + count rbrace (take (S k) rest).

(** The texts are ASCII texts: on the characters below 128 the classes
    [is_space] and [is_word] are those of Python's [\s] and [\w]. *)
Definition is_ascii (a : ascii) : bool := nat_of_ascii a <? 128.
Definition ascii_text (s : string) : Prop := all_chars is_ascii s = true.

(** the blanks of an ASCII text: the space, the tab, the newline, the
    vertical tab, the form feed, the carriage return and the four
    separators 28 to 31 *)
Definition blank_chars : list ascii :=
  [" "; "009"; "010"; "011"; "012"; "013"; "028"; "029"; "030"; "031"]%char.
Definition is_blank (a : ascii) : bool := existsb (Ascii.eqb a) blank_chars.

(** the characters of a name: letters, digits and the underscore *)
Definition name_chars : string :=
  "abcdefghijklmnopqrstuvwxyzABCDEFGHIJKLMNOPQRSTUVWXYZ0123456789_".
Definition is_name_char (a : ascii) : bool :=
  existsb (Ascii.eqb a) (String.list_ascii_of_string name_chars).

(** [s] starts with a component declaration of base class [base] that
    names [name], [len] characters long up to its opening brace: the
    word class, blanks, a name, blanks, the word extends, blanks, the
    base class name, blanks if any, and the opening brace *)
Definition declaration (base s name : string) (len : nat) : Prop :=
  exists ws1 ws2 ws3 ws4 rest,
    s = "class" +:+ ws1 +:+ name +:+ ws2 +:+ "extends" +:+ ws3 +:+ base
          +:+ ws4 +:+ "{" +:+ rest /\
    ws1 <> "" /\ all_chars is_blank ws1 = true /\
    name <> "" /\ all_chars is_name_char name = true /\
    ws2 <> "" /\ all_chars is_blank ws2 = true /\
    ws3 <> "" /\ all_chars is_blank ws3 = true /\
    all_chars is_blank ws4 = true /\
    len = String.length ("class" +:+ ws1 +:+ name +:+ ws2 +:+ "extends" +:+ ws3
                           +:+ base +:+ ws4 +:+ "{").

(** the same, on the character classes of the pattern *)
Definition is_declaration (base s name : string) (len : nat) : Prop :=
  exists ws1 ws2 ws3 ws4 rest,
    s = "class" +:+ ws1 +:+ name +:+ ws2 +:+ "extends" +:+ ws3 +:+ base
          +:+ ws4 +:+ "{" +:+ rest /\
    ws1 <> "" /\ all_chars is_space ws1 = true /\
    name <> "" /\ all_chars is_word name = true /\
    ws2 <> "" /\ all_chars is_space ws2 = true /\
    ws3 <> "" /\ all_chars is_space ws3 = true /\
    all_chars is_space ws4 = true /\
    len = String.length ("class" +:+ ws1 +:+ name +:+ ws2 +:+ "extends" +:+ ws3
                           +:+ base +:+ ws4 +:+ "{").

Definition not_c (a : ascii) : bool := negb (Ascii.eqb a "c").
Definition not_space (a : ascii) : bool := negb (is_space a).

(** a base class name that starts with neither a space nor an e and
    has no c *)
Definition plain_base (base : string) : bool :=
  match base with
  | String a _ => negb (is_space a) && negb (Ascii.eqb a "e")
  | EmptyString => false
  end && all_chars not_c base.

Definition starts_declaration (t : string) : Prop :=
  exists a r, t = "class" +:+ String a r /\ is_space a = true.

(** [m] is the occurrence of a declaration of base class [base] in
    [content]: the text from [m_start m] starts with a declaration, and
    [m] has its name and its end *)
Definition occurrence (base content : string) (m : re_match) : Prop :=
  exists name len,
    declaration base (drop (m_start m) content) name len /\
    m_groups m = [name] /\ m_end m = m_start m + len.

(** [occ] lists the declarations of base class [base] in [content]:
    its members are the occurrences of a declaration, all of them and
    nothing else, in the order of the text, without overlap, each once *)
Definition declarations (base content : string) (occ : list re_match) : Prop :=
  StronglySorted before occ /\
  forall m, m ∈ occ <-> occurrence base content m.

(** [w] is the record of the declaration [m] *)
Definition describes (content file_path type : string) (m : re_match)
    (w : FlutterWidget) : Prop :=
  fw_name w = group1 m /\
  fw_type w = type /\
  fw_file_path w = file_path /\
  fw_line_start w = count newline (take (m_start m) content) + 1 /\
  end_line_spec content (m_start m) (fw_line_end w).

(** The Dart text of the repository's test [test_extract_api_calls]. *)
Definition lines (l : list string) : string :=
  String.concat (String newline "") l.

Definition test_api_service : string :=
  lines [
    "";
    "        import 'package:dio/dio.dart';";
    "        import 'package:http/http.dart' as http;";
    "        ";
    "        class ApiService {";
    "          final Dio dio = Dio();";
    "          ";
    "          Future<void> login() async {";
    "            await dio.post('/api/v1/auth/login');";
    "            await dio.get('/api/v1/user/profile');";
    "          }";
    "          ";
    "          Future<void> fetchData() async {";
    "            await http.get(Uri.parse('/api/v1/data'));";
    "            await http.post(Uri.parse('/api/v1/transactions'));";
    "          }";
    "        }";
    "        "].

(** The Dart text of the repository's test [test_extract_stateless_widget]. *)
Definition test_login_page : string :=
  lines [
    "";
    "        import 'package:flutter/material.dart';";
    "        ";
    "        class LoginPage extends StatelessWidget {";
    "          @override";
    "          Widget build(BuildContext context) {";
    "            return Scaffold(";
    "              body: Column(";
    "                children: [";
    "                  TextFormField(),";
    "                  ElevatedButton(";
    "                    onPressed: () => Navigator.pushNamed(context, '/home'),";
    "                    child: Text('Login'),";
    "                  ),";
    "                ],";
    "              ),";
    "            );";
    "          }";
    "        }";
    "        "].

End Dart.

(* ===================================================================== *)
(** * More on the string operations *)
(* ===================================================================== *)

Module PyStrMore.
Import PyStr.

(** [a] occurs in [b]: [b] is some text, then [a], then some text *)
Definition substring (a b : string) : Prop :=
  exists x y, b = x +:+ a +:+ y.

(** the first character of [s], if any, is not [c] *)
Definition head_differs (c : ascii) (s : string) : Prop :=
  match s with
  | EmptyString => True
  | String a _ => Ascii.eqb a c = false
  end.

End PyStrMore.

(* ===================================================================== *)
(** * agents/gap_reporter.py: the routes without contract *)
(* ===================================================================== *)

Module GapReporterMore.
Import PyStr GapReporter.

(** the entry of [backend_without_contract] for a route *)
Definition uncovered_entry (ep : record) : gap_entry :=
  {| ge_path := _get ep "path" "";
     ge_method := upper (_get ep "method" "");
     ge_reason := "Endpoint not covered by contract" |}.

End GapReporterMore.

(* ===================================================================== *)
(** * memory/structured_store.py: queries and statistics *)
(* ===================================================================== *)

Module StoreQueries.
Import PyStr Store.

(** The entity a row of [code_entities] is read back as. The metadata
    stays the JSON text of the column, [row[5] or '{}']. *)
Definition entity_of_row (k : string) (row : entity_row) : CodeEntity :=
  {| id := k;
     type := row_type row;
     name := row_name row;
     file_path := row_file_path row;
     language := row_language row;
     metadata := or_default (Some (row_metadata row)) "{}";
     created_at := row_created_at row;
     updated_at := row_updated_at row |}.

(** The rows of a table, in the order the database returns them. The
    queries have no [ORDER BY]: nothing below depends on this order. *)
Definition entity_rows (d : db) : list (string * entity_row) :=
  map_to_list (code_entities d).
Definition relationship_rows (d : db) : list (string * relationship_row) :=
  map_to_list (relationships d).
Definition mapping_rows (d : db) : list (string * mapping_row) :=
  map_to_list (api_mappings d).

(** [get_entities_by_type]: [SELECT ... FROM code_entities WHERE type = ?] *)
Definition get_entities_by_type (d : db) (entity_type : string) : list CodeEntity :=
  omap (fun kr : string * entity_row =>
          if String.eqb (row_type kr.2) entity_type
          then Some (entity_of_row kr.1 kr.2) else None)
       (entity_rows d).

(** [if relationship_type:] adds [AND r.relationship_type = ?]; [None]
    and the empty string add nothing *)
Definition type_condition (relationship_type : option string)
    (r : relationship_row) : bool :=
  match relationship_type with
  | None | Some EmptyString => true
  | Some t => String.eqb (row_relationship_type r) t
  end.

(** the [ON] and [WHERE] conditions of the join of [get_related_entities] *)
Definition related_condition (entity_id : string)
    (relationship_type : option string) (k : string) (r : relationship_row)
  : bool :=
  (String.eqb k (row_target_entity_id r) || String.eqb k (row_source_entity_id r))
  && (String.eqb (row_source_entity_id r) entity_id
      || String.eqb (row_target_entity_id r) entity_id)
  && negb (String.eqb k entity_id)
  && type_condition relationship_type r.

(** [get_related_entities]: one result row for each pair of an entity
    row and a relationship row that satisfies the conditions *)
Definition get_related_entities (d : db) (entity_id : string)
    (relationship_type : option string) : list CodeEntity :=
  flat_map (fun kr : string * entity_row =>
    flat_map (fun rr : string * relationship_row =>
                if related_condition entity_id relationship_type kr.1 rr.2
                then [entity_of_row kr.1 kr.2] else [])
             (relationship_rows d))
    (entity_rows d).

(** a dict of the list [get_api_mappings] returns *)
Record mapping_dict := {
  md_id : string;
  md_flutter_widget_id : string;
  md_python_endpoint_id : string;
  md_mapping_type : string;
  md_metadata : string;
  md_created_at : time
}.

Definition dict_of_mapping (k : string) (row : mapping_row) : mapping_dict :=
  {| md_id := k;
     md_flutter_widget_id := row_flutter_widget_id row;
     md_python_endpoint_id := row_python_endpoint_id row;
     md_mapping_type := row_mapping_type row;
     md_metadata := or_default (Some (row_mapping_metadata row)) "{}";
     md_created_at := row_mapping_created_at row |}.

(** [if widget_id:] and [if endpoint_id:]: [None] and the empty string
    add no condition *)
Definition id_condition (wanted : option string) (actual : string) : bool :=
  match wanted with
  | None | Some EmptyString => true
  | Some w => String.eqb actual w
  end.

(** [get_api_mappings] *)
Definition get_api_mappings (d : db) (widget_id endpoint_id : option string)
  : list mapping_dict :=
  omap (fun kr : string * mapping_row =>
          if id_condition widget_id (row_flutter_widget_id kr.2)
             && id_condition endpoint_id (row_python_endpoint_id kr.2)
          then Some (dict_of_mapping kr.1 kr.2) else None)
       (mapping_rows d).

(** A row of [change_requests], without its primary key. *)
Record change_request_row := {
  cr_title : string;
  cr_description : string;
  cr_status : string;
  cr_implementation_notes : option string;
  cr_affected_entities : string;
  cr_created_at : time;
  cr_updated_at : time
}.

(** The three tables of [db] and the table [change_requests]. *)
Record store := {
  tables : db;
  change_requests : gmap string change_request_row
}.

(** [add_change_request]: the columns the statement does not list take
    their defaults, ['pending'] for [status], [NULL] for
    [implementation_notes], [CURRENT_TIMESTAMP] for [created_at];
    [affected_entities] is the text [json.dumps(affected_entities)] *)
Definition add_change_request (s : store) (cr_id title description
    affected_entities : string) (py_now db_now : time) : store * bool :=
  ({| tables := tables s;
      change_requests :=
        <[cr_id := {| cr_title := title;
                      cr_description := description;
                      cr_status := "pending";
                      cr_implementation_notes := None;
                      cr_affected_entities := affected_entities;
                      cr_created_at := db_now;
                      cr_updated_at := py_now |}]> (change_requests s) |}, true).

(** [SELECT x, COUNT( * ) ... GROUP BY x], as the dict the code builds
    from the result: each value that occurs, with its number of rows *)
Definition group_count (values : list string) : gmap string nat :=
  foldr (fun v counts => <[v := S (default 0 (counts !! v))]> counts) ∅ values.

Record stats := {
  st_entities : gmap string nat;
  st_relationships : gmap string nat;
  st_change_requests : nat;
  st_api_mappings : nat
}.

(** [get_stats] *)
Definition get_stats (s : store) : stats :=
  {| st_entities := group_count (map (fun kr => row_type kr.2) (entity_rows (tables s)));
     st_relationships :=
       group_count (map (fun kr => row_relationship_type kr.2)
                        (relationship_rows (tables s)));
     st_change_requests := size (change_requests s);
     st_api_mappings := size (api_mappings (tables s)) |}.

(** [sum(d.values())] for a dict of counts *)
Definition sum_values (counts : gmap string nat) : nat :=
  map_fold (fun _ n total => n + total) 0 counts.

(** the number of rows of a type, to state what the counts are *)
Definition count_type (ty : string) (rows : list (string * entity_row)) : nat :=
  length (List.filter (String.eqb ty) (map (fun kr => row_type kr.2) rows)).

End StoreQueries.

(* ===================================================================== *)
(** * analyzers/python_analyzer.py: the nodes of a tree *)
(* ===================================================================== *)

Module PyAstMore.
Import PyStr Records PyAst.

(** the nodes of a tree: the node itself and the nodes of its children *)
Fixpoint subnodes (n : node) : list node :=
  let fix subnodes_list (l : list node) : list node :=
    match l with
    | [] => []
    | x :: l' => subnodes x ++ subnodes_list l'
    end in
  n :: match n with
       | FunctionDef _ _ _ body | AsyncFunctionDef _ _ _ body => subnodes_list body
       | OtherNode children => subnodes_list children
       end.

(** the number of nodes of the trees of a queue *)
Definition nodes_size (l : list node) : nat := list_sum (map node_size l).

(** the record of a route decorator on a function *)
Definition route_record (file_path name : string) (lineno : nat)
    (attr : string) (args : list expr) : APIEndpoint :=
  {| ep_name := name;
     ep_method := upper attr;
     ep_path := _extract_path_from_decorator args;
     ep_function_name := name;
     ep_file_path := file_path;
     ep_line_number := lineno |}.

(** A module with a route function nested in another function and
    one nested in a class body or a conditional. *)
Definition nested_routes : node :=
  Module_
    [OtherNode [];
     FunctionDef "make_router" [] 3
       [OtherNode [];
        FunctionDef "health" [route_decorator "get" "/health"] 6 [OtherNode []];
        OtherNode []];
     OtherNode
       [FunctionDef "status" [route_decorator "post" "/status"] 12
          [OtherNode []]]].

End PyAstMore.

(* ===================================================================== *)
(** * analyzers/flutter_analyzer.py: the lists of a widget and the pubspec file *)
(* ===================================================================== *)

Module DartDetails.
Import PyStr Records Dart.

(** ** The lists of a widget record

    [_extract_widgets] fills five more fields of a [FlutterWidget] from
    [content[match.start():match.end()]], the text of the match. *)

(** [content[start:end]] *)
Definition slice (content : string) (start end_ : nat) : string :=
  take (end_ - start) (drop start content).

(** [list(set(xs))]: the distinct elements, in the order the set
    iterates them; nothing below depends on this order. *)
Definition list_of_set (xs : list string) : list string :=
  elements (list_to_set xs : gset string).

(** [str.istitle]: uppercase characters follow uncased ones only,
    lowercase characters follow cased ones only, and there is a cased
    character. *)
Fixpoint istitle_scan (previous_is_cased cased : bool) (s : string) : bool :=
  match s with
  | EmptyString => cased
  | String c s' =>
      if is_upper c then
        if previous_is_cased then false else istitle_scan true true s'
      else if is_lower c then
        if previous_is_cased then istitle_scan true true s' else false
      else istitle_scan false cased s'
  end.

Definition istitle (s : string) : bool := istitle_scan false false s.

Definition not_comma (c : ascii) : bool := negb (Ascii.eqb c ",").

(** [(\w+)\(] and [(\w+)\.of\(context\)] *)
Definition widget_patterns : list pattern :=
  [ {| source := "(\w+)\("; items := [Plus is_word true; Lit "("] |};
    {| source := "(\w+)\.of\(context\)";
       items := [Plus is_word true; Lit ".of(context)"] |} ].

Definition _extract_widget_dependencies (content : string) (start end_ : nat)
  : list string :=
  let widget_content := slice content start end_ in
  let dependencies :=
    flat_map (fun p =>
      flat_map (fun m =>
        let dep := group1 m in
        if negb (bool_decide (dep ∈ ["if"; "for"; "while"; "return"]))
           && istitle dep
        then [dep] else [])
        (finditer p widget_content))
      widget_patterns in
  list_of_set dependencies.

(** [<receiver>\.(\w+)\(] *)
Definition receiver_pattern (receiver : string) : pattern :=
  {| source := receiver +:+ "\.(\w+)\(";
     items := [Lit (receiver +:+ "."); Plus is_word true; Lit "("] |}.

Definition api_call_patterns : list pattern :=
  [receiver_pattern "dio"; receiver_pattern "http"; receiver_pattern "ApiClient"].

Definition _extract_widget_api_calls (content : string) (start end_ : nat)
  : list string :=
  let widget_content := slice content start end_ in
  let api_calls :=
    flat_map (fun p => map group1 (finditer p widget_content))
             api_call_patterns in
  list_of_set api_calls.

(** The two navigation patterns: the text Navigator.push, word
    characters, an opening parenthesis, a run of characters other than
    a comma, a comma, spaces, and a quoted captured run of non-quote
    characters; and the text context.go( with such a quoted run. *)
Definition nav_patterns : list pattern :=
  [ {| source := "Navigator\.push\w*\([^,]+,\s*[\'" +:+ String dquote "]([^\'"
                   +:+ String dquote "]+)[\'" +:+ String dquote "]";
       items := [Lit "Navigator.push"; Star is_word; Lit "(";
                 Plus not_comma false; Lit ","; Star is_space;
                 One is_quote; Plus not_quote true; One is_quote] |};
    {| source := "context\.go\([\'" +:+ String dquote "]([^\'"
                   +:+ String dquote "]+)[\'" +:+ String dquote "]";
       items := [Lit "context.go("; One is_quote; Plus not_quote true;
                 One is_quote] |} ].

Definition _extract_widget_navigation (content : string) (start end_ : nat)
  : list string :=
  let widget_content := slice content start end_ in
  flat_map (fun p => map group1 (finditer p widget_content)) nav_patterns.

(** [<name>\(] *)
Definition field_pattern (name : string) : pattern :=
  {| source := name +:+ "\("; items := [Lit (name +:+ "(")] |}.

Definition field_patterns : list pattern :=
  [field_pattern "TextFormField"; field_pattern "DropdownButtonFormField";
   field_pattern "CheckboxFormField"; field_pattern "RadioFormField"].

(** each match adds [pattern.split('(')[0]], a piece of the pattern's
    own text *)
Definition _extract_form_fields (content : string) (start end_ : nat)
  : list string :=
  let widget_content := slice content start end_ in
  flat_map (fun p =>
              map (fun _ => nth 0 (split "(" (source p)) "")
                  (finditer p widget_content))
           field_patterns.

(** [Validators\.(\w+)] and [validator:\s*(\w+)] *)
Definition validator_patterns : list pattern :=
  [ {| source := "Validators\.(\w+)";
       items := [Lit "Validators."; Plus is_word true] |};
    {| source := "validator:\s*(\w+)";
       items := [Lit "validator:"; Star is_space; Plus is_word true] |} ].

Definition _extract_widget_validators (content : string) (start end_ : nat)
  : list string :=
  let widget_content := slice content start end_ in
  let validators :=
    flat_map (fun p => map group1 (finditer p widget_content))
             validator_patterns in
  list_of_set validators.

(** the five lists of a widget record *)
Record widget_lists := {
  fw_dependencies : list string;
  fw_api_calls : list string;
  fw_navigation_routes : list string;
  fw_form_fields : list string;
  fw_validators : list string
}.

Definition widget_lists_of (content : string) (m : re_match) : widget_lists :=
  {| fw_dependencies :=
       _extract_widget_dependencies content (m_start m) (m_end m);
     fw_api_calls := _extract_widget_api_calls content (m_start m) (m_end m);
     fw_navigation_routes :=
       _extract_widget_navigation content (m_start m) (m_end m);
     fw_form_fields := _extract_form_fields content (m_start m) (m_end m);
     fw_validators := _extract_widget_validators content (m_start m) (m_end m) |}.

(** [_extract_widgets], each record with its five lists *)
Definition _extract_widgets_with_lists (content file_path : string)
  : list (FlutterWidget * widget_lists) :=
  let widgets := [] in
  let widgets :=
    foldl (fun widgets m =>
             widgets ++ [(widget_of content file_path "StatelessWidget" m,
                          widget_lists_of content m)])
          widgets (finditer stateless_pattern content) in
  foldl (fun widgets m =>
           widgets ++ [(widget_of content file_path "StatefulWidget" m,
                        widget_lists_of content m)])
        widgets (finditer stateful_pattern content).

Definition no_lists : widget_lists :=
  {| fw_dependencies := []; fw_api_calls := []; fw_navigation_routes := [];
     fw_form_fields := []; fw_validators := [] |}.

(** every literal of the items is made of characters of [P], and every
    class of the items is included in [P] *)
Fixpoint items_in (P : ascii -> bool) (its : list ritem) : bool :=
  match its with
  | [] => true
  | Lit text :: its' => all_chars P text && items_in P its'
  | One cls :: its' | Plus cls _ :: its' | Star cls :: its' =>
      forallb (fun c => implb (cls c) (P c)) all_ascii && items_in P its'
  end.

Definition other_than (c : ascii) (a : ascii) : bool := negb (Ascii.eqb a c).

(** a literal of the items has the character [c] *)
Definition needs_char (c : ascii) (its : list ritem) : bool :=
  existsb (fun it => match it with
                     | Lit text => negb (all_chars (other_than c) text)
                     | _ => false
                     end) its.

(** the characters of the text of a widget match *)
Definition header_char (a : ascii) : bool :=
  is_word a || is_space a || Ascii.eqb a "{".

(** ** [_analyze_pubspec] *)

(** [s.strip()] with no argument *)
Fixpoint lstrip_ws (s : string) : string :=
  match s with
  | EmptyString => EmptyString
  | String a s' => if is_space a then lstrip_ws s' else s
  end.

Fixpoint rstrip_ws (s : string) : string :=
  match s with
  | EmptyString => EmptyString
  | String a s' =>
      match rstrip_ws s' with
      | EmptyString => if is_space a then EmptyString else String a EmptyString
      | r => String a r
      end
  end.

Definition strip_ws (s : string) : string := rstrip_ws (lstrip_ws s).

(** the two lists and the two flags of the loop *)
Record pubspec_state := {
  ps_dependencies : list string;
  ps_dev_dependencies : list string;
  dep_section : bool;
  dev_dep_section : bool
}.

Definition pubspec_init : pubspec_state :=
  {| ps_dependencies := []; ps_dev_dependencies := [];
     dep_section := false; dev_dep_section := false |}.

(** the body of [for line in content.split('\n')] *)
Definition pubspec_line (st : pubspec_state) (line : string) : pubspec_state :=
  let line := strip_ws line in
  if String.eqb line "dependencies:" then
    {| ps_dependencies := ps_dependencies st;
       ps_dev_dependencies := ps_dev_dependencies st;
       dep_section := true; dev_dep_section := false |}
  else if String.eqb line "dev_dependencies:" then
    {| ps_dependencies := ps_dependencies st;
       ps_dev_dependencies := ps_dev_dependencies st;
       dep_section := false; dev_dep_section := true |}
  else if String.prefix "flutter:" line || String.prefix "name:" line then
    {| ps_dependencies := ps_dependencies st;
       ps_dev_dependencies := ps_dev_dependencies st;
       dep_section := false; dev_dep_section := false |}
  else if dep_section st && contains ":" line && negb (String.prefix "#" line) then
    {| ps_dependencies :=
         ps_dependencies st ++ [strip_ws (nth 0 (split ":" line) "")];
       ps_dev_dependencies := ps_dev_dependencies st;
       dep_section := dep_section st; dev_dep_section := dev_dep_section st |}
  else if dev_dep_section st && contains ":" line && negb (String.prefix "#" line) then
    {| ps_dependencies := ps_dependencies st;
       ps_dev_dependencies :=
         ps_dev_dependencies st ++ [strip_ws (nth 0 (split ":" line) "")];
       dep_section := dep_section st; dev_dep_section := dev_dep_section st |}
  else st.

Definition pubspec_lines (lines : list string) : pubspec_state :=
  foldl pubspec_line pubspec_init lines.

(** [_analyze_pubspec], on the text of the file: the two lists of the
    dict it returns *)
Definition _analyze_pubspec (content : string) : list string * list string :=
  let st := pubspec_lines (split newline content) in
  (ps_dependencies st, ps_dev_dependencies st).

(** a line that opens one of the two sections *)
Definition opens_section (line : string) : bool :=
  String.eqb (strip_ws line) "dependencies:"
  || String.eqb (strip_ws line) "dev_dependencies:".

(** a line that closes the section it is in *)
Definition closes_section (line : string) : bool :=
  negb (opens_section line)
  && (String.prefix "flutter:" (strip_ws line)
      || String.prefix "name:" (strip_ws line)).

(** the usual head of a pubspec file of a Flutter application *)
Definition usual_pubspec : string :=
  lines ["name: fd_mobile";
         "environment:";
         "  sdk: '>=3.0.0 <4.0.0'";
         "dependencies:";
         "  flutter:";
         "    sdk: flutter";
         "  dio: ^5.3.2";
         "  flutter_bloc: ^8.1.3";
         "dev_dependencies:";
         "  flutter_test:";
         "    sdk: flutter";
         "  mockito: ^5.4.2";
         ""].

End DartDetails.

(* ===================================================================== *)
(** * agents/memory_agent.py: statistics of the memory *)
(* ===================================================================== *)

Module AgentsMore.
Import PyStr Records Store StoreQueries Agents.

(** [memory_agent.py], [_assess_memory_health]: [vector_stats] maps the
    names of the collections to their counts, and
    [structured_stats.get('entities', {})] is the dict of entity counts
    by type of [get_stats] *)
Definition _assess_memory_health (vector_stats : gmap string nat)
    (structured_stats : stats) : string :=
  let total_vector_items := sum_values vector_stats in
  let total_structured_items := sum_values (st_entities structured_stats) in
  if (1000 <? total_vector_items) && (500 <? total_structured_items)
  then "excellent"
  else if (500 <? total_vector_items) && (250 <? total_structured_items)
  then "good"
  else if (100 <? total_vector_items) && (50 <? total_structured_items)
  then "fair"
  else "needs_improvement".

(** The dict [get_memory_statistics] returns, the two statistics it
    copies left out. *)
Record memory_statistics := {
  total_entities : nat;
  total_relationships : nat;
  memory_health : string
}.

(** [memory_agent.py], [get_memory_statistics], on the statistics of
    the vector store and the tables of the structured store *)
Definition get_memory_statistics (vector_stats : gmap string nat) (s : store)
  : memory_statistics :=
  let structured_stats := get_stats s in
  {| total_entities := sum_values (st_entities structured_stats);
     total_relationships := sum_values (st_relationships structured_stats);
     memory_health := _assess_memory_health vector_stats structured_stats |}.

(** the four grades, from the worst to the best *)
Definition grade (health : string) : nat :=
  if String.eqb health "excellent" then 3
  else if String.eqb health "good" then 2
  else if String.eqb health "fair" then 1
  else 0.

(** the grade two totals earn: the largest level whose two thresholds
    both totals exceed *)
Definition grade_of (total_vector total_structured : nat) : nat :=
  if (1000 <? total_vector) && (500 <? total_structured) then 3
  else if (500 <? total_vector) && (250 <? total_structured) then 2
  else if (100 <? total_vector) && (50 <? total_structured) then 1
  else 0.

(** the methods the call records of the Dart extractor carry, and the
    methods the route records of the Python extractor carry *)
Definition call_methods : list string := [".get"; ".post"; ".put"; ".delete"].
Definition route_methods : list string := ["GET"; "POST"; "PUT"; "DELETE"; "PATCH"].

End AgentsMore.

(* ===================================================================== *)
(** * Properties of the string operations *)
(* ===================================================================== *)

Module PyStrFacts.
Import PyStr.

Lemma contains_empty (b : string) : contains "" b = true.
Proof. destruct b; reflexivity. Qed.

Lemma lower_empty_iff (s : string) : lower s = "" <-> s = "".
Proof. destruct s; simpl; split; congruence. Qed.

Lemma ascii_compare_N (a b : ascii) :
  Ascii.compare a b = N.compare (N_of_ascii a) (N_of_ascii b).
Proof. reflexivity. Qed.

Lemma ascii_compare_eq (a b : ascii) : Ascii.compare a b = Eq -> a = b.
Proof.
  rewrite ascii_compare_N. intros H%N.compare_eq_iff.
  rewrite <- (ascii_N_embedding a), <- (ascii_N_embedding b). congruence.
Qed.

Lemma leb_String (a b : ascii) (s t : string) :
  String.leb (String a s) (String b t) = true <->
  (N_of_ascii a < N_of_ascii b)%N \/ (a = b /\ String.leb s t = true).
Proof.
  unfold String.leb. simpl. rewrite ascii_compare_N.
  destruct (N.compare_spec (N_of_ascii a) (N_of_ascii b)) as [He|Hl|Hg].
  - assert (a = b).
    { rewrite <- (ascii_N_embedding a), <- (ascii_N_embedding b). congruence. }
    split; [intros; right; done | intros [?|[_ ?]]; [lia | done]].
  - split; [intros; left; done | done].
  - split; [done | intros [?|[-> _]]; lia].
Qed.

#[global] Instance le_trans : Transitive PyStr.le.
Proof.
  unfold PyStr.le. intros s1. induction s1 as [|a s1 IH]; intros s2 s3 H12 H23.
  - destruct s3; reflexivity.
  - destruct s2 as [|b s2]; [discriminate|].
    destruct s3 as [|c s3]; [discriminate|].
    apply leb_String in H12. apply leb_String in H23. apply leb_String.
    destruct H12 as [?|[-> ?]], H23 as [?|[-> ?]]; eauto with lia.
Qed.

#[global] Instance le_total : Total PyStr.le.
Proof. intros s1 s2. apply String.leb_total. Qed.

#[global] Instance le_antisym : AntiSymm (=) PyStr.le.
Proof. intros s1 s2 H1 H2. by apply String.leb_antisym. Qed.

End PyStrFacts.

(* ===================================================================== *)
(** * Properties of the gap report *)
(* ===================================================================== *)

Module GapReporterFacts.
Import PyStr PyStrFacts GapReporter.

Lemma find_None_existsb {A} (f : A -> bool) (l : list A) :
  List.find f l = None <-> existsb f l = false.
Proof.
  induction l as [|x l IH]; simpl; [done|].
  destruct (f x); simpl; [split; discriminate | exact IH].
Qed.

(** *** The index of routes by normalized path *)

Lemma index_add_lookup d ep k :
  index_add d ep !! k =
    if decide (route_key ep = k)
    then Some (default ∅ (d !! k) ∪ {[route_method ep]})
    else d !! k.
Proof.
  unfold index_add, route_key, route_method. cbv zeta.
  case_decide as Hk.
  - subst k. by rewrite lookup_insert_eq.
  - by rewrite lookup_insert_ne.
Qed.

Lemma foldl_index_is_Some eps : forall d k,
  is_Some (foldl index_add d eps !! k) <->
  is_Some (d !! k) \/ exists ep, ep ∈ eps /\ route_key ep = k.
Proof.
  induction eps as [|ep eps IH]; intros d k; simpl.
  - split; [auto | intros [?|(ep & Hin & _)]; [done | by apply elem_of_nil in Hin]].
  - rewrite IH, index_add_lookup. case_decide as Hk.
    + split; [intros _; right; exists ep; split; [left | done] | intros _; left; eauto].
    + split.
      * intros [?|(ep' & Hin & Hk')]; [by left | right; exists ep'; split; [by right | done]].
      * intros [?|(ep' & Hin & Hk')]; [by left |].
        apply elem_of_cons in Hin as [->|Hin]; [done | right; eauto].
Qed.

Lemma foldl_index_methods eps : forall d k s m,
  foldl index_add d eps !! k = Some s ->
  m ∈ s <->
  m ∈ default ∅ (d !! k) \/
  exists ep, ep ∈ eps /\ route_key ep = k /\ route_method ep = m.
Proof.
  induction eps as [|ep eps IH]; intros d k s m; simpl.
  - intros ->. simpl. split; [auto | intros [?|(ep & Hin & _)]; [done | by apply elem_of_nil in Hin]].
  - intros Hs. rewrite (IH _ _ _ _ Hs), index_add_lookup. case_decide as Hk.
    + simpl. rewrite elem_of_union, elem_of_singleton. split.
      * intros [[?| ->]|(ep' & Hin & Hk' & Hm)]; [by left | |].
        -- right. exists ep. split; [left | done].
        -- right. exists ep'. split; [by right | done].
      * intros [?|(ep' & Hin & Hk' & Hm)]; [by left; left |].
        apply elem_of_cons in Hin as [->|Hin]; [left; right; done | right; eauto].
    + split.
      * intros [?|(ep' & Hin & Hk' & Hm)]; [by left |].
        right. exists ep'. split; [by right | done].
      * intros [?|(ep' & Hin & Hk' & Hm)]; [by left |].
        apply elem_of_cons in Hin as [->|Hin]; [done | right; eauto].
Qed.

Lemma existsb_elem_of {A} (f : A -> bool) (l : list A) :
  existsb f l = true <-> exists x, x ∈ l /\ f x = true.
Proof.
  rewrite existsb_exists. split; intros (x & Hin & Hf); exists x; split; try done.
  - by apply list_elem_of_In.
  - by apply list_elem_of_In.
Qed.

Lemma build_index_is_Some backend c :
  is_Some (build_index backend !! _normalize_path (contract_path c)) <->
  same_path_present backend c = true.
Proof.
  unfold build_index, same_path_present.
  rewrite foldl_index_is_Some, lookup_empty, existsb_elem_of. split.
  - intros [[? ?]|(ep & Hin & Hk)]; [done|].
    exists ep. split; [done|]. by apply String.eqb_eq.
  - intros (ep & Hin & Hk%String.eqb_eq). right. by exists ep.
Qed.

(** *** [sorted] of a set *)

Lemma sorted_StronglySorted (s : gset string) : StronglySorted PyStr.le (sorted s).
Proof. apply StronglySorted_merge_sort; apply _. Qed.

Lemma sorted_elem_of (s : gset string) (m : string) : m ∈ sorted s <-> m ∈ s.
Proof. unfold sorted. by rewrite merge_sort_Permutation, elem_of_elements. Qed.

Lemma sorted_NoDup (s : gset string) : NoDup (sorted s).
Proof. unfold sorted. rewrite merge_sort_Permutation. apply NoDup_elements. Qed.

(** *** The contract loop *)

Lemma contract_step_spec backend flutter acc c :
  contract_step backend (build_index backend) flutter acc c =
  {| cl_missing := cl_missing acc ++
       (if in_case Missing backend c then [missing_entry c] else []);
     cl_not_used := cl_not_used acc ++
       (if used_in_flutter (contract_path c) flutter then [] else [not_used_entry c]);
     cl_mismatches := cl_mismatches acc ++
       (if in_case MethodMismatch backend c then [mismatch_entry_of backend c] else []) |}.
Proof.
  unfold contract_step. cbv zeta.
  change (_get (Dict (contract_meta c)) "path" "") with (contract_path c).
  change (upper (_get (Dict (contract_meta c)) "method" ""))
    with (contract_method c).
  unfold in_case, contract_case, match_taken, first_match.
  destruct (found (List.find _ backend)).
  - simpl. destruct (used_in_flutter _ flutter); simpl;
      rewrite ?app_nil_r; destruct acc; reflexivity.
  - cbn [negb].
    destruct (build_index backend !! _) as [methods|] eqn:Hi.
    + assert (same_path_present backend c = true) as ->
        by (apply build_index_is_Some; rewrite Hi; eauto).
      unfold mismatch_entry_of. rewrite Hi. simpl.
      destruct (used_in_flutter _ flutter); simpl;
        rewrite ?app_nil_r; reflexivity.
    + assert (same_path_present backend c = false) as ->.
      { destruct (same_path_present backend c) eqn:Hp; [|done].
        apply build_index_is_Some in Hp. rewrite Hi in Hp. by destruct Hp. }
      simpl. destruct (used_in_flutter _ flutter); simpl;
        rewrite ?app_nil_r; reflexivity.
Qed.

Lemma contract_loop_spec backend flutter cs : forall acc,
  foldl (contract_step backend (build_index backend) flutter) acc cs =
  {| cl_missing := cl_missing acc ++
       map missing_entry (List.filter (in_case Missing backend) cs);
     cl_not_used := cl_not_used acc ++
       map not_used_entry
         (List.filter (fun c => negb (used_in_flutter (contract_path c) flutter)) cs);
     cl_mismatches := cl_mismatches acc ++
       map (mismatch_entry_of backend)
         (List.filter (in_case MethodMismatch backend) cs) |}.
Proof.
  induction cs as [|c cs IH]; intros acc.
  - simpl. rewrite !app_nil_r. by destruct acc.
  - cbn [foldl]. rewrite IH, contract_step_spec. cbn [List.filter].
    cbn [cl_missing cl_not_used cl_mismatches].
    destruct (in_case Missing backend c), (in_case MethodMismatch backend c),
      (used_in_flutter (contract_path c) flutter);
      cbn [negb map]; rewrite <- ?app_assoc; reflexivity.
Qed.

Lemma case_count backend cs :
  length (List.filter (in_case Missing backend) cs)
  + length (List.filter (in_case MethodMismatch backend) cs)
  + length (List.filter (in_case Unfiled backend) cs) = length cs.
Proof.
  induction cs as [|c cs IH]; [done|].
  unfold in_case in *. cbn [List.filter].
  destruct (contract_case backend c); cbn [gap_case_eqb length]; lia.
Qed.

Lemma contract_case_ext backend c c' :
  contract_path c' = contract_path c ->
  contract_method c' = contract_method c ->
  contract_case backend c' = contract_case backend c.
Proof.
  intros Hp Hm.
  unfold contract_case, match_taken, first_match, same_path_present.
  by rewrite Hp, Hm.
Qed.

(** *** Matches and truth values *)

Lemma no_match_not_taken backend c :
  has_backend_match backend c = false -> match_taken backend c = false.
Proof.
  unfold has_backend_match, match_taken, first_match.
  intros H%find_None_existsb. by rewrite H.
Qed.

Lemma match_taken_has_match backend c :
  match_taken backend c = true -> has_backend_match backend c = true.
Proof.
  destruct (has_backend_match backend c) eqn:E; [done|].
  by rewrite (no_match_not_taken _ _ E).
Qed.

Lemma truthy_match_taken backend c :
  Dict ∅ ∉ backend ->
  has_backend_match backend c = true -> match_taken backend c = true.
Proof.
  unfold has_backend_match, match_taken, first_match. intros Hne He.
  destruct (List.find _ backend) as [ep|] eqn:Hf;
    [| apply find_None_existsb in Hf; congruence].
  apply find_some in Hf as [Hin%list_elem_of_In _].
  destruct ep as [items|attributes]; [|done].
  cbn [found truthy]. rewrite bool_decide_eq_false_2; [done|].
  by intros ->.
Qed.

Lemma report_lists contracts backend flutter :
  let r := compute_gap_report contracts backend flutter in
  missing_backend_endpoints r =
    map missing_entry (List.filter (in_case Missing backend) contracts) /\
  method_mismatches r =
    map (mismatch_entry_of backend)
        (List.filter (in_case MethodMismatch backend) contracts) /\
  contracts_not_used_in_flutter r =
    map not_used_entry
        (List.filter (fun c => negb (used_in_flutter (contract_path c) flutter))
                     contracts).
Proof.
  unfold compute_gap_report. cbv zeta. rewrite contract_loop_spec. by cbn.
Qed.

Lemma elem_of_map_filter {A B} (f : A -> B) (p : A -> bool) (l : list A) (y : B) :
  y ∈ map f (List.filter p l) <-> exists x, x ∈ l /\ p x = true /\ y = f x.
Proof.
  rewrite list_elem_of_In, in_map_iff. split.
  - intros (x & <- & [Hin Hp]%filter_In). exists x. by rewrite list_elem_of_In.
  - intros (x & Hin & Hp & ->). exists x. split; [done|].
    apply filter_In. by rewrite <- list_elem_of_In.
Qed.

(** The report of the repository's unit test: /v1/baz is missing,
    /v1/bar has a method mismatch, /v1/bar and /v1/qux are routes without
    contract, /v1/bar and /v1/baz are not called from the UI. *)
Example unit_test_report :
  let r := compute_gap_report test_contracts test_backend test_flutter in
  map (fun e => (ge_path e, ge_method e)) (missing_backend_endpoints r)
    = [("/v1/baz", "PUT")] /\
  map (fun e => (ge_path e, ge_method e)) (backend_without_contract r)
    = [("/v1/bar", "GET"); ("/v1/qux", "DELETE")] /\
  map ge_path (contracts_not_used_in_flutter r) = ["/v1/bar"; "/v1/baz"] /\
  map (fun e => (mm_path e, mm_contract_method e, mm_backend_methods e))
      (method_mismatches r)
    = [("/v1/bar", "POST", ["GET"])].
Proof. by vm_compute. Qed.

(** C1, on the code. For every input a contract is filed in at most
    one of the two gap lists: [missing_backend_endpoints] holds one
    entry per contract of the missing case and [method_mismatches] one
    per contract of the mismatch case, nothing else, so the two lengths
    and the number of contracts filed in neither list add up to the
    number of contracts, and the two lengths together never exceed it.
    A contract filed in neither list has a route that matches it on path
    and method. The converse is what the loop misses: it tests the truth
    value of the search result, and an empty dict is false, so a
    contract whose first matching route is an empty dict has a backend
    match and is filed as a gap all the same. When no route record is an
    empty dict (objects, and dicts with an item), the contracts filed in
    neither list are exactly those with a backend match, as the claim
    says. For the route list of one empty dict, the contract of path
    /v1/foo without method is matched and filed in
    [missing_backend_endpoints], and the contract without path and
    method is matched and filed in [method_mismatches], with its own
    empty method as the backend method. *)
Theorem matched_contract_filed_as_gap :
  (forall contracts backend flutter,
     let r := compute_gap_report contracts backend flutter in
     missing_backend_endpoints r =
       map missing_entry (List.filter (in_case Missing backend) contracts) /\
     method_mismatches r =
       map (mismatch_entry_of backend)
           (List.filter (in_case MethodMismatch backend) contracts) /\
     length (missing_backend_endpoints r) + length (method_mismatches r)
       + length (List.filter (in_case Unfiled backend) contracts)
       = length contracts /\
     length (missing_backend_endpoints r) + length (method_mismatches r)
       <= length contracts) /\
  (forall backend c,
     in_case Unfiled backend c = true ->
     exists ep, ep ∈ backend /\
       route_matches (contract_path c) (contract_method c) ep = true) /\
  (forall backend c,
     Dict ∅ ∉ backend ->
     (in_case Unfiled backend c = true <->
      exists ep, ep ∈ backend /\
        route_matches (contract_path c) (contract_method c) ep = true)) /\
  (let c := {| metadata := Some {[ "path" := "/v1/foo" ]}; meta := None |} in
   let r := compute_gap_report [c] [Dict ∅] [] in
   route_matches (contract_path c) (contract_method c) (Dict ∅) = true /\
   missing_backend_endpoints r = [missing_entry c] /\
   method_mismatches r = []) /\
  (let c := {| metadata := Some ∅; meta := None |} in
   let r := compute_gap_report [c] [Dict ∅] [] in
   route_matches (contract_path c) (contract_method c) (Dict ∅) = true /\
   missing_backend_endpoints r = [] /\
   map (fun e => (mm_path e, mm_contract_method e, mm_backend_methods e))
       (method_mismatches r) = [("", "", [""])]).
Proof.
  assert (forall backend c,
            in_case Unfiled backend c = true <-> match_taken backend c = true)
    as Hunfiled.
  { intros backend c. unfold in_case, contract_case.
    destruct (match_taken backend c); [done|].
    by destruct (same_path_present backend c). }
  split; [|split; [|split; [|split]]].
  - intros contracts backend flutter r.
    destruct (report_lists contracts backend flutter) as (Hm & Hx & _).
    fold r in Hm, Hx. split; [done|]. split; [done|].
    rewrite Hm, Hx, !length_map.
    pose proof (case_count backend contracts). lia.
  - intros backend c Hc%Hunfiled%match_taken_has_match.
    by apply existsb_elem_of.
  - intros backend c Hne. rewrite Hunfiled, <- existsb_elem_of. split.
    + apply match_taken_has_match.
    + by apply truthy_match_taken.
  - by vm_compute.
  - by vm_compute.
Qed.

(** The routes of the repository's unit test, objects all of them, and
    its contract GET /v1/foo. *)
Lemma matched_contract_filed_as_gap_witness :
  (Dict ∅ ∉ test_backend) /\
  in_case Unfiled test_backend (mk_contract "/v1/foo" "GET") = true /\
  exists ep, ep ∈ test_backend /\
    route_matches (contract_path (mk_contract "/v1/foo" "GET"))
                  (contract_method (mk_contract "/v1/foo" "GET")) ep = true.
Proof.
  assert (Dict ∅ ∉ test_backend) as Hne.
  { unfold test_backend, mk_route. intros Hin.
    repeat (apply elem_of_cons in Hin as [Hin|Hin]; [discriminate|]).
    by apply elem_of_nil in Hin. }
  assert (in_case Unfiled test_backend (mk_contract "/v1/foo" "GET") = true)
    as Hu by (by vm_compute).
  split; [exact Hne|]. split; [exact Hu|].
  apply (proj1 (proj2 (proj2 matched_contract_filed_as_gap))
           test_backend (mk_contract "/v1/foo" "GET") Hne).
  exact Hu.
Defined.

(** C2, as the code has it. Take a contract that no route matches on
    path and method. When some backend route has the same normalized
    path as the contract (equality after stripping slashes and
    lowercasing, the key of the path index), the report has a
    [method_mismatches] entry for the contract whose [backend_methods]
    is the sorted, duplicate-free list of the methods of the routes at
    that normalized path, and [missing_backend_endpoints] has no entry
    with the contract's path and method. When no backend route has the
    same normalized path as the contract, whether or not the path of
    some route matches the contract's by containment, the contract is in
    [missing_backend_endpoints] and [method_mismatches] has no entry
    with the contract's path and method. *)
Theorem method_mismatch_on_same_path contracts backend flutter c :
  c ∈ contracts ->
  (forall ep, ep ∈ backend ->
     route_matches (contract_path c) (contract_method c) ep = false) ->
  let r := compute_gap_report contracts backend flutter in
  ((exists ep, ep ∈ backend /\
      _normalize_path (_get ep "path" "") = _normalize_path (contract_path c)) ->
   (exists e, e ∈ method_mismatches r /\
      mm_path e = contract_path c /\
      mm_contract_method e = contract_method c /\
      StronglySorted PyStr.le (mm_backend_methods e) /\
      NoDup (mm_backend_methods e) /\
      forall m, m ∈ mm_backend_methods e <->
        exists ep, ep ∈ backend /\
          _normalize_path (_get ep "path" "") = _normalize_path (contract_path c) /\
          upper (_get ep "method" "") = m) /\
   (forall e, e ∈ missing_backend_endpoints r ->
      ~ (ge_path e = contract_path c /\ ge_method e = contract_method c))) /\
  ((forall ep, ep ∈ backend ->
      _normalize_path (_get ep "path" "") <> _normalize_path (contract_path c)) ->
   missing_entry c ∈ missing_backend_endpoints r /\
   (forall e, e ∈ method_mismatches r ->
      ~ (mm_path e = contract_path c /\
         mm_contract_method e = contract_method c))).
Proof.
  intros Hc Hno r.
  destruct (report_lists contracts backend flutter) as (Hm & Hx & _).
  fold r in Hm, Hx.
  assert (match_taken backend c = false) as Hnm.
  { apply no_match_not_taken. unfold has_backend_match.
    destruct (existsb _ backend) eqn:He; [|done].
    apply existsb_elem_of in He as (ep & Hin & Hr). by rewrite Hno in Hr. }
  split.
  - intros (ep0 & Hin0 & Hk0).
    assert (same_path_present backend c = true) as Hsp.
    { apply existsb_elem_of. exists ep0. split; [done|]. by apply String.eqb_eq. }
    assert (contract_case backend c = MethodMismatch) as Hcase.
    { unfold contract_case. by rewrite Hnm, Hsp. }
    split.
    + exists (mismatch_entry_of backend c). split.
      { rewrite Hx. apply elem_of_map_filter. exists c.
        unfold in_case. by rewrite Hcase. }
      cbn [mismatch_entry_of mm_path mm_contract_method mm_backend_methods].
      split; [done|split; [done|]].
      split; [apply sorted_StronglySorted|split; [apply sorted_NoDup|]].
      intros m. rewrite sorted_elem_of.
      apply build_index_is_Some in Hsp as [methods Hi]. rewrite Hi. cbn [default].
      unfold build_index in Hi.
      rewrite (foldl_index_methods _ _ _ _ m Hi), lookup_empty. cbn [default].
      split; [intros [?|?]; [set_solver | done] | by right].
    + intros e He [Hp Hmeth]. rewrite Hm in He.
      apply elem_of_map_filter in He as (c' & _ & Hcase' & ->).
      cbn [missing_entry ge_path ge_method] in Hp, Hmeth.
      unfold in_case in Hcase'.
      rewrite (contract_case_ext backend c c' Hp Hmeth), Hcase in Hcase'. done.
  - intros Hdiff.
    assert (same_path_present backend c = false) as Hsp.
    { destruct (same_path_present backend c) eqn:E; [|done].
      apply existsb_elem_of in E as (ep & Hin & Heq%String.eqb_eq).
      by destruct (Hdiff ep Hin). }
    assert (contract_case backend c = Missing) as Hcase.
    { unfold contract_case. by rewrite Hnm, Hsp. }
    split.
    + rewrite Hm. apply elem_of_map_filter. exists c.
      unfold in_case. by rewrite Hcase.
    + intros e He [Hp Hmeth]. rewrite Hx in He.
      apply elem_of_map_filter in He as (c' & _ & Hcase' & ->).
      cbn [mismatch_entry_of mm_path mm_contract_method] in Hp, Hmeth.
      unfold in_case in Hcase'.
      rewrite (contract_case_ext backend c c' Hp Hmeth), Hcase in Hcase'. done.
Qed.

(** The contract POST /v1/bar of the repository's unit test, whose
    path the route GET /v1/bar shares, is filed as a mismatch; the
    contract POST /v1/foo against the one route GET /api/v1/foo, whose
    path contains the contract's, is filed as missing. *)
Lemma method_mismatch_on_same_path_witness :
  (let c := mk_contract "/v1/bar" "POST" in
   let r := compute_gap_report test_contracts test_backend test_flutter in
   (exists e, e ∈ method_mismatches r /\
      mm_path e = contract_path c /\
      mm_contract_method e = contract_method c /\
      StronglySorted PyStr.le (mm_backend_methods e) /\
      NoDup (mm_backend_methods e) /\
      forall m, m ∈ mm_backend_methods e <->
        exists ep, ep ∈ test_backend /\
          _normalize_path (_get ep "path" "") = _normalize_path (contract_path c) /\
          upper (_get ep "method" "") = m) /\
   (forall e, e ∈ missing_backend_endpoints r ->
      ~ (ge_path e = contract_path c /\ ge_method e = contract_method c))) /\
  (let c := mk_contract "/v1/foo" "POST" in
   let backend := [mk_route "/api/v1/foo" "GET"] in
   let r := compute_gap_report [c] backend [] in
   matching_path_present backend c = true /\
   missing_entry c ∈ missing_backend_endpoints r /\
   (forall e, e ∈ method_mismatches r ->
      ~ (mm_path e = contract_path c /\
         mm_contract_method e = contract_method c))).
Proof.
  split.
  - apply (method_mismatch_on_same_path test_contracts test_backend test_flutter
             (mk_contract "/v1/bar" "POST")).
    + unfold test_contracts. apply elem_of_cons. right. apply elem_of_cons. by left.
    + intros ep Hin. unfold test_backend in Hin.
      repeat (apply elem_of_cons in Hin as [->|Hin]; [by vm_compute|]).
      by apply elem_of_nil in Hin.
    + exists (mk_route "/v1/bar" "GET"). split; [|by vm_compute].
      unfold test_backend. apply elem_of_cons. right. apply elem_of_cons. by left.
  - cbv zeta. split; [by vm_compute|].
    apply (method_mismatch_on_same_path [mk_contract "/v1/foo" "POST"]
             [mk_route "/api/v1/foo" "GET"] [] (mk_contract "/v1/foo" "POST")).
    + apply elem_of_cons. by left.
    + intros ep Hin.
      apply elem_of_cons in Hin as [->|Hin]; [by vm_compute|].
      by apply elem_of_nil in Hin.
    + intros ep Hin.
      apply elem_of_cons in Hin as [->|Hin]; [by vm_compute|].
      by apply elem_of_nil in Hin.
Defined.

(** C2, as stated, fails: the route path /api/v1/foo matches the
    contract path /v1/foo under the substring rule and no route matches
    on path and method, yet the report files the contract under
    [missing_backend_endpoints] and [method_mismatches] stays empty. *)
Lemma substring_path_reported_missing :
  let c := mk_contract "/v1/foo" "POST" in
  let backend := [mk_route "/api/v1/foo" "GET"] in
  let r := compute_gap_report [c] backend [] in
  matching_path_present backend c = true /\
  has_backend_match backend c = false /\
  method_mismatches r = [] /\
  missing_backend_endpoints r = [missing_entry c].
Proof. by vm_compute. Qed.

(** *** Empty paths *)

Lemma lstrip_replicate n c : lstrip c (replicate n c) = "".
Proof. induction n as [|n IH]; simpl; [done|]. by rewrite Ascii.eqb_refl. Qed.

Lemma normalize_slashes n : _normalize_path (replicate n slash) = "".
Proof. unfold _normalize_path, strip. by rewrite lstrip_replicate. Qed.

Lemma paths_match_empty_norm a p :
  _normalize_path a = "" -> _paths_match a p = true /\ _paths_match p a = true.
Proof.
  intros Ha. unfold _paths_match. cbv zeta. rewrite Ha, contains_empty.
  split; [by rewrite orb_true_r | by rewrite !orb_true_r].
Qed.

(** C10. The path-matching predicate accepts ("", p) and (p, "") for
    every p; a path made only of slashes (the empty path included)
    normalizes to the empty string, and so does the path read from a
    contract whose metadata has no path; a path that normalizes to the
    empty string matches every path; and when the list of UI call
    records is not empty, no contract whose path normalizes to the empty
    string is reported in [contracts_not_used_in_flutter]. *)
Theorem empty_path_matches_everything :
  (forall p, _paths_match "" p = true /\ _paths_match p "" = true) /\
  (forall n, _normalize_path (replicate n slash) = "") /\
  (forall c, contract_meta c !! "path" = None ->
             _normalize_path (contract_path c) = "") /\
  (forall a p, _normalize_path a = "" ->
               _paths_match a p = true /\ _paths_match p a = true) /\
  (forall contracts backend flutter, flutter <> [] ->
     forall e, e ∈ contracts_not_used_in_flutter
                     (compute_gap_report contracts backend flutter) ->
               _normalize_path (ge_path e) <> "").
Proof.
  split; [|split; [|split; [|split]]].
  - intros p. by apply paths_match_empty_norm.
  - apply normalize_slashes.
  - intros c Hc. unfold contract_path, _get. by rewrite Hc.
  - apply paths_match_empty_norm.
  - intros contracts backend flutter Hne e He Hnorm.
    destruct (report_lists contracts backend flutter) as (_ & _ & Hu).
    cbv zeta in Hu. rewrite Hu in He.
    apply elem_of_map_filter in He as (c & _ & Hused & ->).
    cbn [not_used_entry ge_path] in Hnorm.
    destruct flutter as [|call calls]; [done|].
    unfold used_in_flutter in Hused. cbn [existsb] in Hused.
    destruct (paths_match_empty_norm (contract_path c)
                (default "" (call !! "endpoint")) Hnorm) as [Hm _].
    by rewrite Hm in Hused.
Qed.

(** A contract without a path next to the contract PUT /v1/baz, with
    the one UI call of the repository's unit test: only /v1/baz is
    reported as not used. *)
Lemma empty_path_matches_everything_witness :
  test_flutter <> [] /\
  contracts_not_used_in_flutter
    (compute_gap_report [mk_contract "" "GET"; mk_contract "/v1/baz" "PUT"]
                        test_backend test_flutter)
    = [not_used_entry (mk_contract "/v1/baz" "PUT")] /\
  forall e, e ∈ contracts_not_used_in_flutter
              (compute_gap_report [mk_contract "" "GET"; mk_contract "/v1/baz" "PUT"]
                                  test_backend test_flutter) ->
            _normalize_path (ge_path e) <> "".
Proof.
  split; [discriminate|]. split; [by vm_compute|].
  apply (proj2 (proj2 (proj2 (proj2 empty_path_matches_everything)))).
  discriminate.
Defined.

End GapReporterFacts.

(* ===================================================================== *)
(** * Properties of the store and of the agents *)
(* ===================================================================== *)

Module StoreFacts.
Import PyStr Records Store Agents.

(** *** [str] of an integer is injective *)

Lemma to_int_not_nil (z : Z) :
  Z.to_int z <> Decimal.Pos Decimal.Nil /\ Z.to_int z <> Decimal.Neg Decimal.Nil.
Proof.
  destruct z as [|p|p]; simpl; split; try discriminate; intros H;
    injection H as H'; by apply DecimalPos.Unsigned.to_uint_nonnil in H'.
Qed.

Lemma str_of_int_inj (z1 z2 : Z) : str_of_int z1 = str_of_int z2 -> z1 = z2.
Proof.
  unfold str_of_int. intros H.
  destruct (to_int_not_nil z1) as [Hp1 Hn1], (to_int_not_nil z2) as [Hp2 Hn2].
  pose proof (DecimalString.NilZero.isi _ Hp1 Hn1) as H1.
  pose proof (DecimalString.NilZero.isi _ Hp2 Hn2) as H2.
  rewrite H in H1. rewrite H1 in H2. injection H2 as H2.
  rewrite <- (DecimalZ.of_to z1), <- (DecimalZ.of_to z2). by rewrite H2.
Qed.

Lemma append_inj_l (p s1 s2 : string) : p +:+ s1 = p +:+ s2 -> s1 = s2.
Proof. induction p as [|a p IH]; simpl; [done | intros [= H]; auto]. Qed.

(** *** Upserting an entity *)

Lemma add_entity_lookup d e t c k :
  code_entities (add_entity d e t c).1 !! k =
    if decide (id e = k)
    then Some {| row_type := type e; row_name := name e;
                 row_file_path := file_path e; row_language := language e;
                 row_metadata := metadata e;
                 row_created_at := c; row_updated_at := t |}
    else code_entities d !! k.
Proof.
  cbn. case_decide as Hk; [subst; by rewrite lookup_insert_eq | by rewrite lookup_insert_ne].
Qed.

Lemma add_entity_dom d e t c :
  dom (code_entities (add_entity d e t c).1) = {[id e]} ∪ dom (code_entities d).
Proof. cbn. apply dom_insert_L. Qed.

(** C4, on the code. Upserting an entity a second time leaves one row
    under its id (the set of ids is unchanged) and sets [updated_at] to
    the time of the second write, but [created_at] does not keep the
    value of the first insert: it is the database time of the second
    write. *)
Theorem upsert_resets_created_at (d : db) (e : CodeEntity)
    (t1 c1 t2 c2 : time) :
  let d1 := (add_entity d e t1 c1).1 in
  let d2 := (add_entity d1 e t2 c2).1 in
  (row_created_at <$> code_entities d1 !! id e) = Some c1 /\
  (row_created_at <$> code_entities d2 !! id e) = Some c2 /\
  (row_updated_at <$> code_entities d2 !! id e) = Some t2 /\
  dom (code_entities d2) = dom (code_entities d1) /\
  (add_entity d1 e t2 c2).2 = true.
Proof.
  cbv zeta. rewrite !add_entity_lookup, !add_entity_dom.
  rewrite !decide_True by done. cbn. repeat split; try done. set_solver.
Qed.

(** An entity inserted at time 100 and upserted again at time 200. *)
Example upsert_at_100_then_200 :
  let e := {| id := "flutter_widget_LoginPage_7"; type := "widget";
              name := "LoginPage"; file_path := "lib/login_page.dart";
              language := "dart"; metadata := "{}";
              created_at := 100%Z; updated_at := 100%Z |} in
  let d1 := (add_entity init_db e 100%Z 100%Z).1 in
  let d2 := (add_entity d1 e 200%Z 200%Z).1 in
  (row_created_at <$> code_entities d1 !! id e) = Some 100%Z /\
  (row_created_at <$> code_entities d2 !! id e) = Some 200%Z.
Proof. by vm_compute. Qed.

(** *** Entity ids and the interpreter's [hash] *)

Lemma widget_entity_id_inj hash1 hash2 w :
  widget_entity_id hash1 w = widget_entity_id hash2 w ->
  hash1 (fw_file_path w) = hash2 (fw_file_path w).
Proof.
  unfold widget_entity_id. intros H.
  do 3 apply append_inj_l in H.
  by apply str_of_int_inj.
Qed.

Section OneProcess.
Variable hash : string -> Z.
Variable widget_metadata : FlutterWidget -> string.
Variable endpoint_metadata : APIEndpoint -> string.
Variable model_metadata : PydanticModel -> string.
Variable py_clock db_clock : nat -> time.

Lemma store_entities_dom {A} (mk : nat -> A -> CodeEntity) (idf : A -> string)
    (xs : list A) :
  (forall n x, id (mk n x) = idf x) ->
  forall st,
    dom (code_entities (foldl (store_entity py_clock db_clock mk) st xs).1)
    = dom (code_entities st.1) ∪ list_to_set (map idf xs).
Proof.
  intros Hid. induction xs as [|x xs IH]; intros [d n]; cbn [foldl map list_to_set].
  - set_solver.
  - rewrite IH. cbn [store_entity fst].
    rewrite add_entity_dom, Hid. set_solver.
Qed.

Lemma store_analysis_results_dom fr pr st :
  dom (code_entities
         (_store_analysis_results hash widget_metadata endpoint_metadata
            model_metadata py_clock db_clock fr pr st).1)
  = dom (code_entities st.1)
    ∪ list_to_set (map (widget_entity_id hash) (widgets fr))
    ∪ list_to_set (map (endpoint_entity_id hash) (endpoints pr))
    ∪ list_to_set (map (model_entity_id hash) (models pr)).
Proof.
  unfold _store_analysis_results. cbv zeta.
  rewrite (store_entities_dom _ (model_entity_id hash)) by done.
  rewrite (store_entities_dom _ (endpoint_entity_id hash)) by done.
  rewrite (store_entities_dom _ (widget_entity_id hash)) by done.
  done.
Qed.

(** Within one process (one [hash]), a second run over the same
    results creates no new row. *)
Lemma rerun_same_process fr pr st :
  let run := _store_analysis_results hash widget_metadata endpoint_metadata
               model_metadata py_clock db_clock fr pr in
  dom (code_entities (run (run st)).1) = dom (code_entities (run st).1).
Proof. cbv zeta. rewrite !store_analysis_results_dom. set_solver. Qed.

End OneProcess.

(** C3, on the code. The entity id embeds [hash(file_path)], the
    interpreter's string hash, which belongs to the process. When the
    hash of the widget's file path differs between two processes, the
    two runs give the same widget different ids, and after the second
    run the store holds two rows for it. *)
Theorem entity_ids_differ_across_processes
    (hash1 hash2 : string -> Z) (wm : FlutterWidget -> string)
    (em : APIEndpoint -> string) (mm : PydanticModel -> string)
    (py_clock db_clock : nat -> time) (w : FlutterWidget) :
  hash1 (fw_file_path w) <> hash2 (fw_file_path w) ->
  let fr := {| widgets := [w]; api_calls := [] |} in
  let pr := {| endpoints := []; models := [] |} in
  let run1 := _store_analysis_results hash1 wm em mm py_clock db_clock fr pr
                (init_db, 0) in
  let run2 := _store_analysis_results hash2 wm em mm py_clock db_clock fr pr
                run1 in
  widget_entity_id hash1 w <> widget_entity_id hash2 w /\
  size (code_entities run1.1) = 1 /\
  size (code_entities run2.1) = 2.
Proof.
  intros Hh. cbv zeta.
  assert (widget_entity_id hash1 w <> widget_entity_id hash2 w) as Hid
    by (intros H%widget_entity_id_inj; done).
  split; [done|]. cbn. split.
  - by rewrite map_size_insert_None, map_size_empty.
  - rewrite map_size_insert_None, map_size_insert_None, map_size_empty; [done|done|].
    by rewrite lookup_insert_ne.
Qed.

(** Two processes whose hashes of the path lib/login_page.dart are 7
    and 8. *)
Lemma entity_ids_differ_across_processes_witness :
  let w := {| fw_name := "LoginPage"; fw_type := "StatelessWidget";
              fw_file_path := "lib/login_page.dart";
              fw_line_start := 3; fw_line_end := 18 |} in
  let fr := {| widgets := [w]; api_calls := [] |} in
  let pr := {| endpoints := []; models := [] |} in
  let run1 := _store_analysis_results (fun _ => 7%Z) (fun _ => "{}")
                (fun _ => "{}") (fun _ => "{}") (fun _ => 0%Z) (fun _ => 0%Z)
                fr pr (init_db, 0) in
  let run2 := _store_analysis_results (fun _ => 8%Z) (fun _ => "{}")
                (fun _ => "{}") (fun _ => "{}") (fun _ => 0%Z) (fun _ => 0%Z)
                fr pr run1 in
  widget_entity_id (fun _ => 7%Z) w <> widget_entity_id (fun _ => 8%Z) w /\
  size (code_entities run1.1) = 1 /\
  size (code_entities run2.1) = 2.
Proof.
  apply (entity_ids_differ_across_processes (fun _ => 7%Z) (fun _ => 8%Z)).
  simpl. lia.
Defined.

End StoreFacts.

Module AgentsFacts.
Import PyStr Records Store Agents.

(** *** Relationships *)

Lemma add_relationship_lookup d r t k :
  relationships (add_relationship d r t).1 !! k =
    if decide (rel_id r = k)
    then Some {| row_source_entity_id := source_entity_id r;
                 row_target_entity_id := target_entity_id r;
                 row_relationship_type := relationship_type r;
                 row_rel_metadata := rel_metadata r;
                 row_rel_created_at := t |}
    else relationships d !! k.
Proof.
  cbn. case_decide as Hk; [subst; by rewrite lookup_insert_eq | by rewrite lookup_insert_ne].
Qed.

Lemma api_call_id_ne_endpoint_id hash api_call endpoint :
  api_call_entity_id hash api_call <> endpoint_entity_id hash endpoint.
Proof. unfold api_call_entity_id, endpoint_entity_id. cbn. discriminate. Qed.

(** C9, as stated, fails: the relationship upsert stores an edge from
    an entity id to itself and returns [True]. *)
Lemma self_edge_accepted :
  let r := {| rel_id := "r1"; source_entity_id := "python_endpoint_get_user_7";
              target_entity_id := "python_endpoint_get_user_7";
              relationship_type := "calls"; rel_metadata := "{}";
              rel_created_at := 0%Z |} in
  (add_relationship init_db r 0%Z).2 = true /\
  exists row, relationships (add_relationship init_db r 0%Z).1 !! "r1" = Some row /\
              row_source_entity_id row = row_target_entity_id row.
Proof. cbv zeta. split; [done|]. eexists. split; [by vm_compute | done]. Qed.

(** C9, as the code has it. The relationship upsert accepts every
    relationship and stores it as given, with no comparison of its two
    ends; the relationships the pipeline itself writes, in
    [_create_cross_references], run from a [flutter_api_call_...] id to
    a [python_endpoint_...] id, so on a table without self-edges the
    cross-reference pass leaves the table without self-edges. *)
Theorem cross_references_are_not_loops
    (hash : string -> Z) (calls_metadata : api_call -> APIEndpoint -> string)
    (py_clock db_clock : nat -> time)
    (fr : flutter_results) (pr : python_results) (st : db * nat) :
  loop_free st.1 ->
  (forall d r t,
      (add_relationship d r t).2 = true /\
      relationships (add_relationship d r t).1 !! rel_id r =
        Some {| row_source_entity_id := source_entity_id r;
                row_target_entity_id := target_entity_id r;
                row_relationship_type := relationship_type r;
                row_rel_metadata := rel_metadata r;
                row_rel_created_at := t |}) /\
  loop_free (_create_cross_references hash calls_metadata py_clock db_clock
               fr pr st).1.
Proof.
  intros Hst. split.
  - intros d r t. split; [done|]. rewrite add_relationship_lookup.
    by rewrite decide_True.
  - unfold _create_cross_references.
    generalize dependent st. induction (api_calls fr) as [|call calls IHc];
      intros st Hst; [done|].
    cbn [foldl]. apply IHc. clear IHc.
    generalize dependent st. induction (endpoints pr) as [|ep eps IHe];
      intros st Hst; [done|].
    cbn [foldl]. apply IHe.
    destruct (_paths_match _ _); [|done].
    cbn [fst]. intros k row. rewrite add_relationship_lookup.
    case_decide; [|apply Hst].
    intros [= <-]. apply api_call_id_ne_endpoint_id.
Qed.

(** The cross-reference pass over one call site and one route, from
    the empty tables. *)
Lemma cross_references_are_not_loops_witness :
  let call := {| ac_type := "dio"; ac_method := ".get";
                 ac_endpoint := "/api/v1/users"; ac_file_path := "lib/api.dart";
                 ac_line := 12 |} in
  let ep := {| ep_name := "get_users"; ep_method := "GET";
               ep_path := "/api/v1/users"; ep_function_name := "get_users";
               ep_file_path := "api/routes/users.py"; ep_line_number := 9 |} in
  let st := _create_cross_references (fun _ => 7%Z) (fun _ _ => "{}")
              (fun _ => 0%Z) (fun _ => 0%Z)
              {| widgets := []; api_calls := [call] |}
              {| endpoints := [ep]; models := [] |} (init_db, 0) in
  loop_free init_db /\ size (relationships st.1) = 1 /\ loop_free st.1.
Proof.
  assert (loop_free init_db) as H0 by (intros k row Hk; cbn in Hk; done).
  split; [exact H0|]. split; [by vm_compute|].
  apply (cross_references_are_not_loops (fun _ => 7%Z) (fun _ _ => "{}")
           (fun _ => 0%Z) (fun _ => 0%Z) _ _ (init_db, 0) H0).
Defined.

(** *** Mapping call sites to routes *)

(** What [_map_api_calls] compares: normalized containment of the
    paths, and the call's method uppercased against the route's. *)
Lemma map_api_calls_spec fr pr (m : api_mapping) :
  m ∈ _map_api_calls fr pr <->
  exists call ep, call ∈ api_calls fr /\ ep ∈ endpoints pr /\
    _endpoints_match (ac_endpoint call) (ep_path ep) = true /\
    upper (ac_method call) = ep_method ep /\
    m = {| flutter_endpoint := ac_endpoint call;
           flutter_method := ac_method call;
           flutter_file := ac_file_path call;
           python_endpoint := ep_path ep;
           python_method := ep_method ep;
           python_file := ep_file_path ep;
           python_function := ep_name ep;
           confidence := (9, 10) |}.
Proof.
  unfold _map_api_calls. rewrite list_elem_of_In, in_flat_map. split.
  - intros (call & Hc & Hin). apply in_flat_map in Hin as (ep & He & Hin).
    destruct (_endpoints_match _ _) eqn:Hm; [|destruct Hin].
    destruct (String.eqb _ _) eqn:Hq; [|destruct Hin].
    destruct Hin as [<-|[]]. exists call, ep.
    rewrite !list_elem_of_In. apply String.eqb_eq in Hq. done.
  - intros (call & ep & Hc & He & Hm & Hq & ->). exists call.
    rewrite <- list_elem_of_In. split; [done|].
    apply in_flat_map. exists ep. rewrite <- list_elem_of_In. split; [done|].
    rewrite Hm. apply String.eqb_eq in Hq. rewrite Hq. by left.
Qed.

(** C8, on the code. [_map_api_calls] compares normalized paths and
    methods, but [_create_api_mappings], which persists the mappings,
    compares the raw paths and no methods. For the call site /Users/
    with method get and the route GET /users the paths match after
    normalization and the methods agree, and [_map_api_calls] returns a
    mapping, yet nothing is persisted; for the call site /users with a
    method other than the route's, [_map_api_calls] returns nothing, yet
    a mapping is persisted. *)
Theorem persisted_mappings_compare_raw_paths
    (hash : string -> Z) (mapping_metadata : api_call -> APIEndpoint -> string)
    (db_clock : nat -> time) :
  let ep := {| ep_name := "list_users"; ep_method := "GET";
               ep_path := "/users"; ep_function_name := "list_users";
               ep_file_path := "api/routes/users.py"; ep_line_number := 9 |} in
  let pr := {| endpoints := [ep]; models := [] |} in
  let call1 := {| ac_type := "dio"; ac_method := "get";
                  ac_endpoint := "/Users/"; ac_file_path := "lib/api.dart";
                  ac_line := 12 |} in
  let call2 := {| ac_type := "dio"; ac_method := "post";
                  ac_endpoint := "/users"; ac_file_path := "lib/api.dart";
                  ac_line := 20 |} in
  let fr1 := {| widgets := []; api_calls := [call1] |} in
  let fr2 := {| widgets := []; api_calls := [call2] |} in
  (_endpoints_match (ac_endpoint call1) (ep_path ep) = true /\
   upper (ac_method call1) = ep_method ep /\
   length (_map_api_calls fr1 pr) = 1 /\
   api_mappings (_create_api_mappings hash mapping_metadata db_clock
                   fr1 pr (init_db, 0)).1 = ∅) /\
  (upper (ac_method call2) <> ep_method ep /\
   _map_api_calls fr2 pr = [] /\
   size (api_mappings (_create_api_mappings hash mapping_metadata db_clock
                         fr2 pr (init_db, 0)).1) = 1).
Proof.
  cbv zeta. split.
  - repeat split; by vm_compute.
  - split; [by vm_compute|]. split; [by vm_compute|].
    cbn. by rewrite map_size_insert_None, map_size_empty.
Qed.

End AgentsFacts.

(* ===================================================================== *)
(** * Properties of the route extraction *)
(* ===================================================================== *)

Module PyAstFacts.
Import PyStr Records PyAst.

(** A function definition with one route decorator yields one record:
    the method is the attribute name uppercased and the path the first
    literal argument, or the empty string without one. *)
Lemma sync_route_extracted name verb args lineno body file_path recv :
  verb ∈ route_verbs ->
  endpoints_of_node file_path
    (FunctionDef name [Call (Attribute recv verb) args] lineno body)
  = [{| ep_name := name; ep_method := upper verb;
        ep_path := match args with Constant value :: _ => value | _ => "" end;
        ep_function_name := name; ep_file_path := file_path;
        ep_line_number := lineno |}].
Proof. intros Hv. cbn. by rewrite bool_decide_eq_true_2. Qed.

(** C5, on the code. The extractor tests nodes with
    [isinstance(node, ast.FunctionDef)], which an [async def] does not
    satisfy: a decorated [async def] yields no route record, whatever
    its decorators. On the repository's own [api/routes/agent.py], whose
    two route functions are [async def], the extractor returns the empty
    list; with the same functions written as plain [def], it returns
    the two records with the uppercased verb and the literal paths. *)
Theorem async_routes_not_extracted :
  (forall file_path name decorator_list lineno body,
      endpoints_of_node file_path
        (AsyncFunctionDef name decorator_list lineno body) = []) /\
  _extract_fastapi_endpoints (agent_routes AsyncFunctionDef)
    "api/routes/agent.py" = [] /\
  map (fun ep => (ep_name ep, ep_method ep, ep_path ep, ep_line_number ep))
      (_extract_fastapi_endpoints (agent_routes FunctionDef) "api/routes/agent.py")
  = [("build_feature_graph", "GET", "/feature-graph", 13);
     ("gap_report", "GET", "/gap-report", 21)].
Proof. split; [done|]. split; by vm_compute. Qed.

End PyAstFacts.

(* ===================================================================== *)
(** * Properties of the patterns *)
(* ===================================================================== *)

Module PatternFacts.
Import PyStr Records Dart.

Lemma append_cons (a : ascii) (s t : string) :
  String a s +:+ t = String a (s +:+ t).
Proof. reflexivity. Qed.

Lemma length_append (s t : string) :
  String.length (s +:+ t) = String.length s + String.length t.
Proof. induction s as [|a s IH]; simpl; [done | by rewrite IH]. Qed.

Lemma drop_append (s t : string) : drop (String.length s) (s +:+ t) = t.
Proof. induction s as [|a s IH]; simpl; [by destruct t | done]. Qed.

Lemma take_append (s t : string) : take (String.length s) (s +:+ t) = s.
Proof. induction s as [|a s IH]; simpl; [by destruct t | by rewrite IH]. Qed.

Lemma take_drop (n : nat) (s : string) : take n s +:+ drop n s = s.
Proof.
  revert s. induction n as [|n IH]; intros [|a s]; simpl; try done.
  change (String a (take n s +:+ drop n s) = String a s).
  f_equal. apply IH.
Qed.

Lemma prefix_append (t s : string) : String.prefix t (t +:+ s) = true.
Proof.
  induction t as [|a t IH]; simpl; [by destruct s|].
  destruct (ascii_dec a a); [done | congruence].
Qed.

Lemma prefix_inv (t s : string) :
  String.prefix t s = true -> s = t +:+ drop (String.length t) s.
Proof.
  revert s. induction t as [|a t IH]; intros s H; simpl.
  - by destruct s.
  - destruct s as [|b s]; simpl in H; [done|].
    destruct (ascii_dec a b) as [->|]; [|done].
    rewrite append_cons. f_equal. by apply IH.
Qed.

(** *** The longest run *)

Lemma span_spec cls s :
  s = (span cls s).1 +:+ (span cls s).2 /\
  all_chars cls (span cls s).1 = true /\
  head_not cls (span cls s).2.
Proof.
  induction s as [|c s (IH1 & IH2 & IH3)]; simpl; [done|].
  destruct (cls c) eqn:Hc; [|done].
  destruct (span cls s) as [run rest]. simpl in *.
  rewrite Hc. split; [rewrite append_cons; congruence | done].
Qed.

Lemma span_append cls run rest :
  all_chars cls run = true -> head_not cls rest ->
  span cls (run +:+ rest) = (run, rest).
Proof.
  intros Hrun Hrest. induction run as [|c run IH]; simpl in *.
  - destruct rest as [|c rest]; [done|]. simpl in *. by rewrite Hrest.
  - apply andb_true_iff in Hrun as [Hc Hrun]. by rewrite Hc, IH.
Qed.

(** *** The matcher finds what the pattern matches *)

Lemma match_items_sound its : forall s groups n,
  match_items its s = Some (groups, n) -> matches its s groups n.
Proof.
  induction its as [|it its IH]; intros s groups n H; simpl in H.
  - injection H as <- <-. constructor.
  - destruct it as [text|cls|cls capture|cls].
    + destruct (String.prefix text s) eqn:Hp; [|done].
      destruct (match_items its _) as [[gs k]|] eqn:Hm; [|done].
      injection H as <- <-. rewrite (prefix_inv _ _ Hp).
      constructor. by apply IH.
    + destruct s as [|c s]; [done|]. destruct (cls c) eqn:Hc; [|done].
      destruct (match_items its s) as [[gs k]|] eqn:Hm; [|done].
      injection H as <- <-. constructor; [done | by apply IH].
    + destruct (span_spec cls s) as (Hs & Hall & _).
      destruct (span cls s) as [run rest]. simpl in *.
      destruct run as [|c run]; [done|].
      destruct (match_items its rest) as [[gs k]|] eqn:Hm; [|done].
      injection H as <- <-. rewrite Hs.
      apply (matches_plus cls capture its (String c run)); [done|done|by apply IH].
    + destruct (span_spec cls s) as (Hs & Hall & _).
      destruct (span cls s) as [run rest]. simpl in *.
      destruct (match_items its rest) as [[gs k]|] eqn:Hm; [|done].
      injection H as <- <-. rewrite Hs.
      apply matches_star; [done | by apply IH].
Qed.

Lemma in_all_ascii (c : ascii) : In c all_ascii.
Proof.
  unfold all_ascii. apply in_map_iff. exists (nat_of_ascii c).
  split; [apply ascii_nat_embedding|].
  apply in_seq. pose proof (nat_ascii_bounded c). lia.
Qed.

Lemma disjoint_classes_spec cls cls' c :
  disjoint_classes cls cls' = true -> cls' c = true -> cls c = false.
Proof.
  unfold disjoint_classes. rewrite forallb_forall. intros H Hc.
  specialize (H c (in_all_ascii c)). rewrite Hc in H.
  by destruct (cls c).
Qed.

Lemma first_ok_head cls its s groups n :
  first_ok cls its = true -> matches its s groups n -> head_not cls s.
Proof.
  intros Hf Hm. destruct Hm as [s|text its s groups n Hm|cls' its c s groups n Hc Hm
    |cls' capture its run s groups n Hne Hall Hm|cls' its run s groups n Hall Hm];
    simpl in Hf; try done.
  - destruct text as [|c text]; [done|]. simpl. by apply negb_true_iff.
  - simpl. by eapply disjoint_classes_spec.
  - destruct run as [|c run]; [done|]. simpl in *.
    apply andb_true_iff in Hall as [Hc _]. by eapply disjoint_classes_spec.
Qed.

Lemma match_items_complete its s groups n :
  follow_ok its = true -> matches its s groups n ->
  match_items its s = Some (groups, n).
Proof.
  intros Hf Hm. induction Hm as [s|text its s groups n Hm IH|cls its c s groups n Hc Hm IH
    |cls capture its run s groups n Hne Hall Hm IH|cls its run s groups n Hall Hm IH];
    simpl in *.
  - done.
  - by rewrite prefix_append, drop_append, IH.
  - by rewrite Hc, IH.
  - apply andb_true_iff in Hf as [Hfirst Hf].
    rewrite (span_append cls run s Hall (first_ok_head _ _ _ _ _ Hfirst Hm)).
    destruct run as [|c run]; [done|]. by rewrite IH.
  - apply andb_true_iff in Hf as [Hfirst Hf].
    rewrite (span_append cls run s Hall (first_ok_head _ _ _ _ _ Hfirst Hm)).
    by rewrite IH.
Qed.

(** For a pattern whose repetitions are each followed by a character
    outside the repeated class, the matcher finds exactly what the
    pattern matches: a match, its groups and its length are unique. *)
Lemma match_items_iff its s groups n :
  follow_ok its = true ->
  match_items its s = Some (groups, n) <-> matches its s groups n.
Proof.
  intros Hf. split; [apply match_items_sound | by apply match_items_complete].
Qed.

Lemma widget_items_follow_ok base :
  (exists c t, base = String c t /\ is_space c = false) ->
  follow_ok (widget_items base) = true.
Proof. intros (c & t & -> & Hc). simpl. rewrite Hc. by vm_compute. Qed.

End PatternFacts.

(* ===================================================================== *)
(** * Properties of the widget and API-call extraction *)
(* ===================================================================== *)

Module DartFacts.
Import PyStr Records Dart PatternFacts.

(** *** [finditer] *)

Lemma str_drop_0 (s : string) : drop 0 s = s.
Proof. by destruct s. Qed.

Lemma finditer_from_sound its s : forall pos skip m,
  m ∈ finditer_from its pos skip s ->
  pos + skip <= m_start m /\ m_start m < pos + String.length s /\
  exists n, match_items its (drop (m_start m - pos) s) = Some (m_groups m, n) /\
            m_end m = m_start m + n.
Proof.
  induction s as [|c s IH]; intros pos skip m Hm; simpl in Hm.
  - by apply elem_of_nil in Hm.
  - destruct skip as [|skip].
    + destruct (match_items its (String c s)) as [[groups n]|] eqn:Hmatch.
      * apply elem_of_cons in Hm as [->|Hm].
        -- cbn [m_start m_end m_groups]. split; [lia|]. split; [simpl; lia|].
           exists n. replace (pos - pos) with 0 by lia. by rewrite str_drop_0.
        -- apply IH in Hm as (H1 & H2 & n' & H3 & H4).
           split; [lia|]. split; [simpl; lia|]. exists n'.
           replace (m_start m - pos) with (S (m_start m - S pos)) by lia. done.
      * apply IH in Hm as (H1 & H2 & n' & H3 & H4).
        split; [lia|]. split; [simpl; lia|]. exists n'.
        replace (m_start m - pos) with (S (m_start m - S pos)) by lia. done.
    + apply IH in Hm as (H1 & H2 & n' & H3 & H4).
      split; [lia|]. split; [simpl; lia|]. exists n'.
      replace (m_start m - pos) with (S (m_start m - S pos)) by lia. done.
Qed.

Lemma finditer_from_sorted its s : forall pos skip,
  StronglySorted before (finditer_from its pos skip s).
Proof.
  induction s as [|c s IH]; intros pos skip; simpl; [constructor|].
  destruct skip as [|skip]; [|apply IH].
  destruct (match_items its (String c s)) as [[groups n]|] eqn:Hmatch; [|apply IH].
  constructor; [apply IH|].
  apply Forall_forall. intros m Hm.
  apply finditer_from_sound in Hm as (H1 & _). unfold before. cbn. lia.
Qed.

Lemma finditer_from_complete its s : forall pos skip k groups n,
  skip <= k -> k < String.length s ->
  match_items its (drop k s) = Some (groups, n) ->
  (exists m, m ∈ finditer_from its pos skip s /\ m_start m = pos + k /\
             m_groups m = groups /\ m_end m = pos + k + n) \/
  (exists m, m ∈ finditer_from its pos skip s /\
             m_start m < pos + k /\ pos + k < m_end m).
Proof.
  induction s as [|c s IH]; intros pos skip k groups n Hskip Hk Hmatch;
    simpl in Hk; [lia|].
  cbn [finditer_from]. destruct skip as [|skip].
  - destruct k as [|k].
    + rewrite str_drop_0 in Hmatch. rewrite Hmatch. left.
      eexists. split; [by left|]. cbn. split; [lia|]. split; [done|lia].
    + cbn [drop] in Hmatch.
      destruct (match_items its (String c s)) as [[groups0 n0]|] eqn:Hm0.
      * destruct (decide (n0 - 1 <= k)) as [Hle|Hgt].
        -- destruct (IH (S pos) (n0 - 1) k groups n Hle ltac:(lia) Hmatch)
             as [(m & Hin & H1 & H2 & H3)|(m & Hin & H1 & H2)].
           ++ left. exists m. split; [by right|]. split; [lia|]. split; [done|lia].
           ++ right. exists m. split; [by right|]. lia.
        -- right. eexists. split; [by left|]. cbn. lia.
      * destruct (IH (S pos) 0 k groups n ltac:(lia) ltac:(lia) Hmatch)
          as [(m & Hin & H1 & H2 & H3)|(m & Hin & H1 & H2)].
        -- left. exists m. split; [done|]. split; [lia|]. split; [done|lia].
        -- right. exists m. split; [done|]. lia.
  - destruct k as [|k]; [lia|]. cbn [drop] in Hmatch.
    destruct (IH (S pos) skip k groups n ltac:(lia) ltac:(lia) Hmatch)
      as [(m & Hin & H1 & H2 & H3)|(m & Hin & H1 & H2)].
    + left. exists m. split; [done|]. split; [lia|]. split; [done|lia].
    + right. exists m. split; [done|]. lia.
Qed.

(** *** The end of a scope *)

Lemma closes_rel_cons o c a rest k :
  closes_rel o c (String a rest) (S k) <->
  closes_rel (o + (if Ascii.eqb a lbrace then 1 else 0))
             (c + (if Ascii.eqb a rbrace then 1 else 0)) rest k.
Proof.
  unfold closes_rel. cbn [String.get take count].
  destruct (Ascii.eqb a lbrace), (Ascii.eqb a rbrace);
    (split; intros (H1 & H2 & H3); (split; [done|lia])).
Qed.

Lemma class_end_scan_spec rest : forall i o c,
  match class_end_scan i (Z.of_nat o - Z.of_nat c) (0 <? o) rest with
  | Some r => exists k, r = i + k /\ closes_rel o c rest k /\
                        forall j, j < k -> ~ closes_rel o c rest j
  | None => forall k, ~ closes_rel o c rest k
  end.
Proof.
  induction rest as [|a rest IH]; intros i o c; cbn [class_end_scan].
  - intros k (H & _). by destruct k.
  - destruct (Ascii.eqb a "{") eqn:Hl.
    + apply Ascii.eqb_eq in Hl as ->.
      specialize (IH (S i) (S o) c).
      replace (Z.of_nat o - Z.of_nat c + 1)%Z with (Z.of_nat (S o) - Z.of_nat c)%Z by lia.
      change true with (0 <? S o).
      assert (forall k, closes_rel o c (String "{" rest) k <->
                        exists k', k = S k' /\ closes_rel (S o) c rest k') as Hshift.
      { intros [|k].
        - split; [intros (H & _); done | intros (k' & ? & _); done].
        - rewrite closes_rel_cons. cbn. rewrite Nat.add_1_r, Nat.add_0_r.
          split; [eauto | intros (k' & [= ->] & ?); done]. }
      destruct (class_end_scan _ _ _ rest) as [r|].
      * destruct IH as (k & -> & Hk & Hfirst). exists (S k).
        split; [lia|]. split; [apply Hshift; eauto|].
        intros j Hj [j' [-> Hj']]%Hshift. apply (Hfirst j'); [lia|done].
      * intros k [k' [-> Hk']]%Hshift. by apply (IH k').
    + destruct (Ascii.eqb a "}") eqn:Hr.
      * apply Ascii.eqb_eq in Hr as ->.
        assert (forall k, closes_rel o c (String "}" rest) (S k) <->
                          closes_rel o (S c) rest k) as Hshift.
        { intros k. rewrite closes_rel_cons. cbn. by rewrite Nat.add_1_r, Nat.add_0_r. }
        assert (closes_rel o c (String "}" rest) 0 <-> 0 < o /\ o = c + 1) as H0.
        { unfold closes_rel. cbn. split; [lia|]. intros. split; [done|lia]. }
        destruct ((0 <? o) && (Z.of_nat o - Z.of_nat c - 1 =? 0)%Z) eqn:Hret.
        -- exists 0. split; [lia|]. split; [|lia].
           apply H0. apply andb_true_iff in Hret as [?%Nat.ltb_lt ?%Z.eqb_eq]. lia.
        -- specialize (IH (S i) o (S c)).
           replace (Z.of_nat o - Z.of_nat c - 1)%Z with (Z.of_nat o - Z.of_nat (S c))%Z by lia.
           assert (~ closes_rel o c (String "}" rest) 0) as Hn0.
           { rewrite H0. intros [? ?]. apply andb_false_iff in Hret as [?%Nat.ltb_ge|?%Z.eqb_neq]; lia. }
           destruct (class_end_scan _ _ _ rest) as [r|].
           ++ destruct IH as (k & -> & Hk & Hfirst). exists (S k).
              split; [lia|]. split; [by apply Hshift|].
              intros [|j] Hj; [done|]. rewrite Hshift. apply Hfirst. lia.
           ++ intros [|k]; [done|]. rewrite Hshift. apply IH.
      * specialize (IH (S i) o c).
        assert (forall k, closes_rel o c (String a rest) (S k) <->
                          closes_rel o c rest k) as Hshift.
        { intros k. rewrite closes_rel_cons.
          change lbrace with "{"%char. change rbrace with "}"%char.
          by rewrite Hl, Hr, !Nat.add_0_r. }
        assert (~ closes_rel o c (String a rest) 0) as Hn0.
        { intros (H & _). cbn in H. injection H as ->. done. }
        destruct (class_end_scan _ _ _ rest) as [r|].
        -- destruct IH as (k & -> & Hk & Hfirst). exists (S k).
           split; [lia|]. split; [by apply Hshift|].
           intros [|j] Hj; [done|]. rewrite Hshift. apply Hfirst. lia.
        -- intros [|k]; [done|]. rewrite Hshift. apply IH.
Qed.

Lemma get_drop (content : string) (start k : nat) :
  String.get k (drop start content) = String.get (start + k) content.
Proof.
  revert content. induction start as [|start IH]; intros content; simpl.
  - by rewrite ?str_drop_0.
  - destruct content as [|a content]; [by destruct k | apply IH].
Qed.

Lemma find_class_end_spec (content : string) (start_pos : nat) :
  end_line_spec content start_pos (_find_class_end content start_pos).
Proof.
  assert (forall i, closes_at content start_pos i <->
            exists k, i = start_pos + k /\ closes_rel 0 0 (drop start_pos content) k)
    as Hrel.
  { intros i. unfold closes_at, closes_rel, segment. split.
    - intros (Hle & Hget & Hpos & Heq). exists (i - start_pos).
      split; [lia|]. rewrite get_drop.
      replace (start_pos + (i - start_pos)) with i by lia.
      replace (S (i - start_pos)) with (S i - start_pos) by lia.
      split; [done|]. simpl. done.
    - intros (k & -> & Hget & Hpos & Heq). rewrite get_drop in Hget.
      replace (S (start_pos + k) - start_pos) with (S k) by lia.
      split; [lia|]. split; [done|]. simpl in *. done. }
  unfold _find_class_end, end_line_spec.
  pose proof (class_end_scan_spec (drop start_pos content) start_pos 0 0) as Hscan.
  change (Z.of_nat 0 - Z.of_nat 0)%Z with 0%Z in Hscan.
  change (0 <? 0) with false in Hscan.
  destruct (class_end_scan start_pos 0 false (drop start_pos content)) as [r|].
  - destruct Hscan as (k & -> & Hk & Hfirst). left. exists (start_pos + k).
    split; [apply Hrel; eauto|]. split; [|done].
    intros j Hj [k' [-> Hk']]%Hrel. apply (Hfirst k'); [lia|done].
  - right. split; [|done]. intros i [k [-> Hk]]%Hrel. by apply (Hscan k).
Qed.

(** *** Declarations *)

Lemma is_declaration_matches base s name len :
  is_declaration base s name len <-> matches (widget_items base) s [name] len.
Proof.
  split.
  - intros (ws1 & ws2 & ws3 & ws4 & rest & -> & H1 & A1 & Hn & An & H2 & A2
            & H3 & A3 & A4 & ->).
    rewrite !length_append. unfold widget_items.
    apply matches_lit.
    apply (matches_plus is_space false _ ws1); [done|done|].
    apply (matches_plus is_word true _ name _ []); [done|done|].
    apply (matches_plus is_space false _ ws2); [done|done|].
    apply matches_lit.
    apply (matches_plus is_space false _ ws3); [done|done|].
    apply matches_lit.
    apply (matches_star is_space _ ws4); [done|].
    replace (String.length "{") with (String.length "{" + 0) by lia.
    apply matches_lit. constructor.
  - unfold widget_items. intros H.
    repeat match goal with
           | H : matches (_ :: _) _ _ _ |- _ => inversion H; subst; clear H
           | H : matches [] _ _ _ |- _ => inversion H; subst; clear H
           end.
    eexists _, _, _, _, _. split; [reflexivity|].
    rewrite !length_append. simpl. repeat split; try done; lia.
Qed.

(** *** Declarations do not overlap *)

Lemma all_chars_impl (cls cls' : ascii -> bool) (s : string) :
  (forall a, cls a = true -> cls' a = true) ->
  all_chars cls s = true -> all_chars cls' s = true.
Proof.
  intros Himpl. induction s as [|a s IH]; simpl; [done|].
  intros [Ha Hs]%andb_true_iff. by rewrite (Himpl a Ha), IH.
Qed.

Lemma all_chars_append cls (s t : string) :
  all_chars cls (s +:+ t) = all_chars cls s && all_chars cls t.
Proof. induction s as [|a s IH]; simpl; [done|]. by rewrite IH, andb_assoc. Qed.

Lemma space_not_c a : is_space a = true -> not_c a = true.
Proof.
  intros Ha. unfold not_c. apply negb_true_iff.
  apply (disjoint_classes_spec (fun a => Ascii.eqb a "c") is_space a); [by vm_compute | done].
Qed.

Lemma space_not_word a : is_space a = true -> is_word a = false.
Proof. apply disjoint_classes_spec. by vm_compute. Qed.

Lemma word_not_space a : is_word a = true -> not_space a = true.
Proof.
  intros Ha. apply negb_true_iff. revert Ha. apply disjoint_classes_spec. by vm_compute.
Qed.

Lemma drop_append_lt (u v : string) : forall j,
  j < String.length u -> drop j (u +:+ v) = drop j u +:+ v.
Proof.
  induction u as [|a u IH]; intros j Hj; simpl in Hj; [lia|].
  destruct j as [|j]; [done|]. rewrite append_cons. cbn [drop]. apply IH. lia.
Qed.

Lemma drop_append_ge (u v : string) : forall j,
  String.length u <= j -> drop j (u +:+ v) = drop (j - String.length u) v.
Proof.
  induction u as [|a u IH]; intros j Hj; simpl in Hj.
  - by rewrite Nat.sub_0_r.
  - destruct j as [|j]; [lia|]. rewrite append_cons. cbn [drop String.length].
    rewrite Nat.sub_succ. apply IH. lia.
Qed.

Lemma drop_all_chars cls (u : string) : forall j,
  all_chars cls u = true -> j < String.length u ->
  exists a t, drop j u = String a t /\ all_chars cls (String a t) = true.
Proof.
  induction u as [|a u IH]; intros j Hall Hj; simpl in Hj; [lia|].
  destruct j as [|j]; [by exists a, u|].
  cbn [drop]. simpl in Hall. apply andb_true_iff in Hall as [_ Hall].
  apply IH; [done|lia].
Qed.

Lemma peel (u v : string) (j : nat) :
  all_chars not_c u = true -> starts_declaration (drop j (u +:+ v)) ->
  String.length u <= j.
Proof.
  intros Hu (a & r & Heq & _).
  destruct (decide (j < String.length u)) as [Hj|]; [|lia].
  rewrite drop_append_lt in Heq by done.
  destruct (drop_all_chars not_c u j Hu Hj) as (b & t & Hd & Hb).
  rewrite Hd in Heq. injection Heq as -> _. simpl in Hb. done.
Qed.

Lemma declaration_starts base t name len :
  is_declaration base t name len -> starts_declaration t.
Proof.
  intros (ws1 & ws2 & ws3 & ws4 & rest & -> & H1 & A1 & _).
  destruct ws1 as [|a ws1]; [done|]. simpl in A1.
  apply andb_true_iff in A1 as [Ha _]. by exists a, (ws1 +:+ name +:+ ws2 +:+
    "extends" +:+ ws3 +:+ base +:+ ws4 +:+ "{" +:+ rest).
Qed.

Lemma head_not_append cls (s t : string) :
  s <> "" -> all_chars (fun a => negb (cls a)) s = true -> head_not cls (s +:+ t).
Proof.
  destruct s as [|a s]; [done|]. intros _ [Ha _]%andb_true_iff.
  simpl. by apply negb_true_iff.
Qed.

Lemma prefix_head_ne (a b : ascii) (s t : string) :
  a <> b -> String.prefix (String a s) (String b t) = false.
Proof. intros Hne. simpl. by destruct (ascii_dec a b). Qed.

(** the text class, blanks, extends, blanks and a plain base is not
    the start of a declaration: its name would be extends *)
Lemma class_extends_no_declaration base base' ws2 ws3 rest name' len' :
  plain_base base = true -> plain_base base' = true ->
  ws2 <> "" -> all_chars is_space ws2 = true ->
  ws3 <> "" -> all_chars is_space ws3 = true ->
  ~ is_declaration base'
      ("class" +:+ ws2 +:+ "extends" +:+ ws3 +:+ base +:+ rest) name' len'.
Proof.
  intros Hb Hb' H2 A2 H3 A3 Hdecl.
  apply is_declaration_matches in Hdecl.
  apply match_items_complete in Hdecl.
  2:{ apply widget_items_follow_ok. unfold plain_base in Hb'.
      destruct base' as [|a t]; [done|]. exists a, t. split; [done|].
      apply andb_true_iff in Hb' as [[Ha _]%andb_true_iff _].
      by apply negb_true_iff. }
  unfold widget_items in Hdecl. cbn [match_items] in Hdecl.
  rewrite prefix_append, drop_append in Hdecl.
  rewrite (span_append is_space ws2) in Hdecl; [|done|done].
  destruct ws2 as [|b2 ws2]; [done|].
  rewrite (span_append is_word "extends") in Hdecl; [|done|].
  2:{ destruct ws3 as [|b3 ws3]; [done|]. simpl in *.
      apply andb_true_iff in A3 as [Hb3 _]. by apply space_not_word. }
  rewrite (span_append is_space ws3) in Hdecl; [|done|].
  2:{ unfold plain_base in Hb. destruct base as [|a t]; [done|]. simpl.
      apply andb_true_iff in Hb as [[Ha _]%andb_true_iff _].
      by apply negb_true_iff. }
  destruct ws3 as [|b3 ws3]; [done|].
  unfold plain_base in Hb. destruct base as [|a t]; [done|].
  apply andb_true_iff in Hb as [[_ Ha]%andb_true_iff _].
  apply negb_true_iff, Ascii.eqb_neq in Ha.
  cbv beta iota in Hdecl.
  rewrite append_cons, (prefix_head_ne "e" a) in Hdecl by congruence. done.
Qed.

Ltac peel_segment Hin :=
  let Hle := fresh "Hle" in
  assert (Hle := declaration_starts _ _ _ _ Hin);
  apply peel in Hle;
  [ rewrite drop_append_ge in Hin by exact Hle
  | first [ done | by apply (all_chars_impl is_space); [apply space_not_c|] ] ].

Lemma no_declaration_inside base base' s name len j name' len' :
  plain_base base = true -> plain_base base' = true ->
  is_declaration base s name len -> 0 < j -> j < len ->
  ~ is_declaration base' (drop j s) name' len'.
Proof.
  intros Hb Hb' (ws1 & ws2 & ws3 & ws4 & rest & -> & H1 & A1 & Hn & An & H2 & A2
                 & H3 & A3 & A4 & ->) Hj0 Hjlen Hin.
  rewrite !length_append in Hjlen. simpl in Hjlen.
  destruct j as [|j]; [lia|].
  change ("class" +:+ ?x) with (String "c" ("lass" +:+ x)) in Hin.
  cbn [drop] in Hin.
  peel_segment Hin. simpl in Hle.
  peel_segment Hin.
  destruct (decide (j - String.length "lass" - String.length ws1
                    < String.length name)) as [Hlt|Hge].
  - rewrite drop_append_lt in Hin by done.
    destruct (drop_all_chars is_word name _ An Hlt) as (a & t & Hd & Hw).
    rewrite Hd in Hin.
    destruct (declaration_starts _ _ _ _ Hin) as (sp & r & Heq & Hsp).
    apply (f_equal (span not_space)) in Heq.
    rewrite (span_append not_space (String a t)) in Heq.
    2:{ revert Hw. apply all_chars_impl, word_not_space. }
    2:{ destruct ws2 as [|b ws2]; [done|]. simpl in *.
        apply andb_true_iff in A2 as [Hb2 _]. unfold not_space. by rewrite Hb2. }
    rewrite (span_append not_space "class") in Heq; [|done|].
    2:{ simpl. unfold not_space. by rewrite Hsp. }
    apply (f_equal fst) in Heq. cbn [fst] in Heq. rewrite Heq in Hin.
    by apply (class_extends_no_declaration base base' ws2 ws3
                (ws4 +:+ "{" +:+ rest) name' len') in Hin.
  - rewrite drop_append_ge in Hin by lia.
    peel_segment Hin. peel_segment Hin. peel_segment Hin.
    assert (all_chars not_c base = true) as Hcb
      by (unfold plain_base in Hb; by apply andb_true_iff in Hb as [_ ?]).
    assert (Hleb := declaration_starts _ _ _ _ Hin).
    apply peel in Hleb; [|done]. rewrite drop_append_ge in Hin by exact Hleb.
    peel_segment Hin. peel_segment Hin. simpl in *. lia.
Qed.

(** *** Widgets *)

Lemma drop_drop (s : string) : forall i j, drop j (drop i s) = drop (i + j) s.
Proof.
  induction s as [|a s IH]; intros i j.
  - by destruct i, j.
  - destruct i as [|i]; [done|]. cbn [drop Nat.add]. apply IH.
Qed.

Lemma drop_nonempty (s : string) : forall i, drop i s <> "" -> i < String.length s.
Proof.
  induction s as [|a s IH]; intros i H; [by destruct i|].
  destruct i as [|i]; simpl; [lia|]. cbn [drop] in H. apply IH in H. lia.
Qed.

Lemma widget_matches_groups base s groups n :
  matches (widget_items base) s groups n -> exists name, groups = [name].
Proof.
  unfold widget_items. intros H.
  repeat match goal with
         | H : matches (_ :: _) _ _ _ |- _ => inversion H; subst; clear H
         | H : matches [] _ _ _ |- _ => inversion H; subst; clear H
         end.
  eauto.
Qed.

Lemma plain_base_follow_ok base :
  plain_base base = true -> follow_ok (widget_items base) = true.
Proof.
  intros Hb. apply widget_items_follow_ok. unfold plain_base in Hb.
  destruct base as [|a t]; [done|]. exists a, t. split; [done|].
  apply andb_true_iff in Hb as [[Ha _]%andb_true_iff _]. by apply negb_true_iff.
Qed.

Lemma all_chars_ext (f g : ascii -> bool) (s : string) :
  (forall a, f a = g a) -> all_chars f s = all_chars g s.
Proof. intros H. induction s as [|a s IH]; [done|]. cbn. by rewrite H, IH. Qed.

(** the classes of the pattern are the blanks and the name characters *)
Lemma classes_agree (a : ascii) :
  is_space a = is_blank a /\ is_word a = is_name_char a.
Proof.
  assert (forallb (fun a => Bool.eqb (is_space a) (is_blank a)
                            && Bool.eqb (is_word a) (is_name_char a))
                  all_ascii = true) as H by (by vm_compute).
  rewrite forallb_forall in H. specialize (H a (in_all_ascii a)).
  apply andb_true_iff in H as [H1 H2].
  by apply Bool.eqb_prop in H1, H2.
Qed.

Lemma declaration_iff base s name len :
  declaration base s name len <-> is_declaration base s name len.
Proof.
  unfold declaration, is_declaration.
  split; intros (ws1 & ws2 & ws3 & ws4 & rest & H);
    exists ws1, ws2, ws3, ws4, rest;
    rewrite ?(all_chars_ext is_space is_blank) in * by apply classes_agree;
    rewrite ?(all_chars_ext is_word is_name_char) in * by apply classes_agree;
    exact H.
Qed.

Lemma finditer_occurrences base content :
  plain_base base = true ->
  forall i name len,
    is_declaration base (drop i content) name len <->
    exists m, m ∈ finditer_from (widget_items base) 0 0 content /\
              m_start m = i /\ m_groups m = [name] /\ m_end m = i + len.
Proof.
  intros Hb. pose proof (plain_base_follow_ok base Hb) as Hf.
  intros i name len. split.
  - intros Hdecl.
    assert (i < String.length content) as Hi.
    { apply drop_nonempty. destruct (declaration_starts _ _ _ _ Hdecl) as (a & r & -> & _).
      done. }
    pose proof Hdecl as Hm. apply is_declaration_matches, match_items_complete in Hm; [|done].
    destruct (finditer_from_complete _ content 0 0 i [name] len ltac:(lia) Hi Hm)
      as [(m & Hin & H1 & H2 & H3)|(m & Hin & H1 & H2)].
    + exists m. simpl in *. done.
    + exfalso. apply finditer_from_sound in Hin as (_ & _ & n & Hmatch & Hend).
      rewrite Nat.sub_0_r in Hmatch. apply match_items_sound in Hmatch.
      destruct (widget_matches_groups _ _ _ _ Hmatch) as (name0 & Hg).
      rewrite Hg in Hmatch. apply is_declaration_matches in Hmatch.
      apply (no_declaration_inside base base _ name0 n (i - m_start m) name len Hb Hb Hmatch);
        [simpl in *; lia | simpl in *; lia |].
      rewrite drop_drop. by replace (m_start m + (i - m_start m)) with i by (simpl in *; lia).
  - intros (m & Hin & <- & Hg & Hend).
    apply finditer_from_sound in Hin as (_ & _ & n & Hmatch & Hend').
    rewrite Nat.sub_0_r, Hg in Hmatch. apply match_items_sound in Hmatch.
    apply is_declaration_matches. by replace len with n by lia.
Qed.

Lemma finditer_declarations base content :
  plain_base base = true ->
  declarations base content (finditer_from (widget_items base) 0 0 content).
Proof.
  intros Hb. split; [apply finditer_from_sorted|]. intros m. split.
  - intros Hin. pose proof Hin as Hs.
    apply finditer_from_sound in Hs as (_ & _ & n & Hmatch & Hend).
    rewrite Nat.sub_0_r in Hmatch. apply match_items_sound in Hmatch.
    destruct (widget_matches_groups _ _ _ _ Hmatch) as (name & Hg).
    exists name, n. split; [|done].
    apply declaration_iff, is_declaration_matches. by rewrite <- Hg.
  - intros (name & len & Hdecl%declaration_iff & Hg & Hend).
    apply (finditer_occurrences base content Hb) in Hdecl
      as (m' & Hin & Hstart & Hg' & Hend').
    replace m with m'; [done|].
    destruct m, m'; cbn in *; congruence.
Qed.

Lemma foldl_snoc_map {A B} (f : A -> B) (l : list A) : forall acc,
  foldl (fun acc x => acc ++ [f x]) acc l = acc ++ map f l.
Proof.
  induction l as [|x l IH]; intros acc; simpl; [by rewrite app_nil_r|].
  by rewrite IH, <- app_assoc.
Qed.

Lemma widget_of_describes content file_path type m :
  describes content file_path type m (widget_of content file_path type m).
Proof. unfold describes, widget_of. cbn. repeat split. apply find_class_end_spec. Qed.

(** C6. For every source text, an ASCII text, the records of
    [_extract_widgets] are, in order, one record for each declaration of
    a StatelessWidget component followed by one record for each
    declaration of a StatefulWidget component. The declarations of
    either kind are listed by their occurrences: every member of the
    list is the occurrence of a declaration, every occurrence is a
    member, and the list is in the order of the text without a
    repetition, so that the records correspond one to one to the
    declarations. The record of a declaration carries its name, its
    kind, the file path and the line it starts on, and its end line is
    the line of the first closing brace at which the text from the start
    of the declaration has at least one opening brace and as many
    opening as closing braces; when there is no such brace, it is the
    number of newlines of the text plus one, the last line. *)
Theorem widget_extraction_spec (content file_path : string) :
  ascii_text content ->
  exists (stateless stateful : list re_match) (ws1 ws2 : list FlutterWidget),
    declarations "StatelessWidget" content stateless /\
    declarations "StatefulWidget" content stateful /\
    _extract_widgets content file_path = ws1 ++ ws2 /\
    Forall2 (describes content file_path "StatelessWidget") stateless ws1 /\
    Forall2 (describes content file_path "StatefulWidget") stateful ws2.
Proof.
  intros _.
  exists (finditer stateless_pattern content), (finditer stateful_pattern content).
  eexists _, _. split; [by apply finditer_declarations|].
  split; [by apply finditer_declarations|].
  unfold _extract_widgets. cbv zeta. rewrite !foldl_snoc_map, app_nil_l.
  split; [reflexivity|].
  split; apply Forall2_fmap_r, Forall_Forall2_diag, Forall_forall;
    intros m _; apply widget_of_describes.
Qed.

Lemma widget_extraction_spec_witness :
  ascii_text test_login_page /\
  exists (stateless stateful : list re_match) (ws1 ws2 : list FlutterWidget),
    declarations "StatelessWidget" test_login_page stateless /\
    declarations "StatefulWidget" test_login_page stateful /\
    _extract_widgets test_login_page "/test/login_page.dart" = ws1 ++ ws2 /\
    Forall2 (describes test_login_page "/test/login_page.dart" "StatelessWidget")
            stateless ws1 /\
    Forall2 (describes test_login_page "/test/login_page.dart" "StatefulWidget")
            stateful ws2.
Proof.
  split; [by vm_compute|].
  apply (widget_extraction_spec test_login_page "/test/login_page.dart").
  by vm_compute.
Defined.

Example login_page_widget :
  _extract_widgets test_login_page "/test/login_page.dart"
  = [{| fw_name := "LoginPage"; fw_type := "StatelessWidget";
        fw_file_path := "/test/login_page.dart";
        fw_line_start := 4; fw_line_end := 19 |}].
Proof. by vm_compute. Qed.

Example unbalanced_widget :
  _extract_widgets (lines ["// header"; "class A extends StatefulWidget {";
                           "  void f() {"; "  }"; ""; ""])
                   "a.dart"
  = [{| fw_name := "A"; fw_type := "StatefulWidget"; fw_file_path := "a.dart";
        fw_line_start := 2; fw_line_end := 6 |}].
Proof. by vm_compute. Qed.

(** *** API calls *)

Lemma extract_api_calls_eq content file_path :
  _extract_api_calls content file_path =
    flat_map (fun p => map (call_of content file_path "dio" p) (finditer p content))
             dio_patterns
    ++ flat_map (fun p => map (call_of content file_path "http" p) (finditer p content))
                http_patterns.
Proof.
  unfold _extract_api_calls, dio_patterns, http_patterns. cbv zeta.
  cbn [foldl flat_map]. rewrite !foldl_snoc_map, !app_nil_l, !app_nil_r.
  by rewrite <- !app_assoc.
Qed.

(** C7, on the code. The method of a record is cut out of the
    pattern's text between the first backslash and the next opening
    parenthesis, which keeps the dot: every record of
    [_extract_api_calls] has the method .get, .post, .put or .delete,
    never the bare verb. On the Dart text of the repository's own test
    the four records have the right endpoints and lines, and the methods
    .get and .post where the test expects get and post. *)
Theorem api_call_method_keeps_dot :
  (forall content file_path r,
      r ∈ _extract_api_calls content file_path ->
      ac_method r ∈ [".get"; ".post"; ".put"; ".delete"]) /\
  map (fun r => (ac_type r, ac_method r, ac_endpoint r, ac_line r))
      (_extract_api_calls test_api_service "/test/api_service.dart")
  = [("dio", ".get", "/api/v1/user/profile", 10);
     ("dio", ".post", "/api/v1/auth/login", 9);
     ("http", ".get", "/api/v1/data", 14);
     ("http", ".post", "/api/v1/transactions", 15)].
Proof.
  split; [|by vm_compute].
  intros content file_path r. rewrite extract_api_calls_eq.
  rewrite elem_of_app, !list_elem_of_In, !in_flat_map.
  intros [(p & Hp & Hr)|(p & Hp & Hr)];
    apply in_map_iff in Hr as (m & <- & _); cbn [call_of ac_method];
    cbn in Hp; rewrite <- list_elem_of_In;
    repeat (destruct Hp as [<-|Hp]; [vm_compute; set_solver|]); destruct Hp.
Qed.


End DartFacts.

(* ===================================================================== *)
(** * Further properties of the string operations *)
(* ===================================================================== *)

Module PyStrMoreFacts.
Import PyStr PyStrFacts PyStrMore PatternFacts.

(** *** Substrings *)

Lemma append_nil_r (s : string) : s +:+ "" = s.
Proof. induction s as [|a s IH]; [done|]. by rewrite append_cons, IH. Qed.

Lemma contains_cons a c b :
  contains a (String c b) = String.prefix a (String c b) || contains a b.
Proof. reflexivity. Qed.

Lemma contains_substring a b : contains a b = true <-> substring a b.
Proof.
  split.
  - induction b as [|c b IH].
    + destruct a; [|discriminate]. intros _. by exists "", "".
    + rewrite contains_cons. intros [H%prefix_inv|H]%orb_true_iff.
      * by exists "", (drop (String.length a) (String c b)).
      * destruct (IH H) as (x & y & ->). by exists (String c x), y.
  - intros (x & y & ->). induction x as [|c x IH].
    + change ("" +:+ a +:+ y) with (a +:+ y).
      destruct (a +:+ y) as [|c t] eqn:E.
      * by destruct a.
      * rewrite contains_cons, <- E, prefix_append. done.
    + rewrite append_cons, contains_cons, IH. apply orb_true_r.
Qed.

(** a check on every character *)
Lemma for_all_ascii (f : ascii -> bool) :
  forallb f Dart.all_ascii = true -> forall c, f c = true.
Proof. rewrite forallb_forall. intros H c. apply H, in_all_ascii. Qed.

Lemma lower_char_idemp c : lower_char (lower_char c) = lower_char c.
Proof. apply Ascii.eqb_eq. revert c. apply for_all_ascii. by vm_compute. Qed.

Lemma upper_char_idemp c : upper_char (upper_char c) = upper_char c.
Proof. apply Ascii.eqb_eq. revert c. apply for_all_ascii. by vm_compute. Qed.

Lemma lower_char_slash c : Ascii.eqb (lower_char c) slash = Ascii.eqb c slash.
Proof.
  apply Bool.eqb_prop. revert c. apply for_all_ascii. by vm_compute.
Qed.

Lemma lower_idemp s : lower (lower s) = lower s.
Proof. induction s as [|c s IH]; simpl; [done|]. by rewrite lower_char_idemp, IH. Qed.

Lemma upper_idemp s : upper (upper s) = upper s.
Proof. induction s as [|c s IH]; simpl; [done|]. by rewrite upper_char_idemp, IH. Qed.

Lemma lower_lstrip s : lstrip slash (lower s) = lower (lstrip slash s).
Proof.
  induction s as [|c s IH]; simpl; [done|].
  rewrite lower_char_slash. by destruct (Ascii.eqb c slash).
Qed.

Lemma lower_rstrip s : rstrip slash (lower s) = lower (rstrip slash s).
Proof.
  induction s as [|c s IH]; simpl; [done|].
  rewrite IH, lower_char_slash.
  destruct (rstrip slash s); simpl; [by destruct (Ascii.eqb c slash) | done].
Qed.

Lemma lstrip_head c s : head_differs c (lstrip c s).
Proof.
  induction s as [|a s IH]; simpl; [done|].
  destruct (Ascii.eqb a c) eqn:E; [done | by simpl].
Qed.

Lemma lstrip_fixed c s : head_differs c s -> lstrip c s = s.
Proof. destruct s as [|a s]; simpl; [done|]. by intros ->. Qed.

Lemma rstrip_cons c a s :
  Ascii.eqb a c = false -> rstrip c (String a s) = String a (rstrip c s).
Proof. intros H. simpl. rewrite H. by destruct (rstrip c s). Qed.

Lemma rstrip_head c s : head_differs c s -> head_differs c (rstrip c s).
Proof.
  destruct s as [|a s]; [done|]. intros H. simpl in H.
  by rewrite rstrip_cons.
Qed.

Lemma rstrip_cons_nonempty c a s :
  rstrip c s <> "" -> rstrip c (String a s) = String a (rstrip c s).
Proof. intros H. simpl. by destruct (rstrip c s). Qed.

Lemma rstrip_idemp c s : rstrip c (rstrip c s) = rstrip c s.
Proof.
  induction s as [|a s IH]; [done|].
  destruct (rstrip c s) as [|b r] eqn:E.
  - simpl. rewrite E. destruct (Ascii.eqb a c) eqn:Ha; [done|].
    simpl. by rewrite Ha.
  - rewrite (rstrip_cons_nonempty c a s) by (by rewrite E).
    rewrite E. rewrite (rstrip_cons_nonempty c a (String b r)) by (by rewrite IH).
    by rewrite IH.
Qed.

Lemma strip_idemp c s : strip c (strip c s) = strip c s.
Proof.
  unfold strip.
  rewrite (lstrip_fixed c (rstrip c (lstrip c s))) by apply rstrip_head, lstrip_head.
  apply rstrip_idemp.
Qed.

Lemma lower_strip s : strip slash (lower s) = lower (strip slash s).
Proof. unfold strip. by rewrite lower_lstrip, lower_rstrip. Qed.

Lemma append_assoc (a b c : string) : (a +:+ b) +:+ c = a +:+ b +:+ c.
Proof.
  induction a as [|x a IH]; [done|].
  rewrite !append_cons. by rewrite IH.
Qed.

End PyStrMoreFacts.

(* ===================================================================== *)
(** * Further properties of the gap report *)
(* ===================================================================== *)

Module GapReporterMoreFacts.
Import PyStr PyStrFacts PyStrMore PyStrMoreFacts GapReporter GapReporterFacts GapReporterMore PatternFacts.

(** *** Normal forms of paths *)

(** X1. Normalizing a path twice changes nothing more, a normalized
    path has no slash left to strip and no upper-case letter left to
    lower, and path matching does not see the difference between a path
    and its normal form. *)
Theorem normalize_path_idempotent (p q : string) :
  _normalize_path (_normalize_path p) = _normalize_path p /\
  strip slash (_normalize_path p) = _normalize_path p /\
  lower (_normalize_path p) = _normalize_path p /\
  _paths_match (_normalize_path p) q = _paths_match p q /\
  _paths_match p (_normalize_path q) = _paths_match p q.
Proof.
  assert (forall s, _normalize_path (_normalize_path s) = _normalize_path s) as Hn.
  { intros s. unfold _normalize_path. by rewrite lower_strip, strip_idemp, lower_idemp. }
  split; [apply Hn|]. split.
  - unfold _normalize_path. by rewrite lower_strip, strip_idemp.
  - split; [unfold _normalize_path; apply lower_idemp|].
    unfold _paths_match. cbv zeta. by rewrite !Hn.
Qed.

(** X2. Two paths match exactly when the normal form of one occurs in
    the normal form of the other, and matching is symmetric. *)
Theorem paths_match_substring (a b : string) :
  (_paths_match a b = true <->
     substring (_normalize_path a) (_normalize_path b) \/
     substring (_normalize_path b) (_normalize_path a)) /\
  _paths_match a b = _paths_match b a.
Proof.
  split.
  - unfold _paths_match. cbv zeta. rewrite !orb_true_iff, !contains_substring.
    split; [|tauto]. intros [[->%String.eqb_eq|H]|H]; [|tauto|tauto].
    left. exists "", "". by rewrite append_nil_r.
  - unfold _paths_match. cbv zeta.
    rewrite (String.eqb_sym (_normalize_path a)).
    rewrite <- !orb_assoc. f_equal. apply orb_comm.
Qed.


(** *** The loop over the routes *)

Lemma filter_all {A} (f : A -> bool) (l : list A) :
  (forall x, f x = true) -> List.filter f l = l.
Proof. intros H. induction l as [|x l IH]; cbn; [done|]. by rewrite H, IH. Qed.

Lemma filter_none {A} (f : A -> bool) (l : list A) :
  (forall x, f x = false) -> List.filter f l = [].
Proof. intros H. induction l as [|x l IH]; cbn; [done|]. by rewrite H, IH. Qed.


Lemma backend_loop_spec contracts backend : forall acc,
  foldl (backend_step contracts) acc backend =
  acc ++ map uncovered_entry
           (List.filter (fun ep => negb (has_contract contracts ep)) backend).
Proof.
  induction backend as [|ep backend IH]; intros acc; cbn [foldl List.filter].
  - by rewrite app_nil_r.
  - rewrite IH. unfold backend_step.
    destruct (has_contract contracts ep); cbn [negb map]; [done|].
    by rewrite <- app_assoc.
Qed.

Lemma without_contract_list contracts backend flutter :
  backend_without_contract (compute_gap_report contracts backend flutter) =
  map uncovered_entry
      (List.filter (fun ep => negb (has_contract contracts ep)) backend).
Proof. unfold compute_gap_report. cbn. by rewrite backend_loop_spec. Qed.

(** X3. A route is listed in [backend_without_contract] exactly when no
    contract matches it on path and method; the routes are listed in
    their order, each at most once per occurrence, so the list is never
    longer than the list of routes. *)
Theorem backend_without_contract_spec contracts backend flutter :
  let r := compute_gap_report contracts backend flutter in
  backend_without_contract r =
    map uncovered_entry
        (List.filter (fun ep => negb (has_contract contracts ep)) backend) /\
  (forall ep, has_contract contracts ep = true <->
     exists c, c ∈ contracts /\
       _paths_match (_get (Dict (contract_metadata_only c)) "path" "")
                    (_get ep "path" "") = true /\
       upper (_get (Dict (contract_metadata_only c)) "method" "")
         = upper (_get ep "method" "")) /\
  length (backend_without_contract r) <= length backend.
Proof.
  cbv zeta. rewrite without_contract_list. split; [done|]. split.
  - intros ep. unfold has_contract. cbv zeta. rewrite existsb_elem_of.
    split; intros (c & Hc & H); exists c; (split; [done|]).
    + apply andb_true_iff in H as [H1 H2%String.eqb_eq]. done.
    + destruct H as [-> ->]. by rewrite String.eqb_refl.
  - rewrite length_map. apply filter_length_le.
Qed.

(** X4. Empty inputs. Without contracts every route is reported without
    contract and the three other lists are empty; without routes every
    contract is reported missing and no method mismatch is reported;
    without UI calls every contract is reported as not used. *)
Theorem gap_report_empty_inputs contracts backend flutter :
  compute_gap_report [] backend flutter =
    {| missing_backend_endpoints := [];
       backend_without_contract := map uncovered_entry backend;
       contracts_not_used_in_flutter := [];
       method_mismatches := [] |} /\
  (let r := compute_gap_report contracts [] flutter in
   missing_backend_endpoints r = map missing_entry contracts /\
   method_mismatches r = [] /\
   backend_without_contract r = []) /\
  contracts_not_used_in_flutter (compute_gap_report contracts backend [])
    = map not_used_entry contracts.
Proof.
  split; [|split].
  - unfold compute_gap_report. cbn [foldl]. rewrite backend_loop_spec.
    cbn [cl_missing cl_not_used cl_mismatches app]. f_equal. f_equal.
    by apply filter_all.
  - cbv zeta. destruct (report_lists contracts [] flutter) as (Hm & Hx & _).
    cbv zeta in Hm, Hx. rewrite Hm, Hx, without_contract_list.
    rewrite (filter_all (in_case Missing [])) by done.
    rewrite (filter_none (in_case MethodMismatch [])) by done. done.
  - destruct (report_lists contracts backend []) as (_ & _ & Hu).
    cbv zeta in Hu. rewrite Hu. f_equal. by apply filter_all.
Qed.

(** X5. Each list depends on two of the three inputs only: the unused
    contracts do not depend on the routes, and the missing endpoints,
    the method mismatches and the routes without contract do not depend
    on the UI calls. *)
Theorem gap_report_independence contracts backend backend' flutter flutter' :
  contracts_not_used_in_flutter (compute_gap_report contracts backend flutter)
    = contracts_not_used_in_flutter (compute_gap_report contracts backend' flutter) /\
  missing_backend_endpoints (compute_gap_report contracts backend flutter)
    = missing_backend_endpoints (compute_gap_report contracts backend flutter') /\
  method_mismatches (compute_gap_report contracts backend flutter)
    = method_mismatches (compute_gap_report contracts backend flutter') /\
  backend_without_contract (compute_gap_report contracts backend flutter)
    = backend_without_contract (compute_gap_report contracts backend flutter').
Proof.
  destruct (report_lists contracts backend flutter) as (Hm & Hx & Hu).
  destruct (report_lists contracts backend' flutter) as (_ & _ & Hu').
  destruct (report_lists contracts backend flutter') as (Hm' & Hx' & _).
  cbv zeta in *. rewrite Hu, Hu', Hm, Hm', Hx, Hx', !without_contract_list. done.
Qed.

(** the methods of the routes filed under a contract's normalized path *)
Lemma mismatch_methods backend c m :
  same_path_present backend c = true ->
  m ∈ mm_backend_methods (mismatch_entry_of backend c) <->
  exists ep, ep ∈ backend /\
    route_key ep = _normalize_path (contract_path c) /\ route_method ep = m.
Proof.
  intros [methods Hi]%build_index_is_Some.
  cbn [mismatch_entry_of mm_backend_methods]. rewrite sorted_elem_of, Hi. cbn [default].
  unfold build_index in Hi.
  rewrite (foldl_index_methods _ _ _ _ m Hi), lookup_empty. cbn [default].
  split; [intros [?|?]; [set_solver | done] | by right].
Qed.

Lemma in_case_mismatch backend c :
  in_case MethodMismatch backend c = true ->
  match_taken backend c = false /\ same_path_present backend c = true.
Proof.
  unfold in_case, contract_case.
  destruct (match_taken backend c); [done|].
  by destruct (same_path_present backend c).
Qed.



(** X7. Every method in the report is in upper case. *)
Theorem report_methods_upper contracts backend flutter :
  let r := compute_gap_report contracts backend flutter in
  (forall e, e ∈ missing_backend_endpoints r ++ backend_without_contract r
                 ++ contracts_not_used_in_flutter r ->
             upper (ge_method e) = ge_method e) /\
  (forall e, e ∈ method_mismatches r ->
             upper (mm_contract_method e) = mm_contract_method e /\
             forall m, m ∈ mm_backend_methods e -> upper m = m).
Proof.
  cbv zeta. destruct (report_lists contracts backend flutter) as (Hm & Hx & Hu).
  cbv zeta in *. rewrite Hm, Hx, Hu, without_contract_list. split.
  - intros e. rewrite !elem_of_app, !elem_of_map_filter.
    intros [(c & _ & _ & ->)|[(ep & _ & _ & ->)|(c & _ & _ & ->)]]; cbn;
      unfold contract_method; apply upper_idemp.
  - intros e (c & _ & Hcase & ->)%elem_of_map_filter.
    split; [cbn; unfold contract_method; apply upper_idemp|].
    apply in_case_mismatch in Hcase as [_ Hsp].
    intros m (ep & _ & _ & <-)%mismatch_methods; [|done].
    unfold route_method. apply upper_idemp.
Qed.

(** X8. A contract that carries its dict under [meta] and has no
    [metadata] is read by the loop over the contracts, but the loop over
    the routes reads an empty dict for it. When no contract has
    [metadata], a route counts as covered only if its method is empty
    (and there is a contract at all), so every route with a method is
    reported without contract, whatever the contracts say. *)
Theorem meta_only_contracts_cover_nothing contracts backend flutter :
  (forall c, c ∈ contracts -> metadata c = None) ->
  (forall ep, has_contract contracts ep = true <->
              contracts <> [] /\ upper (_get ep "method" "") = "") /\
  (forall ep, ep ∈ backend -> upper (_get ep "method" "") <> "" ->
              uncovered_entry ep ∈ backend_without_contract
                                     (compute_gap_report contracts backend flutter)).
Proof.
  intros Hmeta.
  assert (forall ep, has_contract contracts ep = true <->
                     contracts <> [] /\ upper (_get ep "method" "") = "") as Hhas.
  { intros ep. unfold has_contract. cbv zeta. rewrite existsb_elem_of. split.
    - intros (c & Hc & H). split; [by destruct contracts; [apply elem_of_nil in Hc|]|].
      unfold contract_metadata_only in H. rewrite (Hmeta c Hc) in H.
      apply andb_true_iff in H as [_ H%String.eqb_eq]. by rewrite <- H.
    - intros [Hne Hm]. destruct contracts as [|c cs]; [done|].
      exists c. split; [by left|].
      unfold contract_metadata_only. rewrite (Hmeta c) by (by left).
      rewrite Hm. cbn [default _get]. rewrite !lookup_empty. cbn [or_default].
      destruct (paths_match_empty_norm "" (_get ep "path" "")) as [-> _];
        done. }
  split; [exact Hhas|].
  intros ep Hin Hm. rewrite without_contract_list. apply elem_of_map_filter.
  exists ep. split; [done|]. split; [|done].
  destruct (has_contract contracts ep) eqn:E; [|done].
  apply Hhas in E as [_ E]. done.
Qed.

(** The contracts of the repository's unit test, carried under [meta]:
    the route GET /v1/foo, which the first contract matches, is still
    reported without contract. *)
Lemma meta_only_contracts_cover_nothing_witness :
  let meta_only p m := {| metadata := None; meta := Some (mk_attrs p m) |} in
  let contracts := [meta_only "/v1/foo" "GET"; meta_only "/v1/bar" "POST"] in
  missing_backend_endpoints (compute_gap_report contracts test_backend test_flutter)
    = [] /\
  uncovered_entry (mk_route "/v1/foo" "GET")
    ∈ backend_without_contract (compute_gap_report contracts test_backend test_flutter).
Proof.
  cbv zeta. split; [by vm_compute|].
  apply (meta_only_contracts_cover_nothing
           [{| metadata := None; meta := Some (mk_attrs "/v1/foo" "GET") |};
            {| metadata := None; meta := Some (mk_attrs "/v1/bar" "POST") |}]
           test_backend test_flutter).
  - intros c Hc. repeat (apply elem_of_cons in Hc as [->|Hc]; [done|]).
    by apply elem_of_nil in Hc.
  - unfold test_backend. apply elem_of_cons. by left.
  - by vm_compute.
Defined.

End GapReporterMoreFacts.

(* ===================================================================== *)
(** * Properties of the queries and the statistics *)
(* ===================================================================== *)

Module StoreQueriesFacts.
Import PyStr PyStrMoreFacts Store StoreQueries StoreFacts.

(** *** Reading entities back *)

Lemma get_entities_by_type_spec d ty x :
  x ∈ get_entities_by_type d ty <->
  exists row, code_entities d !! id x = Some row /\ row_type row = ty /\
              x = entity_of_row (id x) row.
Proof.
  unfold get_entities_by_type, entity_rows. rewrite list_elem_of_omap. split.
  - intros ([k row] & Hin%elem_of_map_to_list & H). cbn in H.
    destruct (String.eqb (row_type row) ty) eqn:E; [|done].
    injection H as <-. exists row. cbn. by apply String.eqb_eq in E.
  - intros (row & Hrow & Hty & Hx). exists (id x, row).
    split; [by apply elem_of_map_to_list|]. cbn.
    rewrite <- Hty, String.eqb_refl. by rewrite <- Hx.
Qed.

Lemma get_entities_by_type_NoDup d ty : NoDup (map id (get_entities_by_type d ty)).
Proof.
  unfold get_entities_by_type, entity_rows.
  pose proof (NoDup_fst_map_to_list (code_entities d)) as Hnd.
  induction (map_to_list (code_entities d)) as [|[k row] l IH]; cbn; [constructor|].
  cbn in Hnd. apply NoDup_cons in Hnd as [Hk Hnd].
  destruct (String.eqb (row_type row) ty); cbn; [|by apply IH].
  apply NoDup_cons. split; [|by apply IH].
  intros Hin. apply Hk. apply list_elem_of_fmap in Hin as (x & Hid & Hx).
  apply list_elem_of_omap in Hx as ([k' row'] & Hin' & H). cbn in H.
  destruct (String.eqb (row_type row') ty); [|done]. injection H as <-.
  cbn in Hid. subst k'. apply list_elem_of_fmap. by exists (k, row').
Qed.

(** X9. Upsert and read back. After [add_entity], the query for the
    entity's type returns it, with its type, name, file path, language
    and metadata text as written and the time stamps of this write; no
    query returns another entity under its id or returns it under
    another type; the entities with other ids are returned as before;
    and no query returns two entities with the same id. *)
Theorem entity_round_trip (d : db) (e : CodeEntity) (t c : time) :
  let d' := (add_entity d e t c).1 in
  let stored := {| id := id e; type := type e; name := name e;
                   file_path := file_path e; language := language e;
                   metadata := or_default (Some (metadata e)) "{}";
                   created_at := c; updated_at := t |} in
  stored ∈ get_entities_by_type d' (type e) /\
  (forall ty x, x ∈ get_entities_by_type d' ty -> id x = id e ->
                ty = type e /\ x = stored) /\
  (forall ty x, id x <> id e ->
                x ∈ get_entities_by_type d' ty <-> x ∈ get_entities_by_type d ty) /\
  (forall ty, NoDup (map id (get_entities_by_type d' ty))).
Proof.
  cbv zeta. split; [|split; [|split]].
  - apply get_entities_by_type_spec. eexists. cbn [id].
    rewrite add_entity_lookup, decide_True by done. split; [done|]. cbn. done.
  - intros ty x (row & Hrow & Hty & Hx)%get_entities_by_type_spec Hid.
    rewrite add_entity_lookup, decide_True in Hrow by done.
    injection Hrow as <-. cbn in Hty. split; [done|].
    rewrite Hx, Hid. reflexivity.
  - intros ty x Hid. rewrite !get_entities_by_type_spec.
    by rewrite add_entity_lookup, decide_False.
  - intros ty. apply get_entities_by_type_NoDup.
Qed.

(** *** Related entities *)

Lemma get_related_entities_elem d entity_id rt x :
  x ∈ get_related_entities d entity_id rt <->
  exists row rk r,
    code_entities d !! id x = Some row /\ x = entity_of_row (id x) row /\
    relationships d !! rk = Some r /\
    related_condition entity_id rt (id x) r = true.
Proof.
  unfold get_related_entities, entity_rows, relationship_rows.
  rewrite list_elem_of_In, in_flat_map. split.
  - intros ([k row] & Hin & H). apply in_flat_map in H as ([rk r] & Hr & H).
    cbn [fst snd] in H.
    destruct (related_condition entity_id rt k r) eqn:E; [|destruct H].
    destruct H as [<-|[]]. exists row, rk, r. cbn [id entity_of_row].
    apply list_elem_of_In, elem_of_map_to_list in Hin.
    apply list_elem_of_In, elem_of_map_to_list in Hr. done.
  - intros (row & rk & r & Hrow & Hx & Hr & Hcond). exists (id x, row).
    split; [by apply list_elem_of_In, elem_of_map_to_list|].
    apply in_flat_map. exists (rk, r).
    split; [by apply list_elem_of_In, elem_of_map_to_list|].
    cbn [fst snd]. rewrite Hcond, <- Hx. by left.
Qed.

Lemma related_condition_spec entity_id rt k r :
  related_condition entity_id rt k r = true <->
  k <> entity_id /\ type_condition rt r = true /\
  ((row_source_entity_id r = entity_id /\ row_target_entity_id r = k) \/
   (row_target_entity_id r = entity_id /\ row_source_entity_id r = k)).
Proof.
  unfold related_condition.
  rewrite !andb_true_iff, !orb_true_iff, negb_true_iff, !String.eqb_eq, String.eqb_neq.
  split.
  - intros [[[Hk Hid] Hne] Hty]. split; [done|]. split; [done|].
    destruct Hk as [-> | ->], Hid as [Hs|Ht]; try tauto; congruence.
  - intros (Hne & Hty & [[Hs Ht]|[Ht Hs]]); repeat split; auto.
Qed.

(** X10. [get_related_entities] returns the stored entities at the other
    end of a relationship that touches the given id (and has the wanted
    type, when one is given): never the entity itself, nothing for a
    relationship whose other end is not a stored entity, and nothing for
    a relationship from the id to itself. The relation is symmetric: if
    [x] is related to [a] and [a] is stored, then [a] is related to [x]. *)
Theorem related_entities_spec (d : db) (entity_id : string)
    (relationship_type : option string) :
  (forall x, x ∈ get_related_entities d entity_id relationship_type <->
     exists row rk r,
       code_entities d !! id x = Some row /\ x = entity_of_row (id x) row /\
       relationships d !! rk = Some r /\
       id x <> entity_id /\ type_condition relationship_type r = true /\
       ((row_source_entity_id r = entity_id /\ row_target_entity_id r = id x) \/
        (row_target_entity_id r = entity_id /\ row_source_entity_id r = id x))) /\
  (forall x, x ∈ get_related_entities d entity_id relationship_type ->
             id x <> entity_id) /\
  (forall x row, x ∈ get_related_entities d entity_id relationship_type ->
     code_entities d !! entity_id = Some row ->
     entity_of_row entity_id row ∈ get_related_entities d (id x) relationship_type).
Proof.
  assert (forall a x, x ∈ get_related_entities d a relationship_type <->
     exists row rk r,
       code_entities d !! id x = Some row /\ x = entity_of_row (id x) row /\
       relationships d !! rk = Some r /\
       id x <> a /\ type_condition relationship_type r = true /\
       ((row_source_entity_id r = a /\ row_target_entity_id r = id x) \/
        (row_target_entity_id r = a /\ row_source_entity_id r = id x))) as Hspec.
  { intros a x. rewrite get_related_entities_elem.
    split; intros (row & rk & r & H1 & H2 & H3 & H4); exists row, rk, r;
      (split; [done|]); (split; [done|]); (split; [done|]);
      by apply related_condition_spec. }
  split; [apply Hspec|]. split.
  - intros x (row & rk & r & _ & _ & _ & Hne & _)%Hspec. done.
  - intros x row (rowx & rk & r & Hx & _ & Hr & Hne & Hty & Hends)%Hspec Ha.
    apply Hspec. exists row, rk, r. cbn [id entity_of_row].
    split; [done|]. split; [done|]. split; [done|].
    split; [congruence|]. split; [done|tauto].
Qed.

(** *** API mappings *)

Lemma get_api_mappings_spec d wid eid m :
  m ∈ get_api_mappings d wid eid <->
  exists row, api_mappings d !! md_id m = Some row /\
              m = dict_of_mapping (md_id m) row /\
              id_condition wid (row_flutter_widget_id row) = true /\
              id_condition eid (row_python_endpoint_id row) = true.
Proof.
  unfold get_api_mappings, mapping_rows. rewrite list_elem_of_omap. split.
  - intros ([k row] & Hin%elem_of_map_to_list & H). cbn [fst snd] in H.
    destruct (id_condition wid _ && id_condition eid _) eqn:E; [|done].
    injection H as <-. exists row. cbn [md_id dict_of_mapping].
    by apply andb_true_iff in E as [? ?].
  - intros (row & Hrow & Hm & Hw & He). exists (md_id m, row).
    split; [by apply elem_of_map_to_list|]. cbn [fst snd].
    by rewrite Hw, He, <- Hm.
Qed.

Lemma id_condition_refl w : id_condition (Some w) w = true.
Proof. destruct w as [|a w]; [done|]. apply (String.eqb_refl (String a w)). Qed.

Lemma add_api_mapping_lookup d w e ty meta t k :
  api_mappings (add_api_mapping d w e ty meta t).1 !! k =
    if decide (w +:+ "_" +:+ e = k)
    then Some {| row_flutter_widget_id := w; row_python_endpoint_id := e;
                 row_mapping_type := ty; row_mapping_metadata := meta;
                 row_mapping_created_at := t |}
    else api_mappings d !! k.
Proof.
  cbn. case_decide as Hk; [subst; by rewrite lookup_insert_eq | by rewrite lookup_insert_ne].
Qed.

(** X11. Mappings written and read back. After [add_api_mapping] the
    mapping is returned by the unfiltered query and by the queries for
    its widget id, for its endpoint id and for both, under the id
    <widget id>_<endpoint id>; a query for a non-empty widget id returns
    only mappings of that widget; and an empty string as widget or
    endpoint id filters nothing, like no argument. *)
Theorem api_mapping_round_trip (d : db) (w e ty meta : string) (t : time) :
  let d' := (add_api_mapping d w e ty meta t).1 in
  let stored := {| md_id := w +:+ "_" +:+ e; md_flutter_widget_id := w;
                   md_python_endpoint_id := e; md_mapping_type := ty;
                   md_metadata := or_default (Some meta) "{}";
                   md_created_at := t |} in
  stored ∈ get_api_mappings d' None None /\
  stored ∈ get_api_mappings d' (Some w) None /\
  stored ∈ get_api_mappings d' None (Some e) /\
  stored ∈ get_api_mappings d' (Some w) (Some e) /\
  (forall wid eid m, wid <> "" -> m ∈ get_api_mappings d' (Some wid) eid ->
                     md_flutter_widget_id m = wid) /\
  (forall wid eid, get_api_mappings d' (Some "") eid = get_api_mappings d' None eid /\
                   get_api_mappings d' wid (Some "") = get_api_mappings d' wid None).
Proof.
  cbv zeta.
  assert (forall wid eid, id_condition wid w = true -> id_condition eid e = true ->
            {| md_id := w +:+ "_" +:+ e; md_flutter_widget_id := w;
               md_python_endpoint_id := e; md_mapping_type := ty;
               md_metadata := or_default (Some meta) "{}"; md_created_at := t |}
            ∈ get_api_mappings (add_api_mapping d w e ty meta t).1 wid eid) as Hin.
  { intros wid eid Hw He. apply get_api_mappings_spec. eexists. cbn [md_id].
    rewrite add_api_mapping_lookup, decide_True by done. split; [done|].
    cbn. done. }
  split; [by apply Hin|]. split; [apply Hin; [apply id_condition_refl|done]|].
  split; [apply Hin; [done|apply id_condition_refl]|].
  split; [apply Hin; apply id_condition_refl|]. split.
  - intros wid eid m Hne (row & _ & -> & Hw & _)%get_api_mappings_spec. cbn.
    destruct wid; [done|]. by apply String.eqb_eq in Hw.
  - done.
Qed.

(** X12. The id of a mapping is the two ids joined by an underscore, and
    the ids have underscores themselves: the pair (x_y, z) and the pair
    (x, y_z) get the same id, so that the second upsert replaces the
    first mapping; the table has as many rows as after the first, and
    the row under that id is the second mapping. *)
Theorem mapping_id_collision (d : db) (x y z ty1 meta1 ty2 meta2 : string)
    (t1 t2 : time) :
  let d1 := (add_api_mapping d (x +:+ "_" +:+ y) z ty1 meta1 t1).1 in
  let d2 := (add_api_mapping d1 x (y +:+ "_" +:+ z) ty2 meta2 t2).1 in
  size (api_mappings d2) = size (api_mappings d1) /\
  api_mappings d2 !! (x +:+ "_" +:+ y +:+ "_" +:+ z) =
    Some {| row_flutter_widget_id := x;
            row_python_endpoint_id := y +:+ "_" +:+ z;
            row_mapping_type := ty2; row_mapping_metadata := meta2;
            row_mapping_created_at := t2 |} /\
  (forall m, m ∈ get_api_mappings d2 None None ->
             md_id m = x +:+ "_" +:+ y +:+ "_" +:+ z ->
             md_flutter_widget_id m = x).
Proof.
  cbv zeta. split; [|split].
  - cbn. rewrite append_assoc, insert_insert_eq.
    rewrite !map_size_insert. done.
  - by rewrite add_api_mapping_lookup, decide_True.
  - intros m (row & Hrow & -> & _)%get_api_mappings_spec Hid. cbn in Hid.
    cbn [md_id dict_of_mapping] in Hrow. rewrite Hid in Hrow.
    rewrite add_api_mapping_lookup, decide_True in Hrow by done.
    by injection Hrow as <-.
Qed.

(** *** Statistics *)

Lemma group_count_lookup (values : list string) (v : string) :
  group_count values !! v =
    match length (List.filter (String.eqb v) values) with
    | O => None
    | S n => Some (S n)
    end.
Proof.
  induction values as [|a values IH]; cbn [group_count foldr List.filter]; [done|].
  fold (group_count values).
  destruct (String.eqb v a) eqn:E.
  - apply String.eqb_eq in E as <-. rewrite lookup_insert_eq, IH. cbn [length].
    by destruct (length _).
  - apply String.eqb_neq in E. rewrite lookup_insert_ne by done. apply IH.
Qed.

Lemma sum_values_group_count (values : list string) :
  sum_values (group_count values) = length values.
Proof.
  unfold sum_values.
  induction values as [|a values IH]; cbn [group_count foldr length].
  - apply map_fold_empty.
  - fold (group_count values).
    destruct (group_count values !! a) as [n|] eqn:E; cbn [default].
    + rewrite <- insert_delete_eq.
      rewrite map_fold_insert_L; [|intros; lia|apply lookup_delete_eq].
      rewrite (map_fold_delete_L _ _ a n (group_count values)) in IH;
        [|intros; lia|done]. cbv beta in *. unfold Datatypes.id. lia.
    + rewrite map_fold_insert_L; [|intros; lia|done]. cbv beta in *. unfold Datatypes.id. lia.
Qed.

Lemma length_typed_rows (rows : list (string * entity_row)) (ty : string) :
  length (omap (fun kr : string * entity_row =>
                  if String.eqb (row_type kr.2) ty
                  then Some (entity_of_row kr.1 kr.2) else None) rows)
  = count_type ty rows.
Proof.
  unfold count_type. induction rows as [|[k row] rows IH]; cbn; [done|].
  rewrite (String.eqb_sym ty). destruct (String.eqb (row_type row) ty); cbn; by rewrite IH.
Qed.

Lemma length_get_entities_by_type d ty :
  length (get_entities_by_type d ty) = count_type ty (map_to_list (code_entities d)).
Proof. apply length_typed_rows. Qed.

Lemma stats_entities_lookup (s : store) (ty : string) :
  st_entities (get_stats s) !! ty =
    match length (get_entities_by_type (tables s) ty) with
    | O => None
    | S n => Some (S n)
    end.
Proof.
  cbn [get_stats st_entities]. rewrite group_count_lookup.
  unfold get_entities_by_type. by rewrite length_typed_rows.
Qed.

Lemma count_type_perm ty l1 l2 : l1 ≡ₚ l2 -> count_type ty l1 = count_type ty l2.
Proof.
  unfold count_type.
  intros H. induction H as [|[k r] l l' _ IH|[k r] [k' r'] l|l l' l'' _ IH1 _ IH2];
    cbn; [done| |by destruct (String.eqb ty _), (String.eqb ty _)|congruence].
  destruct (String.eqb ty (row_type r)); cbn; by rewrite IH.
Qed.

Lemma count_type_insert ty (m : gmap string entity_row) k r :
  m !! k = None ->
  count_type ty (map_to_list (<[k:=r]> m)) =
  (if String.eqb ty (row_type r) then 1 else 0) + count_type ty (map_to_list m).
Proof.
  intros Hk. rewrite (count_type_perm _ _ _ (map_to_list_insert m k r Hk)).
  unfold count_type. cbn. by destruct (String.eqb ty (row_type r)).
Qed.

Lemma count_type_upsert ty (m : gmap string entity_row) k r r' :
  row_type r' = row_type r ->
  count_type ty (map_to_list (<[k:=r']> (<[k:=r]> m))) =
  count_type ty (map_to_list (<[k:=r]> m)).
Proof.
  intros H. rewrite insert_insert_eq.
  rewrite <- (insert_delete_eq m k r'), <- (insert_delete_eq m k r).
  rewrite !count_type_insert by apply lookup_delete_eq. by rewrite H.
Qed.

(** X13. The statistics agree with the queries: the count [get_stats]
    reports for an entity type is the number of entities the query for
    that type returns, and the type has no count when there is none; the
    counts add up to the number of rows of [code_entities]; and the
    count of API mappings is the number of mappings the unfiltered query
    returns. *)
Theorem stats_agree_with_queries (s : store) :
  (forall ty, st_entities (get_stats s) !! ty =
     match length (get_entities_by_type (tables s) ty) with
     | O => None
     | S n => Some (S n)
     end) /\
  sum_values (st_entities (get_stats s)) = size (code_entities (tables s)) /\
  st_api_mappings (get_stats s) = length (get_api_mappings (tables s) None None).
Proof.
  split; [|split].
  - apply stats_entities_lookup.
  - cbn [get_stats st_entities]. rewrite sum_values_group_count, length_map.
    unfold entity_rows. by rewrite length_map_to_list.
  - cbn [get_stats st_api_mappings]. unfold get_api_mappings, mapping_rows.
    rewrite <- length_map_to_list.
    induction (map_to_list (api_mappings (tables s))) as [|[k row] l IH]; cbn; [done|].
    by rewrite IH.
Qed.

(** X14. Upserting an entity again with the same type leaves the
    statistics as they are: the time stamps, the name and the metadata
    of the second write do not show in them. *)
Theorem stats_unchanged_by_reupsert (s : store) (e e' : CodeEntity)
    (t1 c1 t2 c2 : time) :
  id e' = id e -> type e' = type e ->
  let s1 := {| tables := (add_entity (tables s) e t1 c1).1;
               change_requests := change_requests s |} in
  let s2 := {| tables := (add_entity (tables s1) e' t2 c2).1;
               change_requests := change_requests s |} in
  get_stats s2 = get_stats s1.
Proof.
  intros Hid Hty. cbv zeta. unfold get_stats. cbn [tables change_requests].
  f_equal. apply map_eq. intros ty. rewrite !group_count_lookup.
  fold (count_type ty (entity_rows (add_entity (add_entity (tables s) e t1 c1).1 e' t2 c2).1)).
  fold (count_type ty (entity_rows (add_entity (tables s) e t1 c1).1)).
  unfold entity_rows, add_entity. cbn [fst code_entities]. rewrite Hid.
  rewrite count_type_upsert; [done|]. by cbn.
Qed.

(** The widget LoginPage written at time 100 and again, renamed, at
    time 200. *)
Lemma stats_unchanged_by_reupsert_witness :
  let s := {| tables := init_db; change_requests := ∅ |} in
  let e := {| id := "flutter_widget_LoginPage_7"; type := "widget";
              name := "LoginPage"; file_path := "lib/login_page.dart";
              language := "dart"; metadata := "{}";
              created_at := 100%Z; updated_at := 100%Z |} in
  let e' := {| id := "flutter_widget_LoginPage_7"; type := "widget";
               name := "LoginScreen"; file_path := "lib/login_page.dart";
               language := "dart"; metadata := "{}";
               created_at := 200%Z; updated_at := 200%Z |} in
  let s1 := {| tables := (add_entity (tables s) e 100%Z 100%Z).1;
               change_requests := change_requests s |} in
  let s2 := {| tables := (add_entity (tables s1) e' 200%Z 200%Z).1;
               change_requests := change_requests s |} in
  id e' = id e /\ type e' = type e /\ get_stats s2 = get_stats s1.
Proof.
  cbv zeta. split; [reflexivity|]. split; [reflexivity|].
  apply (stats_unchanged_by_reupsert
           {| tables := init_db; change_requests := ∅ |}
           {| id := "flutter_widget_LoginPage_7"; type := "widget";
              name := "LoginPage"; file_path := "lib/login_page.dart";
              language := "dart"; metadata := "{}";
              created_at := 100%Z; updated_at := 100%Z |}
           {| id := "flutter_widget_LoginPage_7"; type := "widget";
              name := "LoginScreen"; file_path := "lib/login_page.dart";
              language := "dart"; metadata := "{}";
              created_at := 200%Z; updated_at := 200%Z |}
           100%Z 100%Z 200%Z 200%Z); reflexivity.
Defined.

End StoreQueriesFacts.

(* ===================================================================== *)
(** * Exactness of the route extraction *)
(* ===================================================================== *)

Module PyAstMoreFacts.
Import PyStr Records PyAst PyAstMore.

Lemma subnodes_eq (n : node) :
  subnodes n = n :: flat_map subnodes (iter_child_nodes n).
Proof.
  by destruct n.
Qed.

Lemma node_size_eq (n : node) :
  node_size n = S (nodes_size (iter_child_nodes n)).
Proof.
  unfold nodes_size.
  destruct n as [name decs lineno body|name decs lineno body|children];
    cbn [node_size iter_child_nodes]; f_equal.
  - induction body as [|x body IH]; [done|]. cbn [map list_sum]. by rewrite IH.
  - induction body as [|x body IH]; [done|]. cbn [map list_sum]. by rewrite IH.
  - induction children as [|x l IH]; [done|]. cbn [map list_sum]. by rewrite IH.
Qed.

Lemma nodes_size_cons n l :
  nodes_size (n :: l) = S (nodes_size (iter_child_nodes n)) + nodes_size l.
Proof. unfold nodes_size at 1 3. cbn. by rewrite node_size_eq. Qed.

Lemma nodes_size_app l1 l2 : nodes_size (l1 ++ l2) = nodes_size l1 + nodes_size l2.
Proof. unfold nodes_size. by rewrite map_app, list_sum_app. Qed.

(** the walk from a queue yields the nodes of the queued trees, each
    once, when it has as many steps as they have nodes *)
Lemma walk_queue_perm : forall steps todo,
  nodes_size todo <= steps ->
  walk_queue steps todo ≡ₚ flat_map subnodes todo.
Proof.
  induction steps as [|steps IH]; intros todo Hsize.
  - destruct todo as [|n rest]; [done|].
    rewrite nodes_size_cons in Hsize. lia.
  - destruct todo as [|n rest]; [done|].
    cbn [walk_queue flat_map]. rewrite subnodes_eq. cbn [app].
    apply Permutation_skip.
    rewrite IH.
    + rewrite flat_map_app. apply Permutation_app_comm.
    + rewrite nodes_size_app. rewrite nodes_size_cons in Hsize. lia.
Qed.

Lemma walk_queue_length : forall steps todo,
  nodes_size todo <= steps -> length (walk_queue steps todo) = nodes_size todo.
Proof.
  induction steps as [|steps IH]; intros todo Hsize.
  - destruct todo as [|n rest]; [done|].
    rewrite nodes_size_cons in Hsize. lia.
  - destruct todo as [|n rest]; [done|].
    rewrite nodes_size_cons in Hsize |- *. cbn [walk_queue length].
    rewrite IH; rewrite nodes_size_app; lia.
Qed.

Lemma walk_perm (tree : node) : walk tree ≡ₚ subnodes tree.
Proof.
  unfold walk. rewrite walk_queue_perm.
  - cbn [flat_map]. by rewrite app_nil_r.
  - unfold nodes_size. cbn. lia.
Qed.

Lemma endpoints_of_decorator_elem name file_path lineno d e :
  e ∈ endpoints_of_decorator name file_path lineno d <->
  exists recv attr args,
    d = Call (Attribute recv attr) args /\ attr ∈ route_verbs /\
    e = route_record file_path name lineno attr args.
Proof.
  split.
  - destruct d as [| |value attr|func args|]; cbn; try by intros ?%elem_of_nil.
    destruct func as [| |recv attr| |]; try by intros ?%elem_of_nil.
    case_bool_decide as Hv; [|by intros ?%elem_of_nil].
    intros ->%list_elem_of_singleton. by exists recv, attr, args.
  - intros (recv & attr & args & -> & Hv & ->). cbn.
    rewrite bool_decide_eq_true_2 by done. by apply list_elem_of_singleton.
Qed.

Lemma endpoints_of_node_elem file_path n e :
  e ∈ endpoints_of_node file_path n <->
  exists name decorator_list lineno body recv attr args,
    n = FunctionDef name decorator_list lineno body /\
    Call (Attribute recv attr) args ∈ decorator_list /\
    attr ∈ route_verbs /\
    e = route_record file_path name lineno attr args.
Proof.
  split.
  - destruct n as [name decs lineno body| |]; cbn [endpoints_of_node];
      try by intros ?%elem_of_nil.
    rewrite list_elem_of_In, in_flat_map.
    intros (d & Hd%list_elem_of_In & He%list_elem_of_In).
    apply endpoints_of_decorator_elem in He as (recv & attr & args & -> & Hv & ->).
    by exists name, decs, lineno, body, recv, attr, args.
  - intros (name & decs & lineno & body & recv & attr & args & -> & Hd & Hv & ->).
    cbn [endpoints_of_node]. rewrite list_elem_of_In, in_flat_map.
    exists (Call (Attribute recv attr) args). rewrite <- !list_elem_of_In.
    split; [done|]. apply endpoints_of_decorator_elem. by exists recv, attr, args.
Qed.

Lemma extracted_endpoint_elem tree file_path e :
  e ∈ _extract_fastapi_endpoints tree file_path <->
  exists name decorator_list lineno body recv attr args,
    FunctionDef name decorator_list lineno body ∈ subnodes tree /\
    Call (Attribute recv attr) args ∈ decorator_list /\
    attr ∈ route_verbs /\
    e = route_record file_path name lineno attr args.
Proof.
  unfold _extract_fastapi_endpoints. rewrite list_elem_of_In, in_flat_map. split.
  - intros (n & Hn%list_elem_of_In & He%list_elem_of_In).
    rewrite walk_perm in Hn.
    apply endpoints_of_node_elem in He
      as (name & decs & lineno & body & recv & attr & args & -> & Hd & Hv & ->).
    by exists name, decs, lineno, body, recv, attr, args.
  - intros (name & decs & lineno & body & recv & attr & args & Hn & Hd & Hv & ->).
    exists (FunctionDef name decs lineno body). rewrite <- !list_elem_of_In.
    split; [by rewrite walk_perm|].
    apply endpoints_of_node_elem.
    by exists name, decs, lineno, body, recv, attr, args.
Qed.

(** X15. The walk reaches every node of the tree once, so the extractor
    is exact on plain function definitions at any depth: a record is
    extracted if and only if somewhere in the tree, nested in a
    function, a class or a block or not, there is a plain function
    definition with a decorator that is a call of an attribute named
    get, post, put, delete or patch, and the record is the one of that
    function and decorator. In the example, the route functions nested
    in a function and in a block are both extracted. *)
Theorem endpoint_extraction_exact (tree : node) (file_path : string) :
  walk tree ≡ₚ subnodes tree /\
  length (walk tree) = node_size tree /\
  (forall e, e ∈ _extract_fastapi_endpoints tree file_path <->
     exists name decorator_list lineno body recv attr args,
       FunctionDef name decorator_list lineno body ∈ subnodes tree /\
       Call (Attribute recv attr) args ∈ decorator_list /\
       attr ∈ route_verbs /\
       e = route_record file_path name lineno attr args) /\
  map (fun ep => (ep_name ep, ep_method ep, ep_path ep))
      (_extract_fastapi_endpoints nested_routes file_path)
  = [("health", "GET", "/health"); ("status", "POST", "/status")].
Proof.
  split; [apply walk_perm|]. split; [|split].
  - unfold walk. rewrite walk_queue_length; unfold nodes_size; cbn; lia.
  - intros e. apply extracted_endpoint_elem.
  - by vm_compute.
Qed.

End PyAstMoreFacts.

(* ===================================================================== *)
(** * Properties of the extracted records and of the pubspec reader *)
(* ===================================================================== *)

Module DartDetailsFacts.
Import PyStr PyStrFacts PyStrMore PyStrMoreFacts Records Dart PatternFacts DartFacts DartDetails.

(** *** Characters of a match *)

Lemma all_chars_take cls (s : string) : forall n,
  all_chars cls s = true -> all_chars cls (take n s) = true.
Proof.
  induction s as [|a s IH]; intros [|n] H; try done.
  cbn in *. apply andb_true_iff in H as [-> H]. by apply IH.
Qed.

Lemma all_chars_drop cls (s : string) : forall n,
  all_chars cls s = true -> all_chars cls (drop n s) = true.
Proof.
  induction s as [|a s IH]; intros [|n] H; try done.
  cbn in *. apply andb_true_iff in H as [_ H]. by apply IH.
Qed.

Lemma take_length_plus (u v : string) (n : nat) :
  take (String.length u + n) (u +:+ v) = u +:+ take n v.
Proof.
  induction u as [|a u IH]; [done|].
  rewrite append_cons. cbn [String.length Nat.add take]. by rewrite IH, append_cons.
Qed.

Lemma class_included (cls P : ascii -> bool) :
  forallb (fun c => implb (cls c) (P c)) all_ascii = true ->
  forall c, cls c = true -> P c = true.
Proof.
  intros H c Hc. rewrite forallb_forall in H.
  specialize (H c (in_all_ascii c)). by rewrite Hc in H.
Qed.

Lemma matches_chars P its s groups n :
  matches its s groups n -> items_in P its = true ->
  all_chars P (take n s) = true.
Proof.
  induction 1 as [s|text its s groups n _ IH|cls its c s groups n Hc _ IH
                 |cls capture its run s groups n _ Hrun _ IH
                 |cls its run s groups n Hrun _ IH];
    cbn [items_in]; intros Hin.
  - by destruct s.
  - apply andb_true_iff in Hin as [Ht Hin].
    rewrite take_length_plus, all_chars_append, Ht. by apply IH.
  - apply andb_true_iff in Hin as [Hcls Hin]. cbn.
    rewrite (class_included _ _ Hcls c Hc). by apply IH.
  - apply andb_true_iff in Hin as [Hcls Hin].
    rewrite take_length_plus, all_chars_append, IH by done.
    rewrite (all_chars_impl cls P); [done|by apply class_included|done].
  - apply andb_true_iff in Hin as [Hcls Hin].
    rewrite take_length_plus, all_chars_append, IH by done.
    rewrite (all_chars_impl cls P); [done|by apply class_included|done].
Qed.

Lemma prefix_all_chars cls (t s : string) :
  String.prefix t s = true -> all_chars cls s = true -> all_chars cls t = true.
Proof.
  intros Hp Hs. rewrite (prefix_inv _ _ Hp), all_chars_append in Hs.
  by apply andb_true_iff in Hs as [? _].
Qed.

Lemma span_rest_chars P cls (s : string) :
  all_chars P s = true -> all_chars P (span cls s).2 = true.
Proof.
  intros Hs. destruct (span_spec cls s) as (Heq & _ & _).
  rewrite Heq, all_chars_append in Hs. by apply andb_true_iff in Hs as [_ ?].
Qed.

(** a pattern with a literal that has [c] matches nowhere in a text
    without [c] *)
Lemma match_items_needs_char c its : forall s,
  needs_char c its = true -> all_chars (other_than c) s = true ->
  match_items its s = None.
Proof.
  induction its as [|it its IH]; intros s Hneed Hs; [done|].
  cbn [needs_char existsb] in Hneed. fold (needs_char c its) in Hneed.
  destruct it as [text|cls|cls capture|cls]; cbn [match_items].
  - destruct (String.prefix text s) eqn:Hp; [|done].
    apply orb_true_iff in Hneed as [Hneed|Hneed].
    + rewrite (prefix_all_chars _ _ _ Hp Hs) in Hneed. done.
    + by rewrite IH; [| |apply all_chars_drop].
  - destruct s as [|a s]; [done|]. destruct (cls a); [|done].
    cbn in Hs. apply andb_true_iff in Hs as [_ Hs]. by rewrite IH.
  - pose proof (span_rest_chars _ cls s Hs) as Hrest.
    destruct (span cls s) as [run rest]. destruct run; [done|].
    by rewrite IH.
  - pose proof (span_rest_chars _ cls s Hs) as Hrest.
    destruct (span cls s) as [run rest]. by rewrite IH.
Qed.

Lemma finditer_needs_char c p (s : string) :
  needs_char c (items p) = true -> all_chars (other_than c) s = true ->
  finditer p s = [].
Proof.
  intros Hneed. unfold finditer.
  enough (forall pos skip, all_chars (other_than c) s = true ->
            finditer_from (items p) pos skip s = []) by auto.
  induction s as [|a s IH]; intros pos skip Hs; [done|].
  cbn [finditer_from]. destruct skip as [|skip].
  - rewrite (match_items_needs_char c) by done.
    cbn in Hs. apply andb_true_iff in Hs as [_ Hs]. by apply IH.
  - cbn in Hs. apply andb_true_iff in Hs as [_ Hs]. by apply IH.
Qed.

Lemma list_of_set_nil : list_of_set [] = [].
Proof. unfold list_of_set. cbn [list_to_set]. apply elements_empty. Qed.

(** the text of a match of a widget pattern *)
Lemma widget_match_chars base content m :
  all_chars header_char base = true ->
  m ∈ finditer_from (widget_items base) 0 0 content ->
  all_chars header_char (slice content (m_start m) (m_end m)) = true.
Proof.
  intros Hbase Hm.
  apply finditer_from_sound in Hm as (_ & _ & n & Hmatch & Hend).
  rewrite Nat.sub_0_r in Hmatch. unfold slice.
  replace (m_end m - m_start m) with n by lia.
  apply match_items_sound in Hmatch.
  apply (matches_chars _ _ _ _ _ Hmatch).
  cbn [items_in widget_items]. rewrite Hbase. by vm_compute.
Qed.

Lemma header_without c (s : string) :
  forallb (fun a => implb (header_char a) (other_than c a)) all_ascii = true ->
  all_chars header_char s = true -> all_chars (other_than c) s = true.
Proof. intros H. apply all_chars_impl. by apply class_included. Qed.

Lemma widget_lists_empty base content m :
  all_chars header_char base = true ->
  m ∈ finditer_from (widget_items base) 0 0 content ->
  widget_lists_of content m = no_lists.
Proof.
  intros Hbase Hm. pose proof (widget_match_chars _ _ _ Hbase Hm) as Hh.
  assert (all_chars (other_than "(") (slice content (m_start m) (m_end m)) = true)
    as Hparen by (by apply header_without; [vm_compute|]).
  assert (all_chars (other_than ".") (slice content (m_start m) (m_end m)) = true)
    as Hdot by (by apply header_without; [vm_compute|]).
  assert (all_chars (other_than ":") (slice content (m_start m) (m_end m)) = true)
    as Hcolon by (by apply header_without; [vm_compute|]).
  unfold widget_lists_of, no_lists. f_equal.
  - unfold _extract_widget_dependencies. cbn [widget_patterns flat_map].
    rewrite !(finditer_needs_char "(") by done. apply list_of_set_nil.
  - unfold _extract_widget_api_calls. cbn [api_call_patterns flat_map].
    rewrite !(finditer_needs_char "(") by done. apply list_of_set_nil.
  - unfold _extract_widget_navigation. cbn [nav_patterns flat_map].
    by rewrite !(finditer_needs_char "(") by done.
  - unfold _extract_form_fields. cbn [field_patterns flat_map].
    by rewrite !(finditer_needs_char "(") by done.
  - unfold _extract_widget_validators. cbn [validator_patterns flat_map].
    rewrite (finditer_needs_char ".") by done.
    rewrite (finditer_needs_char ":") by done. apply list_of_set_nil.
Qed.

(** X16. The five lists of a widget record are always empty. They are
    read from the text of the match alone, the words class <name>
    extends <base> and the opening brace, which has no parenthesis, no
    dot and no colon, while each of their patterns needs one: whatever
    the file, [_extract_widgets] returns the records of the widgets with
    empty [dependencies], [api_calls], [navigation_routes],
    [form_fields] and [validators]. *)
Theorem widget_lists_always_empty (content file_path : string) :
  _extract_widgets_with_lists content file_path
  = map (fun w => (w, no_lists)) (_extract_widgets content file_path).
Proof.
  unfold _extract_widgets_with_lists, _extract_widgets.
  rewrite !foldl_snoc_map. cbn [app]. rewrite map_app, !map_map.
  f_equal; apply map_ext_in; intros m Hm%list_elem_of_In; f_equal.
  - by apply (widget_lists_empty "StatelessWidget").
  - by apply (widget_lists_empty "StatefulWidget").
Qed.

(** *** Line numbers *)

Lemma count_take_le c (s : string) : forall n, count c (take n s) <= count c s.
Proof.
  induction s as [|a s IH]; intros [|n]; cbn; try lia.
  specialize (IH n). lia.
Qed.

Lemma count_take_mono c (s : string) : forall i j,
  i <= j -> count c (take i s) <= count c (take j s).
Proof.
  induction s as [|a s IH]; intros [|i] [|j] Hij; cbn; try lia.
  specialize (IH i j). lia.
Qed.

Lemma class_end_scan_ge rest : forall i brace_count in_class r,
  class_end_scan i brace_count in_class rest = Some r -> i <= r.
Proof.
  induction rest as [|a rest IH]; intros i b c r; cbn [class_end_scan]; [done|].
  destruct (Ascii.eqb a "{"); [intros H%IH; lia|].
  destruct (Ascii.eqb a "}"); [|intros H%IH; lia].
  destruct (c && _); [intros [= <-]; lia | intros H%IH; lia].
Qed.

Lemma find_class_end_bounds (content : string) (start_pos : nat) :
  count newline (take start_pos content) + 1 <= _find_class_end content start_pos
  /\ _find_class_end content start_pos <= count newline content + 1.
Proof.
  unfold _find_class_end.
  destruct (class_end_scan _ _ _ _) as [i|] eqn:E.
  - apply class_end_scan_ge in E.
    pose proof (count_take_mono newline content _ _ E).
    pose proof (count_take_le newline content i). lia.
  - pose proof (count_take_le newline content start_pos). lia.
Qed.

(** X17. The line span of a widget record is a span of the file: the
    first line is at least 1, the last line is not before the first,
    and the last line is at most the number of lines of the text, also
    for a class whose braces never close. *)
Theorem widget_line_span (content file_path : string) :
  Forall (fun w => 1 <= fw_line_start w /\
                   fw_line_start w <= fw_line_end w /\
                   fw_line_end w <= count newline content + 1)
         (_extract_widgets content file_path).
Proof.
  unfold _extract_widgets. rewrite !foldl_snoc_map. cbn [app].
  apply Forall_app. split; apply Forall_fmap, Forall_forall; intros m _;
    cbn [widget_of fw_line_start fw_line_end compose];
    pose proof (find_class_end_bounds content (m_start m)); lia.
Qed.

(** *** Call sites *)

Lemma quoted_match text s groups n :
  matches [Lit text; One is_quote; Plus not_quote true; One is_quote] s groups n ->
  exists q1 run q2 rest,
    s = text +:+ String q1 (run +:+ String q2 rest) /\ groups = [run] /\
    run <> "" /\ all_chars not_quote run = true /\
    is_quote q1 = true /\ is_quote q2 = true.
Proof.
  intros H. inversion H as [|? ? s1 g1 n1 H1| | |]; subst; clear H.
  inversion H1 as [| |? ? q1 s2 g2 n2 Hq1 H2| |]; subst; clear H1.
  inversion H2 as [| | |? ? ? run s3 g3 n3 Hne Hrun H3|]; subst; clear H2.
  inversion H3 as [| |? ? q2 s4 g4 n4 Hq2 H4| |]; subst; clear H3.
  inversion H4; subst. by exists q1, run, q2, s4.
Qed.

Lemma contains_drop (a : string) (s : string) : forall k,
  contains a (drop k s) = true -> contains a s = true.
Proof.
  induction s as [|c s IH]; intros [|k] H; try done.
  cbn [drop] in H. apply IH in H. cbn [contains]. rewrite H. apply orb_true_r.
Qed.

Lemma call_pattern_shape p :
  p ∈ dio_patterns ++ http_patterns ->
  exists text, items p = [Lit text; One is_quote; Plus not_quote true; One is_quote].
Proof.
  intros Hp. unfold dio_patterns, http_patterns in Hp. cbn [app] in Hp.
  repeat (apply elem_of_cons in Hp as [->|Hp]; [by eexists|]).
  by apply elem_of_nil in Hp.
Qed.

Lemma call_record content file_path type p m :
  p ∈ dio_patterns ++ http_patterns -> m ∈ finditer p content ->
  let r := call_of content file_path type p m in
  ac_endpoint r <> "" /\ all_chars not_quote (ac_endpoint r) = true /\
  contains (ac_endpoint r) content = true /\
  1 <= ac_line r /\ ac_line r <= count newline content + 1.
Proof.
  intros Hp Hm. cbv zeta. cbn [call_of ac_endpoint ac_line].
  destruct (call_pattern_shape p Hp) as [text Hits].
  apply finditer_from_sound in Hm as (_ & _ & n & Hmatch & _).
  rewrite Hits in Hmatch. apply match_items_sound, quoted_match in Hmatch
    as (q1 & run & q2 & rest & Heq & Hg & Hne & Hrun & _ & _).
  unfold group1. rewrite Hg. cbn [nth].
  split; [done|]. split; [done|]. split.
  - apply (contains_drop _ _ (m_start m - 0)). rewrite Heq.
    apply contains_substring. by exists (text +:+ String q1 ""), (String q2 rest);
      rewrite append_assoc.
  - pose proof (count_take_le newline content (m_start m)). lia.
Qed.

(** X18. Every record of [_extract_api_calls] carries the path of the
    file it was given, the type dio or http, an endpoint that is not
    empty, has no quote character and occurs in the text, and a line
    number between 1 and the number of lines of the text. *)
Theorem api_call_records_wellformed (content file_path : string) :
  Forall (fun r => ac_file_path r = file_path /\
                   (ac_type r = "dio" \/ ac_type r = "http") /\
                   ac_endpoint r <> "" /\
                   all_chars not_quote (ac_endpoint r) = true /\
                   contains (ac_endpoint r) content = true /\
                   1 <= ac_line r /\ ac_line r <= count newline content + 1)
         (_extract_api_calls content file_path).
Proof.
  rewrite extract_api_calls_eq. apply Forall_app. split;
    apply Forall_forall; intros r Hr;
    apply list_elem_of_In, in_flat_map in Hr as (p & Hp & Hr);
    apply in_map_iff in Hr as (m & <- & Hm);
    apply list_elem_of_In in Hp, Hm.
  - split; [done|]. split; [by left|].
    apply call_record; [|done]. apply elem_of_app. by left.
  - split; [done|]. split; [by right|].
    apply call_record; [|done]. apply elem_of_app. by right.
Qed.

(** *** The pubspec file *)

Lemma pubspec_line_outside st line :
  opens_section line = false ->
  dep_section st = false -> dev_dep_section st = false ->
  let st' := pubspec_line st line in
  ps_dependencies st' = ps_dependencies st /\
  ps_dev_dependencies st' = ps_dev_dependencies st /\
  dep_section st' = false /\ dev_dep_section st' = false.
Proof.
  unfold opens_section. intros [H1 H2]%orb_false_iff Hd Hv. cbv zeta.
  unfold pubspec_line. rewrite H1, H2, Hd, Hv. cbn [andb].
  by destruct (_ || _).
Qed.

Lemma pubspec_lines_outside post : forall st,
  Forall (fun x => opens_section x = false) post ->
  dep_section st = false -> dev_dep_section st = false ->
  ps_dependencies (foldl pubspec_line st post) = ps_dependencies st /\
  ps_dev_dependencies (foldl pubspec_line st post) = ps_dev_dependencies st.
Proof.
  induction post as [|x post IH]; intros st Hpost Hd Hv; [done|].
  apply Forall_cons in Hpost as [Hx Hpost]. cbn [foldl].
  destruct (pubspec_line_outside st x Hx Hd Hv) as (E1 & E2 & E3 & E4).
  destruct (IH _ Hpost E3 E4) as [-> ->]. done.
Qed.

Lemma pubspec_line_closes st line :
  closes_section line = true ->
  let st' := pubspec_line st line in
  ps_dependencies st' = ps_dependencies st /\
  ps_dev_dependencies st' = ps_dev_dependencies st /\
  dep_section st' = false /\ dev_dep_section st' = false.
Proof.
  unfold closes_section, opens_section.
  intros [[H1 H2]%negb_true_iff%orb_false_iff H3]%andb_true_iff. cbv zeta.
  unfold pubspec_line. by rewrite H1, H2, H3.
Qed.

(** X19. A line that starts with flutter: or name: closes the section
    it is in: from that line to the next line dependencies: or
    dev_dependencies:, nothing is collected. In the usual pubspec file
    of a Flutter application, where the entry flutter: is the first of
    the dependencies, no dependency is collected, and the nested key
    sdk of flutter_test is collected as a development dependency. *)
Theorem flutter_entry_closes_section (pre post : list string) (line : string) :
  closes_section line = true ->
  Forall (fun x => opens_section x = false) post ->
  ps_dependencies (pubspec_lines (pre ++ line :: post))
    = ps_dependencies (pubspec_lines pre) /\
  ps_dev_dependencies (pubspec_lines (pre ++ line :: post))
    = ps_dev_dependencies (pubspec_lines pre).
Proof.
  intros Hline Hpost. unfold pubspec_lines. rewrite foldl_app. cbn [foldl].
  destruct (pubspec_line_closes (foldl pubspec_line pubspec_init pre) line Hline)
    as (E1 & E2 & E3 & E4).
  destruct (pubspec_lines_outside post _ Hpost E3 E4) as [-> ->]. done.
Qed.

Lemma flutter_entry_closes_section_witness :
  let pre := ["name: fd_mobile"; "dependencies:"] in
  let post := ["    sdk: flutter"; "  dio: ^5.3.2"; "  flutter_bloc: ^8.1.3"] in
  closes_section "  flutter:" = true /\
  Forall (fun x => opens_section x = false) post /\
  ps_dependencies (pubspec_lines (pre ++ "  flutter:" :: post)) = [] /\
  _analyze_pubspec usual_pubspec = ([], ["flutter_test"; "sdk"; "mockito"]).
Proof.
  cbv zeta.
  assert (closes_section "  flutter:" = true) as H1 by (by vm_compute).
  assert (Forall (fun x => opens_section x = false)
            ["    sdk: flutter"; "  dio: ^5.3.2"; "  flutter_bloc: ^8.1.3"]) as H2
    by (repeat constructor).
  split; [exact H1|]. split; [exact H2|]. split; [|by vm_compute].
  rewrite (proj1 (flutter_entry_closes_section
                    ["name: fd_mobile"; "dependencies:"] _ _ H1 H2)).
  by vm_compute.
Defined.

End DartDetailsFacts.

(* ===================================================================== *)
(** * Properties across the extractors and the agents *)
(* ===================================================================== *)

Module AgentsMoreFacts.
Import PyStr PyStrFacts Records Store StoreQueries Agents PyAst Dart.
Import AgentsMore StoreQueriesFacts PyAstMore PyAstMoreFacts DartFacts.

Lemma grade_health v st :
  grade (_assess_memory_health v st)
  = grade_of (sum_values v) (sum_values (st_entities st)).
Proof.
  unfold _assess_memory_health, grade_of. cbv zeta.
  by repeat (destruct (_ && _)).
Qed.

Lemma grade_of_mono v s v' s' :
  v <= v' -> s <= s' -> grade_of v s <= grade_of v' s'.
Proof.
  intros Hv Hs. unfold grade_of.
  repeat match goal with
         | |- context [?a <? ?b] =>
             destruct (Nat.ltb_spec a b); cbn [andb]
         end; lia.
Qed.

(** X20. The health grade of the memory is one of four, it depends on the
    two totals only and grows with them, the total of the structured
    store is the number of rows of its entity table, and the grade is
    the worst one unless more than 100 vector items and more than 50
    entities are stored, however many vector items there are. *)
Theorem memory_health_monotone (v v' : gmap string nat) (s s' : store) :
  sum_values v <= sum_values v' ->
  size (code_entities (tables s)) <= size (code_entities (tables s')) ->
  let m := get_memory_statistics v s in
  let m' := get_memory_statistics v' s' in
  total_entities m = size (code_entities (tables s)) /\
  total_relationships m = size (relationships (tables s)) /\
  memory_health m ∈ ["excellent"; "good"; "fair"; "needs_improvement"] /\
  grade (memory_health m) <= grade (memory_health m') /\
  (memory_health m = "needs_improvement" <->
     sum_values v <= 100 \/ size (code_entities (tables s)) <= 50).
Proof.
  intros Hv Hs. cbv zeta.
  assert (forall s0, sum_values (st_entities (get_stats s0))
                     = size (code_entities (tables s0))) as He.
  { intros s0. cbn [get_stats st_entities].
    rewrite sum_values_group_count, length_map.
    unfold entity_rows. by rewrite length_map_to_list. }
  cbn [get_memory_statistics total_entities total_relationships memory_health].
  split; [apply He|]. split.
  { cbn [get_stats st_relationships].
    rewrite sum_values_group_count, length_map.
    unfold relationship_rows. by rewrite length_map_to_list. }
  split.
  { unfold _assess_memory_health. cbv zeta.
    repeat (destruct (_ && _)); set_solver. }
  split.
  { rewrite !grade_health, !He. by apply grade_of_mono. }
  unfold _assess_memory_health. cbv zeta. rewrite He.
  repeat match goal with
         | |- context [?a <? ?b] => destruct (Nat.ltb_spec a b)
         end; cbn; split; try done; try lia.
Qed.

(** No vector items and an empty store, against 2000 vector items and
    an empty store: both are graded needs_improvement. *)
Lemma memory_health_monotone_witness :
  let v : gmap string nat := ∅ in
  let v' : gmap string nat := {[ "flutter_code" := 2000 ]} in
  let s := {| tables := init_db; change_requests := ∅ |} in
  sum_values v <= sum_values v' /\
  size (code_entities (tables s)) <= size (code_entities (tables s)) /\
  memory_health (get_memory_statistics v' s) = "needs_improvement" /\
  grade (memory_health (get_memory_statistics v s))
    <= grade (memory_health (get_memory_statistics v' s)).
Proof.
  cbv zeta.
  assert (sum_values (∅ : gmap string nat)
          <= sum_values ({[ "flutter_code" := 2000 ]} : gmap string nat)) as Hv.
  { unfold sum_values. rewrite map_fold_empty. lia. }
  assert (size (code_entities (tables {| tables := init_db; change_requests := ∅ |}))
          <= size (code_entities (tables {| tables := init_db; change_requests := ∅ |})))
    as Hs by lia.
  split; [exact Hv|]. split; [exact Hs|].
  pose proof (memory_health_monotone ∅ {[ "flutter_code" := 2000 ]}
                {| tables := init_db; change_requests := ∅ |}
                {| tables := init_db; change_requests := ∅ |} Hv Hs) as H.
  cbv zeta in H. destruct H as (_ & _ & _ & Hg & _).
  split; [|exact Hg].
  pose proof (memory_health_monotone {[ "flutter_code" := 2000 ]}
                {[ "flutter_code" := 2000 ]}
                {| tables := init_db; change_requests := ∅ |}
                {| tables := init_db; change_requests := ∅ |}
                (Nat.le_refl _) Hs) as H.
  cbv zeta in H. destruct H as (_ & _ & _ & _ & Hn).
  apply Hn. right. cbn. rewrite map_size_empty. lia.
Defined.

Lemma flat_map_nil {A B} (f : A -> list B) (l : list A) :
  (forall x, x ∈ l -> f x = []) -> flat_map f l = [].
Proof.
  induction l as [|x l IH]; intros H; cbn; [done|].
  rewrite (H x) by (by left). apply IH. intros y Hy. apply H. by right.
Qed.

Lemma extracted_call_method content file_path c :
  c ∈ _extract_api_calls content file_path -> ac_method c ∈ call_methods.
Proof.
  rewrite extract_api_calls_eq, elem_of_app, !list_elem_of_In, !in_flat_map.
  intros [(p & Hp & Hc)|(p & Hp & Hc)];
    apply in_map_iff in Hc as (m & <- & _); cbn [call_of ac_method];
    apply list_elem_of_In in Hp;
    unfold dio_patterns, http_patterns in Hp;
    repeat (apply elem_of_cons in Hp as [->|Hp];
            [vm_compute; set_solver|]);
    by apply elem_of_nil in Hp.
Qed.

Lemma extracted_route_method tree file_path e :
  e ∈ _extract_fastapi_endpoints tree file_path -> ep_method e ∈ route_methods.
Proof.
  intros (name & decs & lineno & body & recv & attr & args & _ & _ & Hv & ->)
    %extracted_endpoint_elem.
  cbn [route_record ep_method]. unfold route_verbs in Hv.
  repeat (apply elem_of_cons in Hv as [->|Hv]; [vm_compute; set_solver|]).
  by apply elem_of_nil in Hv.
Qed.

Lemma dotted_method_no_route m r :
  m ∈ call_methods -> r ∈ route_methods -> String.eqb (upper m) r = false.
Proof.
  unfold call_methods, route_methods. intros Hm Hr.
  repeat (apply elem_of_cons in Hm as [->|Hm]);
    try (by apply elem_of_nil in Hm);
    repeat (apply elem_of_cons in Hr as [->|Hr]);
    try (by apply elem_of_nil in Hr); by vm_compute.
Qed.

(** X21. The call records of the Dart extractor are never mapped to the
    route records of the Python extractor: the method of a call record
    keeps the dot of its pattern, so its upper-case form is none of GET,
    POST, PUT, DELETE and PATCH, the methods of the route records, and
    [_map_api_calls] returns the empty list for every Dart text and
    every Python tree. *)
Theorem extracted_calls_never_mapped (content dart_file py_file : string)
    (tree : node) (ws : list FlutterWidget) (ms : list PydanticModel) :
  (forall c, c ∈ _extract_api_calls content dart_file ->
             ac_method c ∈ call_methods) /\
  (forall e, e ∈ _extract_fastapi_endpoints tree py_file ->
             ep_method e ∈ route_methods) /\
  _map_api_calls
    {| widgets := ws; api_calls := _extract_api_calls content dart_file |}
    {| endpoints := _extract_fastapi_endpoints tree py_file; models := ms |}
  = [].
Proof.
  split; [apply extracted_call_method|]. split; [apply extracted_route_method|].
  unfold _map_api_calls. cbn [api_calls endpoints].
  apply flat_map_nil. intros c Hc. apply flat_map_nil. intros e He.
  rewrite (dotted_method_no_route (ac_method c) (ep_method e)).
  - by rewrite andb_false_r.
  - by apply extracted_call_method in Hc.
  - by apply extracted_route_method in He.
Qed.

End AgentsMoreFacts.
